(** * ot-daemon vendor commands and session socket (src/posix/platform/daemon.cpp)

    A shallow embedding of the vendor specific CLI handlers
    ([ProcessIRConfig], [ProcessSetEui64], [ProcessGetSetTxPowerLimit],
    [ProcessMfgGetInt8], [ProcessMfgSetInt8], [ProcessMfgCommands]) and of the
    session socket handling of [Daemon] ([InitializeSessionSocket],
    [OutputFormatV], [Process], [TearDown]).

    Conventions.
    - [uint8_t], [int8_t] and [uint16_t] values are integers in [Z]; every C
      conversion is written out ([to_uint8], [to_int8], [to_uint16]).
    - A C string is a [string]; the bytes before the first NUL are its
      contents ([c_str]).
    - The handlers run in the monad [M]: a state monad over [World] (the
      static [mfgEnable], the radio behind the platform API, and the list of
      external calls made so far) whose [None] stands for a read outside an
      object (undefined behaviour in C).
    - The platform API ([otPlatRadio...]) is not part of the file: it is a
      record of functions over an abstract radio state.

    The remaining handlers ([ProcessIRCmd], [ProcessGetSetCcaCfg],
    [ProcessGetFwVersion], [ProcessGetSetIRThreshold]) are in [Vendor],
    [Daemon::Update] and the output buffer of [OutputFormatV] in [Mainloop],
    [GetFilename], [createListenSocketOrDie] and [SetUp] in [Lifecycle]. *)

From Stdlib Require Import ZArith Lia Ascii String.
From stdpp Require Import base numbers list strings gmap.

Local Open Scope Z_scope.

(** ** Machine integers *)

Module C.

Definition to_uint8 (z : Z) : Z := z mod 256.
Definition to_uint16 (z : Z) : Z := z mod 65536.
Definition to_int8 (z : Z) : Z := (z + 128) mod 256 - 128.

End C.

(** ** The part of libc the handlers use *)

Module Libc.

Definition code (c : ascii) : Z := Z.of_N (N_of_ascii c).

(** The bytes of a C string: everything before the terminating NUL. *)
Fixpoint c_str (s : string) : list Z :=
  match s with
  | EmptyString => []
  | String c r => if code c =? 0 then [] else code c :: c_str r
  end.

Definition strlen (s : string) : Z := Z.of_nat (List.length (c_str s)).

(** [s[i]]: a byte of the string, the terminator at index [strlen s], and
    no defined value past it. *)
Definition char_at (s : string) (i : nat) : option Z :=
  match c_str s !! i with
  | Some c => Some c
  | None => if decide (i = List.length (c_str s)) then Some 0 else None
  end.

Definition isspace (c : Z) : bool := (c =? 32) || ((9 <=? c) && (c <=? 13)).

Fixpoint skip_space (l : list Z) : list Z :=
  match l with
  | c :: r => if isspace c then skip_space r else l
  | [] => []
  end.

(** Value of a character as a digit in [base], [None] if it is none. *)
Definition digit_val (base c : Z) : option Z :=
  let v := if (48 <=? c) && (c <=? 57) then c - 48
           else if (97 <=? c) && (c <=? 122) then c - 97 + 10
           else if (65 <=? c) && (c <=? 90) then c - 65 + 10
           else base in
  if v <? base then Some v else None.

Fixpoint digits (base acc : Z) (l : list Z) : Z :=
  match l with
  | c :: r => match digit_val base c with
              | Some d => digits base (acc * base + d) r
              | None => acc
              end
  | [] => acc
  end.

(** [strtol(s, NULL, base)] for base 10 and 16: leading white space, an
    optional sign, for base 16 an optional [0x] in front of a hex digit, then
    the longest run of digits; 0 when there is none. The result is the
    mathematical value: it is the C result whenever that fits the C type
    (beyond it libc saturates, and [atoi] is undefined). *)
Definition strtol (s : string) (base : Z) : Z :=
  let l := skip_space (c_str s) in
  let '(neg, l1) := match l with
                    | 45 :: r => (true, r)
                    | 43 :: r => (false, r)
                    | _ => (false, l)
                    end in
  let l2 := match l1 with
            | 48 :: x :: h :: r =>
                if (base =? 16) && ((x =? 120) || (x =? 88))
                   && bool_decide (is_Some (digit_val 16 h))
                then h :: r else l1
            | _ => l1
            end in
  let v := digits base 0 l2 in
  if neg then - v else v.

Definition atoi (s : string) : Z := strtol s 10.

End Libc.

Import C Libc.

(** ** Errors, external calls, platform *)

Inductive otError : Type :=
| OT_ERROR_NONE
| OT_ERROR_FAILED
| OT_ERROR_INVALID_ARGS
| OT_ERROR_NOT_IMPLEMENTED.

Global Instance otError_eq_dec : EqDecision otError.
Proof. solve_decision. Defined.

Definition MFG_CMD_ACTION_GET : Z := 0.
Definition MFG_CMD_ACTION_SET : Z := 1.

Definition MFG_CMD_GET_SET_CHANNEL : Z := 11.
Definition MFG_CMD_GET_SET_TXPOWER : Z := 15.
Definition MFG_CMD_CONTINUOUS_TX : Z := 17.
Definition MFG_CMD_GET_SET_PAYLOAD_SIZE : Z := 20.
Definition MFG_CMD_GET_RX_RESULT : Z := 31.
Definition MFG_CMD_START_RX_TEST : Z := 32.
Definition MFG_CMD_BURST_TX : Z := 33.
Definition MFG_CMD_DUTY_CYCLE_TX : Z := 35.
Definition MFG_CMD_GET_SET_CCA_THRESHOLD : Z := 47.
Definition MFG_CMD_CONTINOUS_CCA_TEST : Z := 49.
Definition MFG_CMD_GET_CCA_STATUS : Z := 50.
Definition MFG_CMD_CONTINOUS_ED_TEST : Z := 55.
Definition MFG_CMD_GET_ED_VALUE : Z := 56.
Definition MFG_CMD_PHY_TX_TEST_PSDU : Z := 57.
Definition MFG_CMD_PHY_RX_TX_ACK_TEST : Z := 58.
Definition MFG_CMD_SET_GENERIC_PARAM : Z := 59.

(** One entry per call that leaves the file, in program order. *)
Inductive Event : Type :=
| EvMfgCommand (payload : list Z) (payloadLen : Z)
| EvSetIeeeEui64 (addr : list Z)
| EvSetTxPowerLimit (txPowerLimit : Z)
| EvGetTxPowerLimit
| EvSetIRConfig (mode : Z)
| EvGetIRConfig
| EvCliOutput (format : string) (args : list Z).

Global Instance Event_eq_dec : EqDecision Event.
Proof. solve_decision. Defined.

(** The radio platform API the handlers call. [otPlatRadioMfgCommand] works
    in place: it is given the buffer and its length and answers with the new
    contents of the buffer and the value stored through [outputLen]. The
    getters answer with the value stored through their out pointer. *)
Record Platform (R : Type) : Type := {
  otPlatRadioMfgCommand : R → list Z → Z → list Z * Z * R;
  otPlatRadioSetIeeeEui64 : R → list Z → otError * R;
  otPlatRadioSetTxPowerLimit : R → Z → R;
  otPlatRadioGetTxPowerLimit : R → Z * R;
  otPlatRadioSetIRConfig : R → Z → R;
  otPlatRadioGetIRConfig : R → Z * R
}.
Arguments otPlatRadioMfgCommand {R}.
Arguments otPlatRadioSetIeeeEui64 {R}.
Arguments otPlatRadioSetTxPowerLimit {R}.
Arguments otPlatRadioGetTxPowerLimit {R}.
Arguments otPlatRadioSetIRConfig {R}.
Arguments otPlatRadioGetIRConfig {R}.

(** The transport answers inside the buffer it was given. *)
Definition in_place {R} (P : Platform R) : Prop :=
  ∀ r payload n, length (otPlatRadioMfgCommand P r payload n).1.1 = length payload.

Record World (R : Type) : Type := mkWorld {
  mfgEnable : Z;
  radio : R;
  trace : list Event
}.
Arguments mkWorld {R}.
Arguments mfgEnable {R}.
Arguments radio {R}.
Arguments trace {R}.

(** ** The monad of the handlers *)

Definition M (R A : Type) : Type := World R → option (A * World R).

Definition ret {R A} (a : A) : M R A := λ w, Some (a, w).

Definition bind {R A B} (m : M R A) (k : A → M R B) : M R B :=
  λ w, match m w with
       | Some (a, w') => k a w'
       | None => None
       end.

Declare Scope handler_scope.
Delimit Scope handler_scope with handler.
Notation "'let*' x ':=' m 'in' k" := (bind m (λ x, k))
  (at level 10, x name, m at level 100, k at level 200, only parsing) : handler_scope.
Notation "'do' m 'then' k" := (bind m (λ _, k))
  (at level 10, m at level 100, k at level 200, only parsing) : handler_scope.
Local Open Scope handler_scope.

(** A read outside the object. *)
Definition undefined {R A} : M R A := λ _, None.

Definition lift {R A} (o : option A) : M R A :=
  match o with
  | Some a => ret a
  | None => undefined
  end.

Definition emit {R} (e : Event) : M R unit :=
  λ w, Some (tt, mkWorld (mfgEnable w) (radio w) (trace w ++ [e])).

Definition get_mfgEnable {R} : M R Z := λ w, Some (mfgEnable w, w).

Definition set_mfgEnable {R} (v : Z) : M R unit :=
  λ w, Some (tt, mkWorld v (radio w) (trace w)).

Definition otCliOutputFormat {R} (format : string) (args : list Z) : M R unit :=
  emit (EvCliOutput format args).

Section Calls.
Context {R : Type} (P : Platform R).

Definition callMfgCommand (payload : list Z) (payloadLen : Z) : M R (list Z * Z) :=
  λ w, let '(resp, outputLen, r) := otPlatRadioMfgCommand P (radio w) payload payloadLen in
       Some ((resp, outputLen),
             mkWorld (mfgEnable w) r (trace w ++ [EvMfgCommand payload payloadLen])).

Definition callSetIeeeEui64 (addr : list Z) : M R otError :=
  λ w, let '(e, r) := otPlatRadioSetIeeeEui64 P (radio w) addr in
       Some (e, mkWorld (mfgEnable w) r (trace w ++ [EvSetIeeeEui64 addr])).

Definition callSetTxPowerLimit (v : Z) : M R unit :=
  λ w, Some (tt, mkWorld (mfgEnable w) (otPlatRadioSetTxPowerLimit P (radio w) v)
                         (trace w ++ [EvSetTxPowerLimit v])).

Definition callGetTxPowerLimit : M R Z :=
  λ w, let '(v, r) := otPlatRadioGetTxPowerLimit P (radio w) in
       Some (v, mkWorld (mfgEnable w) r (trace w ++ [EvGetTxPowerLimit])).

Definition callSetIRConfig (mode : Z) : M R unit :=
  λ w, Some (tt, mkWorld (mfgEnable w) (otPlatRadioSetIRConfig P (radio w) mode)
                         (trace w ++ [EvSetIRConfig mode])).

Definition callGetIRConfig : M R Z :=
  λ w, let '(v, r) := otPlatRadioGetIRConfig P (radio w) in
       Some (v, mkWorld (mfgEnable w) r (trace w ++ [EvGetIRConfig])).

(** ** ProcessIRConfig *)

Definition ProcessIRConfig (aArgsLength : Z) (aArgs : list string) : M R otError :=
  if aArgsLength =? 1 then
    let* a0 := lift (aArgs !! 0%nat) in
    let mode := to_uint8 (atoi a0) in
    if mode <? 4 then
      do callSetIRConfig mode then
      ret OT_ERROR_NONE
    else ret OT_ERROR_INVALID_ARGS
  else
    let* mode := callGetIRConfig in
    do otCliOutputFormat "%d\r\n" [mode] then
    ret OT_ERROR_NONE.

(** ** ProcessGetSetTxPowerLimit *)

Definition ProcessGetSetTxPowerLimit (aArgsLength : Z) (aArgs : list string) : M R otError :=
  if aArgsLength =? 1 then
    let* a0 := lift (aArgs !! 0%nat) in
    let txPowerLimit := to_uint8 (atoi a0) in
    do callSetTxPowerLimit txPowerLimit then
    ret OT_ERROR_NONE
  else if aArgsLength =? 0 then
    let* txPowerLimit := callGetTxPowerLimit in
    do otCliOutputFormat "%d\r\n" [txPowerLimit] then
    ret OT_ERROR_NONE
  else ret OT_ERROR_INVALID_ARGS.

(** ** ProcessSetEui64 *)

(** [addr.m8[i] = (addr.m8[i] << 4) | (byte & 0xF)], stored in a [uint8_t]. *)
Definition shift_in (m8i byte : Z) : Z :=
  to_uint8 (Z.lor (Z.shiftl m8i 4) (Z.land byte 15)).

(** The inner loop over [k]: [count] digits are still to be read, [pos] is
    the offset of [hex] in the argument and [m8i] the value of [addr.m8[i]].
    It yields the error, the new offset and the byte. *)
Fixpoint eui64_digits (count : nat) (arg : string) (pos : nat) (m8i : Z)
  : option (otError * nat * Z) :=
  match count with
  | O => Some (OT_ERROR_NONE, pos, m8i)
  | S count' =>
      byte ← char_at arg pos;
      if (48 <=? byte) && (byte <=? 57) then
        eui64_digits count' arg (S pos) (shift_in m8i (to_uint8 (byte - 48)))
      else if (97 <=? byte) && (byte <=? 102) then
        eui64_digits count' arg (S pos) (shift_in m8i (to_uint8 (byte - 97 + 10)))
      else if (65 <=? byte) && (byte <=? 70) then
        eui64_digits count' arg (S pos) (shift_in m8i (to_uint8 (byte - 65 + 10)))
      else Some (OT_ERROR_FAILED, S pos, m8i)
  end.

(** The outer loop over [i], which runs while [error == OT_ERROR_NONE]. *)
Fixpoint eui64_bytes (count : nat) (i : nat) (arg : string) (pos : nat) (addr : list Z)
  : option (otError * list Z) :=
  match count with
  | O => Some (OT_ERROR_NONE, addr)
  | S count' =>
      r ← eui64_digits 2 arg pos 0;
      let '(error, pos', m8i) := r in
      let addr' := <[i := m8i]> addr in
      if decide (error = OT_ERROR_NONE) then eui64_bytes count' (S i) arg pos' addr'
      else Some (error, addr')
  end.

Definition ProcessSetEui64 (aArgsLength : Z) (aArgs : list string) : M R otError :=
  if aArgsLength =? 1 then
    let* hex := lift (aArgs !! 0%nat) in
    let* hex1 := lift (char_at hex 1) in
    if (hex1 =? 120) && (strlen hex =? 18) then
      let* r := lift (eui64_bytes 8 0 hex 2 (replicate 8 0)) in
      let '(error, addr) := r in
      if decide (error = OT_ERROR_NONE) then callSetIeeeEui64 addr
      else ret error
    else ret OT_ERROR_INVALID_ARGS
  else ret OT_ERROR_INVALID_ARGS.

(** ** ProcessMfgGetInt8 and ProcessMfgSetInt8 *)

(** [uint8_t payload[12] = {11}] *)
Definition payload_init : list Z := [11; 0; 0; 0; 0; 0; 0; 0; 0; 0; 0; 0].
Definition payloadLen : Z := 12.

Definition ProcessMfgGetInt8 (cmdId aArgsLength : Z) : M R otError :=
  if aArgsLength =? 1 then
    let payload := <[2%nat := MFG_CMD_ACTION_GET]> (<[1%nat := cmdId]> payload_init) in
    let* r := callMfgCommand payload payloadLen in
    let '(payload, outputLen) := r in
    if 5 <=? outputLen then
      let* status := lift (payload !! 3%nat) in
      if status =? 0 then
        let* p4 := lift (payload !! 4%nat) in
        do (if cmdId =? MFG_CMD_GET_SET_TXPOWER
            then otCliOutputFormat "%d\r\n" [to_int8 p4 ÷ 2]
            else otCliOutputFormat "%d\r\n" [to_int8 p4]) then
        ret OT_ERROR_NONE
      else ret OT_ERROR_FAILED
    else ret OT_ERROR_FAILED
  else ret OT_ERROR_INVALID_ARGS.

Definition ProcessMfgSetInt8 (cmdId aArgsLength : Z) (aArgs : list string) (min max : Z)
  : M R otError :=
  if aArgsLength =? 2 then
    let* a1 := lift (aArgs !! 1%nat) in
    let setValue := to_int8 (atoi a1) in
    if (min <=? setValue) && (setValue <=? max) then
      let payload := <[2%nat := MFG_CMD_ACTION_SET]> (<[1%nat := cmdId]> payload_init) in
      let payload :=
        if cmdId =? MFG_CMD_GET_SET_TXPOWER
        then <[4%nat := to_uint8 (Z.shiftl (to_uint8 setValue) 1)]> payload
        else <[4%nat := to_uint8 setValue]> payload in
      let* r := callMfgCommand payload payloadLen in
      let '(payload, outputLen) := r in
      if 4 <=? outputLen then
        let* status := lift (payload !! 3%nat) in
        if status =? 0 then ret OT_ERROR_NONE else ret OT_ERROR_FAILED
      else ret OT_ERROR_FAILED
    else ret OT_ERROR_INVALID_ARGS
  else ret OT_ERROR_INVALID_ARGS.

(** ** ProcessMfgCommands *)

(** [for(idx = 0; idx < payloadLen; idx++) payload[idx] = (uint8_t)atoi(aArgs[idx]);]
    with [count] iterations still to run. *)
Fixpoint fill_payload (count idx : nat) (aArgs : list string) (payload : list Z)
  : option (list Z) :=
  match count with
  | O => Some payload
  | S count' =>
      a ← aArgs !! idx;
      fill_payload count' (S idx) aArgs (<[idx := to_uint8 (atoi a)]> payload)
  end.

(** [for(idx = 0; idx < outputLen; idx++) otCliOutputFormat("%d ", payload[idx]);] *)
Fixpoint echo_payload (count idx : nat) (payload : list Z) : M R unit :=
  match count with
  | O => ret tt
  | S count' =>
      let* b := lift (payload !! idx) in
      do otCliOutputFormat "%d " [b] then
      echo_payload count' (S idx) payload
  end.

(** A case that leaves the local [payload] as it is. *)
Definition keeping (payload : list Z) (m : M R otError) : M R (otError * list Z) :=
  let* error := m in ret (error, payload).

(** The [switch (cmdId)]: the cases are distinct constants, tried in the
    order of the source. It yields [error] and the local [payload]. *)
Definition mfg_switch (cmdId aArgsLength : Z) (aArgs : list string) (payload : list Z)
  : M R (otError * list Z) :=
  if cmdId =? MFG_CMD_GET_SET_CHANNEL then
    keeping payload (ProcessMfgGetInt8 MFG_CMD_GET_SET_CHANNEL aArgsLength)
  else if cmdId =? MFG_CMD_GET_SET_CHANNEL + 1 then
    keeping payload (ProcessMfgSetInt8 MFG_CMD_GET_SET_CHANNEL aArgsLength aArgs 11 26)
  else if cmdId =? MFG_CMD_GET_SET_TXPOWER then
    keeping payload (ProcessMfgGetInt8 MFG_CMD_GET_SET_TXPOWER aArgsLength)
  else if cmdId =? MFG_CMD_GET_SET_TXPOWER + 1 then
    keeping payload (ProcessMfgSetInt8 MFG_CMD_GET_SET_TXPOWER aArgsLength aArgs (-20) 22)
  else if cmdId =? MFG_CMD_CONTINUOUS_TX then
    keeping payload (ProcessMfgSetInt8 MFG_CMD_CONTINUOUS_TX aArgsLength aArgs 0 1)
  else if cmdId =? MFG_CMD_GET_SET_PAYLOAD_SIZE then
    keeping payload (ProcessMfgGetInt8 MFG_CMD_GET_SET_PAYLOAD_SIZE aArgsLength)
  else if cmdId =? MFG_CMD_GET_SET_PAYLOAD_SIZE + 1 then
    keeping payload (ProcessMfgSetInt8 MFG_CMD_GET_SET_PAYLOAD_SIZE aArgsLength aArgs 17 116)
  else if cmdId =? MFG_CMD_GET_RX_RESULT then
    if aArgsLength =? 1 then
      let payload := <[2%nat := MFG_CMD_ACTION_GET]>
                       (<[1%nat := MFG_CMD_GET_RX_RESULT]> payload) in
      let* r := callMfgCommand payload payloadLen in
      let '(payload, outputLen) := r in
      if 11 <=? outputLen then
        let* p4 := lift (payload !! 4%nat) in
        let* p5 := lift (payload !! 5%nat) in
        let* p6 := lift (payload !! 6%nat) in
        let* p7 := lift (payload !! 7%nat) in
        let* p8 := lift (payload !! 8%nat) in
        let* p9 := lift (payload !! 9%nat) in
        let* p10 := lift (payload !! 10%nat) in
        do otCliOutputFormat "status : %d\r\n" [p4] then
        do otCliOutputFormat "rx_pkt_count : %d\r\n" [Z.lor p5 (Z.shiftl p6 8)] then
        do otCliOutputFormat "total_pkt_count : %d\r\n" [Z.lor p7 (Z.shiftl p8 8)] then
        do otCliOutputFormat "rssi : %d\r\n" [to_int8 p9] then
        do otCliOutputFormat "lqi : %d\r\n" [p10] then
        ret (OT_ERROR_NONE, payload)
      else ret (OT_ERROR_FAILED, payload)
    else ret (OT_ERROR_INVALID_ARGS, payload)
  else if cmdId =? MFG_CMD_START_RX_TEST then
    if aArgsLength =? 1 then
      let payload := <[1%nat := MFG_CMD_START_RX_TEST]> payload in
      let* r := callMfgCommand payload payloadLen in
      ret (OT_ERROR_NONE, r.1)
    else ret (OT_ERROR_INVALID_ARGS, payload)
  else if cmdId =? MFG_CMD_BURST_TX then
    if aArgsLength =? 3 then
      let* a1 := lift (aArgs !! 1%nat) in
      let* a2 := lift (aArgs !! 2%nat) in
      let mode := to_uint8 (atoi a1) in
      let gap := to_uint8 (atoi a2) in
      if (mode <? 8) && (5 <? gap) then
        let payload := <[5%nat := gap]>
                         (<[4%nat := mode]> (<[1%nat := MFG_CMD_BURST_TX]> payload)) in
        let* r := callMfgCommand payload payloadLen in
        ret (OT_ERROR_NONE, r.1)
      else ret (OT_ERROR_INVALID_ARGS, payload)
    else ret (OT_ERROR_INVALID_ARGS, payload)
  else if cmdId =? MFG_CMD_DUTY_CYCLE_TX then
    keeping payload (ProcessMfgSetInt8 MFG_CMD_DUTY_CYCLE_TX aArgsLength aArgs 0 1)
  else if cmdId =? MFG_CMD_GET_SET_CCA_THRESHOLD then
    keeping payload (ProcessMfgGetInt8 MFG_CMD_GET_SET_CCA_THRESHOLD aArgsLength)
  else if cmdId =? MFG_CMD_GET_SET_CCA_THRESHOLD + 1 then
    keeping payload (ProcessMfgSetInt8 MFG_CMD_GET_SET_CCA_THRESHOLD aArgsLength aArgs (-110) 0)
  else if cmdId =? MFG_CMD_CONTINOUS_CCA_TEST then
    if aArgsLength =? 3 then
      let* a1 := lift (aArgs !! 1%nat) in
      let* a2 := lift (aArgs !! 2%nat) in
      let payload := <[5%nat := to_uint8 (atoi a2)]>
                       (<[4%nat := to_uint8 (atoi a1)]>
                          (<[2%nat := MFG_CMD_ACTION_SET]>
                             (<[1%nat := MFG_CMD_CONTINOUS_CCA_TEST]> payload))) in
      let* p4 := lift (payload !! 4%nat) in
      let* p5 := lift (payload !! 5%nat) in
      if (p4 <? 2) && (p5 <? 4) then
        let* r := callMfgCommand payload payloadLen in
        let '(payload, outputLen) := r in
        if 4 <=? outputLen then
          let* status := lift (payload !! 3%nat) in
          if status =? 0 then ret (OT_ERROR_NONE, payload)
          else ret (OT_ERROR_FAILED, payload)
        else ret (OT_ERROR_FAILED, payload)
      else ret (OT_ERROR_INVALID_ARGS, payload)
    else ret (OT_ERROR_INVALID_ARGS, payload)
  else if cmdId =? MFG_CMD_GET_CCA_STATUS then
    keeping payload (ProcessMfgGetInt8 MFG_CMD_GET_CCA_STATUS aArgsLength)
  else if cmdId =? MFG_CMD_CONTINOUS_ED_TEST then
    keeping payload (ProcessMfgSetInt8 MFG_CMD_CONTINOUS_ED_TEST aArgsLength aArgs 0 1)
  else if cmdId =? MFG_CMD_GET_ED_VALUE then
    keeping payload (ProcessMfgGetInt8 MFG_CMD_GET_ED_VALUE aArgsLength)
  else if cmdId =? MFG_CMD_PHY_TX_TEST_PSDU then
    if aArgsLength =? 4 then
      let payload := <[2%nat := MFG_CMD_ACTION_SET]>
                       (<[1%nat := MFG_CMD_PHY_TX_TEST_PSDU]> payload) in
      let* a1 := lift (aArgs !! 1%nat) in
      let* a2 := lift (aArgs !! 2%nat) in
      let* a3 := lift (aArgs !! 3%nat) in
      let count_opt := to_uint8 (atoi a1) in
      let gap := to_uint8 (atoi a2) in
      let ackEnable := to_uint8 (atoi a3) in
      if (count_opt <? 8) && (5 <? gap) && (ackEnable <? 2) then
        let payload := <[6%nat := ackEnable]>
                         (<[5%nat := gap]> (<[4%nat := count_opt]> payload)) in
        let* r := callMfgCommand payload payloadLen in
        ret (OT_ERROR_NONE, r.1)
      else ret (OT_ERROR_INVALID_ARGS, payload)
    else ret (OT_ERROR_INVALID_ARGS, payload)
  else if cmdId =? MFG_CMD_PHY_RX_TX_ACK_TEST then
    keeping payload (ProcessMfgSetInt8 MFG_CMD_PHY_RX_TX_ACK_TEST aArgsLength aArgs 0 1)
  else if cmdId =? MFG_CMD_SET_GENERIC_PARAM then
    if aArgsLength =? 5 then
      let* a1 := lift (aArgs !! 1%nat) in
      let* a2 := lift (aArgs !! 2%nat) in
      let* a3 := lift (aArgs !! 3%nat) in
      let* a4 := lift (aArgs !! 4%nat) in
      let panid := to_uint16 (strtol a2 16) in
      let destaddr := to_uint16 (strtol a3 16) in
      let srcaddr := to_uint16 (strtol a4 16) in
      let payload :=
        <[10%nat := to_uint8 (Z.land (Z.shiftr srcaddr 8) 255)]>
          (<[9%nat := to_uint8 (Z.land srcaddr 255)]>
             (<[8%nat := to_uint8 (Z.land (Z.shiftr destaddr 8) 255)]>
                (<[7%nat := to_uint8 (Z.land destaddr 255)]>
                   (<[6%nat := to_uint8 (Z.land (Z.shiftr panid 8) 255)]>
                      (<[5%nat := to_uint8 (Z.land panid 255)]>
                         (<[4%nat := to_uint8 (atoi a1)]>
                            (<[2%nat := MFG_CMD_ACTION_SET]>
                               (<[1%nat := MFG_CMD_SET_GENERIC_PARAM]> payload)))))))) in
      let* r := callMfgCommand payload payloadLen in
      ret (OT_ERROR_NONE, r.1)
    else ret (OT_ERROR_INVALID_ARGS, payload)
  else ret (OT_ERROR_NOT_IMPLEMENTED, payload).

(** The tail of [ProcessMfgCommands], after the comment [HANDLE ERRORS]. *)
Definition mfg_handle_errors (error : otError) (aArgsLength : Z) (aArgs : list string)
    (payload : list Z) : M R otError :=
  if decide (error = OT_ERROR_NONE) then ret error
  else if aArgsLength =? payloadLen then
    let* payload := lift (fill_payload (Z.to_nat payloadLen) 0 aArgs payload) in
    let* r := callMfgCommand payload payloadLen in
    let '(payload, outputLen) := r in
    do echo_payload (Z.to_nat outputLen) 0 payload then
    do otCliOutputFormat "\r\n" [] then
    ret OT_ERROR_NONE
  else if decide (error = OT_ERROR_INVALID_ARGS) then ret error
  else if decide (error = OT_ERROR_NOT_IMPLEMENTED) then
    do otCliOutputFormat "NOT IMPLEMENTED\r\n" [] then
    ret error
  else
    do otCliOutputFormat "FAILED\r\n" [] then
    ret error.

Definition ProcessMfgCommands (aArgsLength : Z) (aArgs : list string) : M R otError :=
  let* toggled :=
    (if aArgsLength =? 1 then
       let* a0 := lift (aArgs !! 0%nat) in
       let cmdId := to_uint8 (atoi a0) in
       if (cmdId =? 0) || (cmdId =? 1) then
         do set_mfgEnable cmdId then ret true
       else ret false
     else ret false) in
  if toggled : bool then ret OT_ERROR_NONE
  else
    let* enable := get_mfgEnable in
    if enable =? 0 then
      do otCliOutputFormat "MFG command not enabled. to enable it : mfgcmd 1\r\n" [] then
      ret OT_ERROR_NONE
    else
      let* r :=
        (if (0 <? aArgsLength) && (enable =? 1) then
           let* a0 := lift (aArgs !! 0%nat) in
           mfg_switch (to_uint8 (atoi a0)) aArgsLength aArgs payload_init
         else ret (OT_ERROR_INVALID_ARGS, payload_init)) in
      let '(error, payload) := r in
      mfg_handle_errors error aArgsLength aArgs payload.

End Calls.

(** ** A radio for concrete runs

    A one register radio: a SET frame stores byte 4, a GET frame answers with
    it, status 0 in both cases. *)
Definition register_radio : Platform Z := {|
  otPlatRadioMfgCommand := λ r payload _,
    match payload !! 2%nat with
    | Some 1 => (<[3%nat := 0]> payload, 4, default r (payload !! 4%nat))
    | _ => (<[4%nat := r]> (<[3%nat := 0]> payload), 5, r)
    end;
  otPlatRadioSetIeeeEui64 := λ r _, (OT_ERROR_NONE, r);
  otPlatRadioSetTxPowerLimit := λ _ v, v;
  otPlatRadioGetTxPowerLimit := λ r, (r, r);
  otPlatRadioSetIRConfig := λ _ mode, mode;
  otPlatRadioGetIRConfig := λ r, (r, r)
|}.

(** The world at start up: [static uint8_t mfgEnable = 0]. *)
Definition world_init : World Z := mkWorld 0 0 [].

(** The opcodes that have a [case] in [ProcessMfgCommands]. *)
Definition mfg_cases : list Z :=
  [11; 12; 15; 16; 17; 20; 21; 31; 32; 33; 35; 47; 48; 49; 50; 55; 56; 57; 58; 59].

(** The number of [otPlatRadioMfgCommand] calls in a trace. *)
Definition is_transport_call (e : Event) : bool :=
  match e with EvMfgCommand _ _ => true | _ => false end.

Definition transport_calls (tr : list Event) : nat :=
  length (List.filter is_transport_call tr).

(** ** The session socket of [Daemon] *)

Module Session.

(** System calls on descriptors, in program order, with their results. *)
Inductive Sys : Type :=
| SysAccept (listenFd ret : Z)
| SysFcntlGetFd (fd ret : Z)
| SysFcntlSetFd (fd flags ret : Z)
| SysClose (fd : Z)
| SysSend (fd len ret : Z)
| SysRead (fd ret : Z).

(** The two members of [Daemon] the session code uses, and the kernel side:
    [accepted] holds the descriptors [accept] has returned and [close] has
    not yet been called on. *)
Record Daemon : Type := mkDaemon {
  mListenSocket : Z;
  mSessionSocket : Z;
  accepted : gset Z;
  syscalls : list Sys
}.

(** What the outside world answers during one call of [Process]: the
    descriptor sets of [select], the results of the system calls, and, for
    the line handed to [otCliInputLine], the outputs the CLI makes through
    [OutputFormatV], each with the result of [vsnprintf] and of [send]. *)
Record Tick : Type := mkTick {
  tReadFds : gset Z;
  tErrorFds : gset Z;
  tAccept : Z;
  tGetFd : Z;
  tSetFd : Z;
  tRead : Z;
  tSend : Z;
  tOutputs : list (Z * Z)
}.

Definition FD_CLOEXEC : Z := 1.

Definition log (c : Sys) (d : Daemon) : Daemon :=
  mkDaemon (mListenSocket d) (mSessionSocket d) (accepted d) (syscalls d ++ [c]).

Definition set_mSessionSocket (fd : Z) (d : Daemon) : Daemon :=
  mkDaemon (mListenSocket d) fd (accepted d) (syscalls d).

Definition set_mListenSocket (fd : Z) (d : Daemon) : Daemon :=
  mkDaemon fd (mSessionSocket d) (accepted d) (syscalls d).

Definition accept (ret : Z) (d : Daemon) : Daemon :=
  let d' := log (SysAccept (mListenSocket d) ret) d in
  if ret =? -1 then d'
  else mkDaemon (mListenSocket d') (mSessionSocket d') (accepted d' ∪ {[ret]}) (syscalls d').

Definition close (fd : Z) (d : Daemon) : Daemon :=
  mkDaemon (mListenSocket d) (mSessionSocket d) (accepted d ∖ {[fd]})
           (syscalls d ++ [SysClose fd]).

(** [InitializeSessionSocket], as compiled on Linux. *)
Definition InitializeSessionSocket (t : Tick) (d : Daemon) : Daemon :=
  let newSessionSocket := tAccept t in
  let d := accept newSessionSocket d in
  let '(rval, d) :=
    if newSessionSocket =? -1 then (-1, d)
    else
      let rval := tGetFd t in
      let d := log (SysFcntlGetFd newSessionSocket rval) d in
      if rval =? -1 then (rval, d)
      else
        let flags := Z.lor rval FD_CLOEXEC in
        let rval := tSetFd t in
        let d := log (SysFcntlSetFd newSessionSocket flags rval) d in
        if rval =? -1 then (rval, d)
        else
          let d := if mSessionSocket d =? -1 then d else close (mSessionSocket d) d in
          (rval, set_mSessionSocket newSessionSocket d) in
  if rval =? -1 then
    if newSessionSocket =? -1 then d else close newSessionSocket d
  else d.

Section Config.
(** [OPENTHREAD_CONFIG_CLI_MAX_LINE_LENGTH] and
    [OPENTHREAD_POSIX_CONFIG_DAEMON_CLI_ENABLE] come from the build
    configuration; [androidInit] says that [init] owns the listen socket
    ([__ANDROID__] without the NDK). *)
Variable OPENTHREAD_CONFIG_CLI_MAX_LINE_LENGTH : Z.
Variable OPENTHREAD_POSIX_CONFIG_DAEMON_CLI_ENABLE : bool.
Variable androidInit : bool.

(** [OutputFormatV]: [formatted] is the result of [vsnprintf] and [sent] the
    result of [send]. *)
Definition OutputFormatV (formatted sent : Z) (d : Daemon) : Z * Daemon :=
  let rval := formatted in
  if rval <? 0 then (rval, d)
  else
    let rval := if OPENTHREAD_CONFIG_CLI_MAX_LINE_LENGTH <=? rval
                then OPENTHREAD_CONFIG_CLI_MAX_LINE_LENGTH - 1 else rval in
    if mSessionSocket d =? -1 then (rval, d)
    else
      let d := log (SysSend (mSessionSocket d) rval sent) d in
      let rval := sent in
      if rval <? 0 then (rval, set_mSessionSocket (-1) (close (mSessionSocket d) d))
      else (rval, d).

(** [otCliInputLine]: the CLI interpreter is outside the file; what it does
    to the daemon is a sequence of outputs. *)
Definition otCliInputLine (outputs : list (Z * Z)) (d : Daemon) : Daemon :=
  foldl (λ d o, (OutputFormatV o.1 o.2 d).2) d outputs.

(** [Process]; [None] is [DieNowWithMessage]. *)
Definition Process (t : Tick) (d : Daemon) : option Daemon :=
  if mListenSocket d =? -1 then Some d
  else if decide (mListenSocket d ∈ tErrorFds t) then None
  else
    let d := if decide (mListenSocket d ∈ tReadFds t)
             then InitializeSessionSocket t d else d in
    if mSessionSocket d =? -1 then Some d
    else if decide (mSessionSocket d ∈ tErrorFds t) then
      Some (set_mSessionSocket (-1) (close (mSessionSocket d) d))
    else if decide (mSessionSocket d ∈ tReadFds t) then
      let rval := tRead t in
      let d := log (SysRead (mSessionSocket d) rval) d in
      if 0 <? rval then
        if OPENTHREAD_POSIX_CONFIG_DAEMON_CLI_ENABLE
        then Some (otCliInputLine (tOutputs t) d)
        else Some (OutputFormatV 24 (tSend t) d).2
      else Some (set_mSessionSocket (-1) (close (mSessionSocket d) d))
    else Some d.

(** [TearDown], the descriptors only. *)
Definition TearDown (d : Daemon) : Daemon :=
  let d := if mSessionSocket d =? -1 then d
           else set_mSessionSocket (-1) (close (mSessionSocket d) d) in
  if androidInit then d
  else if mListenSocket d =? -1 then d
  else set_mListenSocket (-1) (close (mListenSocket d) d).

(** The kernel hands out a descriptor that is not open. *)
Definition fresh_accept (t : Tick) (d : Daemon) : Prop :=
  tAccept t = (-1) ∨ tAccept t ∉ accepted d.

(** The session descriptors that are open are exactly the one the daemon
    holds, if it holds one. *)
Definition session_inv (d : Daemon) : Prop :=
  accepted d = if mSessionSocket d =? -1 then ∅ else {[mSessionSocket d]}.

(** The states of a daemon that starts without a session. *)
Inductive reachable : Daemon → Prop :=
| reach_start listenFd :
    reachable (mkDaemon listenFd (-1) ∅ [])
| reach_Process t d d' :
    reachable d → fresh_accept t d → Process t d = Some d' → reachable d'
| reach_TearDown d :
    reachable d → reachable (TearDown d).

End Config.

(** A daemon listening on descriptor 3 with a session on 5, and a call of
    [Process] during which a connection is accepted on 6. *)
Definition daemon_with_session : Daemon := mkDaemon 3 5 {[5]} [].
Definition tick_with_connection : Tick := mkTick {[3]} ∅ 6 0 0 0 0 [].

End Session.

(** ** Vocabulary of the statements *)

Definition not_enabled_message : string :=
  "MFG command not enabled. to enable it : mfgcmd 1\r\n".

(** The first test of [ProcessMfgCommands]: one argument that is 0 or 1
    after the cast to [uint8_t]. *)
Definition is_toggle (args : list string) : Prop :=
  ∃ a, args = [a] ∧ (to_uint8 (atoi a) = 0 ∨ to_uint8 (atoi a) = 1).

Definition raw_frame_args : list string :=
  ["11"; "33"; "0"; "0"; "7"; "9"; "0"; "0"; "0"; "0"; "0"; "0"].

(** The frames the two functions build. *)
Definition get_frame (cmdId : Z) : list Z :=
  [11; cmdId; MFG_CMD_ACTION_GET; 0; 0; 0; 0; 0; 0; 0; 0; 0].

Definition set_frame (cmdId byte4 : Z) : list Z :=
  [11; cmdId; MFG_CMD_ACTION_SET; 0; byte4; 0; 0; 0; 0; 0; 0; 0].

(** Byte 4 of a SET frame, and the number a GET prints for byte 4. *)
Definition encode_int8 (cmdId setValue : Z) : Z :=
  if cmdId =? MFG_CMD_GET_SET_TXPOWER
  then to_uint8 (Z.shiftl (to_uint8 setValue) 1)
  else to_uint8 setValue.

Definition decode_int8 (cmdId byte4 : Z) : Z :=
  if cmdId =? MFG_CMD_GET_SET_TXPOWER then to_int8 byte4 ÷ 2 else to_int8 byte4.

Definition sent {R} (w : World R) (r : R) (frame : list Z) : World R :=
  mkWorld (mfgEnable w) r (trace w ++ [EvMfgCommand frame payloadLen]).

Definition printed {R} (w : World R) (format : string) (args : list Z) : World R :=
  mkWorld (mfgEnable w) (radio w) (trace w ++ [EvCliOutput format args]).

(** [(uint8_t)atoi(aArgs[idx])] *)
Definition parse_byte (a : string) : Z := to_uint8 (atoi a).

Definition echoed (bytes : list Z) : list Event :=
  (λ b, EvCliOutput "%d " [b]) <$> bytes.

(** The message the tail of [ProcessMfgCommands] prints for an error. *)
Definition error_message (error : otError) : list Event :=
  match error with
  | OT_ERROR_NONE | OT_ERROR_INVALID_ARGS => []
  | OT_ERROR_NOT_IMPLEMENTED => [EvCliOutput "NOT IMPLEMENTED\r\n" []]
  | OT_ERROR_FAILED => [EvCliOutput "FAILED\r\n" []]
  end.

Definition logged {R} (w : World R) (events : list Event) : World R :=
  mkWorld (mfgEnable w) (radio w) (trace w ++ events).

Definition unknown_opcode_args : list string :=
  ["200"; "33"; "1"; "0"; "255"; "0"; "0"; "0"; "0"; "0"; "0"; "7"].

(** A hexadecimal digit and its value, by the three ranges of the loop in
    [ProcessSetEui64], and the bytes spelled by a run of digits, two digits a
    byte, high digit first. *)
Definition hex_value (byte : Z) : option Z :=
  if (48 <=? byte) && (byte <=? 57) then Some (byte - 48)
  else if (97 <=? byte) && (byte <=? 102) then Some (byte - 97 + 10)
  else if (65 <=? byte) && (byte <=? 70) then Some (byte - 65 + 10)
  else None.

Fixpoint eui64_decode (digits : list Z) : option (list Z) :=
  match digits with
  | [] => Some []
  | hi :: lo :: rest =>
      h ← hex_value hi; l ← hex_value lo; bytes ← eui64_decode rest;
      Some ((16 * h + l) :: bytes)
  | _ => None
  end.

(** ** Vocabulary of the further properties *)

(** [m] leaves [mfgEnable] as it is and adds at most [k] calls of
    [otPlatRadioMfgCommand] to the trace, whatever else it appends. *)
Definition bounded {R A} (k : nat) (m : M R A) : Prop :=
  ∀ w a w', m w = Some (a, w') →
    mfgEnable w' = mfgEnable w
    ∧ ∃ events, trace w' = trace w ++ events ∧ (transport_calls events ≤ k)%nat.

(** The frames of the commands that do not look at the response. *)
Definition start_rx_frame : list Z :=
  [11; MFG_CMD_START_RX_TEST; 0; 0; 0; 0; 0; 0; 0; 0; 0; 0].

Definition burst_tx_frame (mode gap : Z) : list Z :=
  [11; MFG_CMD_BURST_TX; 0; 0; mode; gap; 0; 0; 0; 0; 0; 0].

Definition phy_tx_frame (count_opt gap ackEnable : Z) : list Z :=
  [11; MFG_CMD_PHY_TX_TEST_PSDU; MFG_CMD_ACTION_SET; 0; count_opt; gap; ackEnable;
   0; 0; 0; 0; 0].

(** The frame of the generic parameter command: sequence number, then PAN
    identifier, destination and source address, low byte first. *)
Definition generic_param_frame (seq panid destaddr srcaddr : Z) : list Z :=
  [11; MFG_CMD_SET_GENERIC_PARAM; MFG_CMD_ACTION_SET; 0; seq;
   panid mod 256; panid / 256; destaddr mod 256; destaddr / 256;
   srcaddr mod 256; srcaddr / 256; 0].

Definition rx_result_frame : list Z :=
  [11; MFG_CMD_GET_RX_RESULT; MFG_CMD_ACTION_GET; 0; 0; 0; 0; 0; 0; 0; 0; 0].

(** What [mfgcmd 31] prints for a response. *)
Definition rx_result_report (resp : list Z) : list Event :=
  [EvCliOutput "status : %d\r\n" [resp !!! 4%nat];
   EvCliOutput "rx_pkt_count : %d\r\n" [resp !!! 5%nat + 256 * resp !!! 6%nat];
   EvCliOutput "total_pkt_count : %d\r\n" [resp !!! 7%nat + 256 * resp !!! 8%nat];
   EvCliOutput "rssi : %d\r\n" [to_int8 (resp !!! 9%nat)];
   EvCliOutput "lqi : %d\r\n" [resp !!! 10%nat]].

(** All bytes of a frame are [uint8_t] values. *)
Definition bytes (frame : list Z) : Prop := Forall (λ b, 0 ≤ b < 256) frame.

(** The number of arguments, opcode included, that the case of an opcode
    asks for. *)
Definition mfg_arg_count (cmdId : Z) : Z :=
  if bool_decide (cmdId ∈ [11; 15; 20; 31; 32; 47; 50; 56]) then 1
  else if bool_decide (cmdId ∈ [12; 16; 17; 21; 35; 48; 55; 58]) then 2
  else if bool_decide (cmdId ∈ [33; 49]) then 3
  else if cmdId =? 57 then 4
  else if cmdId =? 59 then 5
  else 0.

(** [(uint16_t)strtol(a, NULL, 16)] *)
Definition parse_hex16 (a : string) : Z := to_uint16 (strtol a 16).

(** A radio that answers every frame with the frame it holds (when that has
    the size of the buffer) and reports the whole buffer as response. *)
Definition replay_radio : Platform (list Z) := {|
  otPlatRadioMfgCommand := λ r payload _,
    (if decide (length r = length payload) then r else payload,
     Z.of_nat (length payload), r);
  otPlatRadioSetIeeeEui64 := λ r _, (OT_ERROR_NONE, r);
  otPlatRadioSetTxPowerLimit := λ r _, r;
  otPlatRadioGetTxPowerLimit := λ r, (0, r);
  otPlatRadioSetIRConfig := λ r _, r;
  otPlatRadioGetIRConfig := λ r, (0, r)
|}.

(** A response to [mfgcmd 31]: status 0, 300 packets of 1000, RSSI -60. *)
Definition rx_result_response : list Z := [11; 31; 0; 0; 0; 44; 1; 232; 3; 196; 200; 0].

(** The cases of the switch that go to [ProcessMfgSetInt8]: the opcode of
    the case, then the opcode sent in the frame and the range of the value;
    and the cases that go to [ProcessMfgGetInt8]. *)
Definition mfg_set_cases : list (Z * (Z * Z * Z)) :=
  [(12, (11, 11, 26)); (16, (15, -20, 22)); (17, (17, 0, 1)); (21, (20, 17, 116));
   (35, (35, 0, 1)); (48, (47, -110, 0)); (55, (55, 0, 1)); (58, (58, 0, 1))].

Definition mfg_get_cases : list Z := [11; 15; 20; 47; 50; 56].

(** The frame of the continuous CCA test. *)
Definition cca_test_frame (enable mode : Z) : list Z :=
  [11; MFG_CMD_CONTINOUS_CCA_TEST; MFG_CMD_ACTION_SET; 0; enable; mode; 0; 0; 0; 0; 0; 0].

(** ** The other vendor commands: ircmd, ccacfg, fwversion, irthold

    These handlers call four more functions of the platform API. They get a
    trace of their own, [Call], and run on a pair of the radio state and the
    calls made so far; [None] is again a read outside [aArgs]. *)

Module Vendor.

Record otCCAModeConfig : Type := mkCcaConfig {
  mCcaMode : Z;
  mCca1Threshold : Z;
  mCca2CorrThreshold : Z;
  mCca2MinNumOfCorrTh : Z
}.

Record otIRConfig : Type := mkIRConfig { mIRThreshold : Z }.

Definition MAX_VERSION_STRING_SIZE : Z := 128.

Inductive Call : Type :=
| CallSetIRCmd
| CallCcaConfigValue (aCcaConfig : otCCAModeConfig) (aSetValue : Z)
| CallGetFwVersionString (aVersionLength : Z)
| CallIRThresholdConfig (aIRConfig : otIRConfig) (aSetValue : Z)
| CallCliOutput (format : string) (args : list Z)
| CallCliOutputString (format : string) (arg : string).

(** The platform functions: the two configuration functions work on the
    structure they are handed and answer with its new contents; the version
    function answers with the string it wrote. *)
Record Radio (R : Type) : Type := {
  otPlatRadioSetIRCmd : R → R;
  otPlatRadioCcaConfigValue : R → otCCAModeConfig → Z → otCCAModeConfig * R;
  otPlatRadioGetFwVersionString : R → Z → string * R;
  otPlatRadioIRThresholdConfig : R → otIRConfig → Z → otIRConfig * R
}.
Arguments otPlatRadioSetIRCmd {R}.
Arguments otPlatRadioCcaConfigValue {R}.
Arguments otPlatRadioGetFwVersionString {R}.
Arguments otPlatRadioIRThresholdConfig {R}.

Definition State (R : Type) : Type := R * list Call.

Definition output {R} (format : string) (args : list Z) (s : State R) : State R :=
  (s.1, s.2 ++ [CallCliOutput format args]).

Definition ccacfg_usage : string :=
  "ccacfg FAILED! Invalid input arg\r\nFormat: ccacfg <CcaMode> <Cca1Threshold> <Cca2CorrThreshold> <Cca2MinNumOfCorrTh>\r\nCcaMode: CCA Mode type [CCA1=0x01, CCA2=0x02, CCA3=0x03[CCA1 AND CCA2], CCA3=0x04[CCA1 OR CCA2], NoCCA=0xFF]\r\nCca1Threshold[1Byte Hex value]: Energy threshold for CCA Mode1\r\nCca2CorrThreshold[1Byte Hex value]: CCA Mode 2 Correlation Threshold\r\nCca2MinNumOfCorrTh: [0 to 6]\r\n".

Definition irthold_range_message : string :=
  "OOB IR Threshold FAILED! Invalid Threshold Time - Required[100 to 1000\r\n".

Definition irthold_usage : string :=
  "OOB IR Threshold FAILED! Invalid input arg\r\nFormat: irthold <Threshold Time>\r\nThreshold Time : 100 to 1000\r\n".

Section Handlers.
Context {R : Type} (P : Radio R).

Definition ProcessIRCmd (aArgsLength : Z) (aArgs : list string) (s : State R)
  : option (otError * State R) :=
  Some (OT_ERROR_NONE, (otPlatRadioSetIRCmd P s.1, s.2 ++ [CallSetIRCmd])).

(** [uninit] is what the local [aCcaCfg] holds before anything is stored in
    it. *)
Definition ProcessGetSetCcaCfg (uninit : otCCAModeConfig) (aArgsLength : Z)
    (aArgs : list string) (s : State R) : option (otError * State R) :=
  if aArgsLength =? 4 then
    a0 ← aArgs !! 0%nat;
    a1 ← aArgs !! 1%nat;
    a2 ← aArgs !! 2%nat;
    a3 ← aArgs !! 3%nat;
    let aCcaCfg := mkCcaConfig (to_uint8 (strtol a0 16)) (to_uint8 (strtol a1 16))
                               (to_uint8 (strtol a2 16)) (to_uint8 (strtol a3 16)) in
    if (((1 <=? mCcaMode aCcaCfg) && (mCcaMode aCcaCfg <=? 4))
        || (mCcaMode aCcaCfg =? 255))
       && (mCca2MinNumOfCorrTh aCcaCfg <=? 6)
    then
      Some (OT_ERROR_NONE,
            ((otPlatRadioCcaConfigValue P s.1 aCcaCfg 1).2,
             s.2 ++ [CallCcaConfigValue aCcaCfg 1]))
    else Some (OT_ERROR_NONE, s)
  else if aArgsLength =? 0 then
    let '(aCcaCfg, r) := otPlatRadioCcaConfigValue P s.1 uninit 0 in
    let s := (r, s.2 ++ [CallCcaConfigValue uninit 0]) in
    let s := output "CCA Configuration:\r\n" [] s in
    let s := output "CCA Mode type: CCA1=0x01, CCA2=0x02, CCA3=0x03[CCA1 AND CCA2], CCA3=0x04[CCA1 OR CCA2], NoCCA=0xFF: 0x%x\r\n" [mCcaMode aCcaCfg] s in
    let s := output "CCA1 Threshold Value : 0x%x\r\n" [mCca1Threshold aCcaCfg] s in
    let s := output "CCA2 Correlation Threshold Value : 0x%x\r\n"
                    [mCca2CorrThreshold aCcaCfg] s in
    let s := output "CCA2 Minimim Number of Correlation Threshold Value : 0x%x\r\n"
                    [mCca2MinNumOfCorrTh aCcaCfg] s in
    Some (OT_ERROR_NONE, s)
  else
    Some (OT_ERROR_NONE, output ccacfg_usage [] s).

Definition ProcessGetFwVersion (aArgsLength : Z) (aArgs : list string) (s : State R)
  : option (otError * State R) :=
  if aArgsLength =? 0 then
    let '(version, r) := otPlatRadioGetFwVersionString P s.1 MAX_VERSION_STRING_SIZE in
    Some (OT_ERROR_NONE,
          (r, s.2 ++ [CallGetFwVersionString MAX_VERSION_STRING_SIZE;
                      CallCliOutputString "%s\r\n" version]))
  else Some (OT_ERROR_NONE, s).

(** [uninit] is what the local [aIRConfig] holds before anything is stored
    in it. *)
Definition ProcessGetSetIRThreshold (uninit : otIRConfig) (aArgsLength : Z)
    (aArgs : list string) (s : State R) : option (otError * State R) :=
  if aArgsLength =? 1 then
    a0 ← aArgs !! 0%nat;
    let aIRConfig := mkIRConfig (to_uint16 (atoi a0)) in
    if (100 <=? mIRThreshold aIRConfig) && (mIRThreshold aIRConfig <=? 1000) then
      Some (OT_ERROR_NONE,
            ((otPlatRadioIRThresholdConfig P s.1 aIRConfig 1).2,
             s.2 ++ [CallIRThresholdConfig aIRConfig 1]))
    else Some (OT_ERROR_NONE, output irthold_range_message [] s)
  else if aArgsLength =? 0 then
    let '(aIRConfig, r) := otPlatRadioIRThresholdConfig P s.1 uninit 0 in
    let s := (r, s.2 ++ [CallIRThresholdConfig uninit 0]) in
    Some (OT_ERROR_NONE, output "OOB IR Threshold: %d\r\n" [mIRThreshold aIRConfig] s)
  else
    Some (OT_ERROR_NONE, output irthold_usage [] s).

End Handlers.

(** Calls of the platform, as opposed to output. *)
Definition is_platform_call (c : Call) : bool :=
  match c with
  | CallCliOutput _ _ | CallCliOutputString _ _ => false
  | _ => true
  end.

(** A radio that keeps the two configurations it is given. *)
Definition store_radio : Radio (otCCAModeConfig * otIRConfig) := {|
  otPlatRadioSetIRCmd := λ r, r;
  otPlatRadioCcaConfigValue := λ r cfg aSetValue,
    if aSetValue =? 1 then (cfg, (cfg, r.2)) else (r.1, r);
  otPlatRadioGetFwVersionString := λ r _, ("1.0"%string, r);
  otPlatRadioIRThresholdConfig := λ r cfg aSetValue,
    if aSetValue =? 1 then (cfg, (r.1, cfg)) else (r.2, r)
|}.

(** A CCA configuration the set path accepts. *)
Definition cca_valid (cfg : otCCAModeConfig) : Prop :=
  (1 ≤ mCcaMode cfg ≤ 4 ∨ mCcaMode cfg = 255) ∧ mCca2MinNumOfCorrTh cfg ≤ 6.

(** [(uint8_t)strtol(a, NULL, 16)] for the four arguments of ccacfg. *)
Definition cca_of_args (a0 a1 a2 a3 : string) : otCCAModeConfig :=
  mkCcaConfig (to_uint8 (strtol a0 16)) (to_uint8 (strtol a1 16))
              (to_uint8 (strtol a2 16)) (to_uint8 (strtol a3 16)).

(** The platform keeps the CCA configuration it is given: a get after a set
    answers with it. *)
Definition keeps_cca {R} (P : Radio R) : Prop :=
  ∀ r cfg uninit,
    (otPlatRadioCcaConfigValue P (otPlatRadioCcaConfigValue P r cfg 1).2 uninit 0).1 = cfg.

Definition cca_report (cfg : otCCAModeConfig) : list Call :=
  [CallCliOutput "CCA Configuration:\r\n" [];
   CallCliOutput "CCA Mode type: CCA1=0x01, CCA2=0x02, CCA3=0x03[CCA1 AND CCA2], CCA3=0x04[CCA1 OR CCA2], NoCCA=0xFF: 0x%x\r\n" [mCcaMode cfg];
   CallCliOutput "CCA1 Threshold Value : 0x%x\r\n" [mCca1Threshold cfg];
   CallCliOutput "CCA2 Correlation Threshold Value : 0x%x\r\n" [mCca2CorrThreshold cfg];
   CallCliOutput "CCA2 Minimim Number of Correlation Threshold Value : 0x%x\r\n"
                 [mCca2MinNumOfCorrTh cfg]].

(** The platform keeps the IR threshold it is given. *)
Definition keeps_ir {R} (P : Radio R) : Prop :=
  ∀ r cfg uninit,
    (otPlatRadioIRThresholdConfig P (otPlatRadioIRThresholdConfig P r cfg 1).2 uninit 0).1
    = cfg.

End Vendor.

(** ** [Daemon::Update] and the output buffer of [OutputFormatV] *)

Module Mainloop.
Import Session.

Definition FD_SETSIZE : Z := 1024.

(** The three members of [otSysMainloopContext] that [Update] uses. *)
Record otSysMainloopContext : Type := mkContext {
  mReadFdSet : gset Z;
  mErrorFdSet : gset Z;
  mMaxFd : Z
}.

(** [FD_SET(fd, &set)]; a descriptor outside [0, FD_SETSIZE) is undefined
    behaviour. *)
Definition FD_SET (fd : Z) (set : gset Z) : option (gset Z) :=
  if (0 <=? fd) && (fd <? FD_SETSIZE) then Some (set ∪ {[fd]}) else None.

Definition Update (d : Daemon) (aContext : otSysMainloopContext)
  : option otSysMainloopContext :=
  aContext ←
    (if mListenSocket d =? -1 then Some aContext
     else
       readFds ← FD_SET (mListenSocket d) (mReadFdSet aContext);
       errorFds ← FD_SET (mListenSocket d) (mErrorFdSet aContext);
       Some (mkContext readFds errorFds
               (if mMaxFd aContext <? mListenSocket d then mListenSocket d
                else mMaxFd aContext)));
  if mSessionSocket d =? -1 then Some aContext
  else
    readFds ← FD_SET (mSessionSocket d) (mReadFdSet aContext);
    errorFds ← FD_SET (mSessionSocket d) (mErrorFdSet aContext);
    Some (mkContext readFds errorFds
            (if mMaxFd aContext <? mSessionSocket d then mSessionSocket d
             else mMaxFd aContext)).

(** The descriptors the daemon holds. *)
Definition held (d : Daemon) : gset Z :=
  (if mListenSocket d =? -1 then ∅ else {[mListenSocket d]})
  ∪ (if mSessionSocket d =? -1 then ∅ else {[mSessionSocket d]}).

(** A descriptor that may be stored in an [fd_set], or none. *)
Definition fd_or_none (fd : Z) : Prop := fd = -1 ∨ 0 ≤ fd < FD_SETSIZE.

(** [static constexpr char truncatedMsg[] = "(truncated ...)"], with its
    terminator. *)
Definition truncatedMsg : list Z := c_str "(truncated ...)" ++ [0].

(** [vsnprintf(buf, size, ...)] when the formatted output is [text]: at most
    [size - 1] bytes of it are stored, then a NUL; the result is the length
    of the whole text. *)
Definition vsnprintf (buf : list Z) (size : Z) (text : list Z) : list Z * Z :=
  let stored := take (Z.to_nat (size - 1)) text in
  (if 0 <? size then stored ++ [0] ++ drop (S (length stored)) buf else buf,
   Z.of_nat (length text)).

(** [memcpy(dst + offset, src, sizeof(src))]; [None] is a copy that leaves
    [dst]. *)
Definition memcpy (dst : list Z) (offset : Z) (src : list Z) : option (list Z) :=
  if (0 <=? offset) && (offset + Z.of_nat (length src) <=? Z.of_nat (length dst)) then
    Some (take (Z.to_nat offset) dst ++ src
          ++ drop (Z.to_nat offset + length src) dst)
  else None.

(** [OutputFormatV] up to the call of [send], when formatting succeeds with
    [text]: the buffer and the length handed to [send]. [buf] is what the
    local array holds at entry. *)
Definition OutputFormatV_buffer (OPENTHREAD_CONFIG_CLI_MAX_LINE_LENGTH : Z)
    (buf : list Z) (text : list Z) : option (list Z * Z) :=
  let sizeof_buf := OPENTHREAD_CONFIG_CLI_MAX_LINE_LENGTH in
  let '(buf, rval) := vsnprintf buf sizeof_buf text in
  if sizeof_buf <=? rval then
    buf ← memcpy buf (sizeof_buf - Z.of_nat (length truncatedMsg)) truncatedMsg;
    Some (buf, sizeof_buf - 1)
  else Some (buf, rval).

(** A system call that is not a [send], or a [send] of less than a line. *)
Definition send_within (maxLine : Z) (c : Sys) : Prop :=
  match c with
  | SysSend _ len _ => 0 ≤ len < maxLine
  | _ => True
  end.

(** [d'] comes from [d] by system calls in which every [send] is shorter
    than a line, with the listen socket kept. *)
Definition extends (maxLine : Z) (d d' : Daemon) : Prop :=
  mListenSocket d' = mListenSocket d
  ∧ ∃ calls, syscalls d' = syscalls d ++ calls ∧ Forall (send_within maxLine) calls.

End Mainloop.

(** ** Start up: [GetFilename], [createListenSocketOrDie], [SetUp] *)

Module Lifecycle.
Import Session.

(** The exit codes handed to [DieNow] and [DieNowWithMessage]. *)
Inductive ExitCode : Type :=
| OT_EXIT_FAILURE
| OT_EXIT_INVALID_ARGUMENTS
| OT_EXIT_ERROR_ERRNO.

Definition LOCK_EX : Z := 2.
Definition LOCK_NB : Z := 4.

(** [sizeof(sockaddr_un::sun_path)] on Linux, and the conversion of an
    [int] to [size_t] (64 bits). *)
Definition sizeof_Filename : Z := 108.
Definition to_size_t (z : Z) : Z := z mod 2 ^ 64.

(** A [Filename] after [GetFilename]: the pattern and the interface name
    that [snprintf] was given. *)
Record Filename : Type := mkFilename { fPattern : string; fNetIfName : string }.

(** The calls that leave the file during start up, in program order, with
    their results. *)
Inductive OsCall : Type :=
| OsSnprintf (size : Z) (pattern netIfName : string) (ret : Z)
| OsSocketWithCloseExec (ret : Z)
| OsOpen (file : Filename) (ret : Z)
| OsFlock (fd operation ret : Z)
| OsUnlink (file : Filename)
| OsGetenv (name : string) (ret : option string)
| OsUmask (mask ret : Z)
| OsBind (fd : Z) (file : Filename) (ret : Z)
| OsListen (fd backlog ret : Z)
| OsGetControlSocket (file : Filename) (ret : Z)
| OsCliInitUsingDaemon
| OsCliSetUserCommands (names : list string)
| OsMainloopAdd.

(** What the outside world answers during start up. [snprintf] is the
    result of formatting a pattern with an interface name. *)
Record Os : Type := mkOs {
  gNetifName : string;
  snprintf : string → string → Z;
  oSocket : Z;
  oOpen : Z;
  oFlock : Z;
  oGetenv : option string;
  oUmask : Z;
  oUmaskRestore : Z;
  oBind : Z;
  oListen : Z;
  oControlSocket : Z
}.

(** The daemon with its lock descriptor, and the calls made so far. *)
Record Proc : Type := mkProc {
  daemon : Daemon;
  mDaemonLock : Z;
  oscalls : list OsCall
}.

(** A function that returns or ends the process with an exit code. *)
Definition X (A : Type) : Type := Proc → (A + ExitCode) * Proc.

Definition retX {A} (a : A) : X A := λ p, (inl a, p).

Definition DieNow {A} (code : ExitCode) : X A := λ p, (inr code, p).

Definition bindX {A B} (m : X A) (k : A → X B) : X B :=
  λ p, match m p with
       | (inl a, p') => k a p'
       | (inr code, p') => (inr code, p')
       end.

Declare Scope lifecycle_scope.
Delimit Scope lifecycle_scope with lifecycle.
Notation "'let*' x ':=' m 'in' k" := (bindX m (λ x, k))
  (at level 10, x name, m at level 100, k at level 200, only parsing) : lifecycle_scope.
Notation "'do' m 'then' k" := (bindX m (λ _, k))
  (at level 10, m at level 100, k at level 200, only parsing) : lifecycle_scope.
Local Open Scope lifecycle_scope.

Definition call (c : OsCall) : X unit :=
  λ p, (inl tt, mkProc (daemon p) (mDaemonLock p) (oscalls p ++ [c])).

Definition store_mListenSocket (fd : Z) : X unit :=
  λ p, (inl tt, mkProc (set_mListenSocket fd (daemon p)) (mDaemonLock p) (oscalls p)).

Definition store_mDaemonLock (fd : Z) : X unit :=
  λ p, (inl tt, mkProc (daemon p) fd (oscalls p)).

Definition load_mListenSocket : X Z := λ p, (inl (mListenSocket (daemon p)), p).

Definition load_mDaemonLock : X Z := λ p, (inl (mDaemonLock p), p).

(** The names in [kCommands]. *)
Definition kCommands : list string :=
  ["ircfg"; "ircmd"; "seteui64"; "txpwrlimit"; "mfgcmd"; "ccacfg"; "fwversion";
   "irthold"].

Section Config.
(** The socket base name, the default interface name and the CLI switch come
    from the build configuration; [androidInit] says that [init] owns the
    listen socket ([__ANDROID__] without the NDK). *)
Variable OPENTHREAD_POSIX_CONFIG_DAEMON_SOCKET_BASENAME : string.
Variable OPENTHREAD_POSIX_CONFIG_THREAD_NETIF_DEFAULT_NAME : string.
Variable OPENTHREAD_POSIX_CONFIG_DAEMON_CLI_ENABLE : bool.
Variable androidInit : bool.
Variable os : Os.

Definition OPENTHREAD_POSIX_DAEMON_SOCKET_NAME : string :=
  OPENTHREAD_POSIX_CONFIG_DAEMON_SOCKET_BASENAME +:+ ".sock".

Definition OPENTHREAD_POSIX_DAEMON_SOCKET_LOCK : string :=
  OPENTHREAD_POSIX_CONFIG_DAEMON_SOCKET_BASENAME +:+ ".lock".

Definition GetFilename (aPattern : string) : X Filename :=
  let netIfName := if 0 <? strlen (gNetifName os) then gNetifName os
                   else OPENTHREAD_POSIX_CONFIG_THREAD_NETIF_DEFAULT_NAME in
  let rval := snprintf os aPattern netIfName in
  do call (OsSnprintf sizeof_Filename aPattern netIfName rval) then
  if (rval <? 0) && (sizeof_Filename <=? to_size_t rval)
  then DieNow OT_EXIT_INVALID_ARGUMENTS
  else retX (mkFilename aPattern netIfName).

(** [createListenSocketOrDie], the variant for Android's [init] and the
    general one. *)
Definition createListenSocketOrDie : X unit :=
  if androidInit then
    let* socketFile := GetFilename "ot-daemon/%s.sock" in
    do call (OsGetControlSocket socketFile (oControlSocket os)) then
    do store_mListenSocket (oControlSocket os) then
    let* listenSocket := load_mListenSocket in
    if listenSocket =? -1 then DieNow OT_EXIT_ERROR_ERRNO else retX tt
  else
    do call (OsSocketWithCloseExec (oSocket os)) then
    do store_mListenSocket (oSocket os) then
    let* listenSocket := load_mListenSocket in
    if listenSocket =? -1 then DieNow OT_EXIT_FAILURE
    else
      let* lockfile := GetFilename OPENTHREAD_POSIX_DAEMON_SOCKET_LOCK in
      do call (OsOpen lockfile (oOpen os)) then
      do store_mDaemonLock (oOpen os) then
      let* daemonLock := load_mDaemonLock in
      if daemonLock =? -1 then DieNow OT_EXIT_ERROR_ERRNO
      else
        let rval := oFlock os in
        do call (OsFlock daemonLock (Z.lor LOCK_EX LOCK_NB) rval) then
        if rval =? -1 then DieNow OT_EXIT_ERROR_ERRNO
        else
          let* sun_path := GetFilename OPENTHREAD_POSIX_DAEMON_SOCKET_NAME in
          do call (OsUnlink sun_path) then
          let allowAll := oGetenv os in
          do call (OsGetenv "OT_DAEMON_ALLOW_ALL" allowAll) then
          let mAllowAll := match allowAll with
                           | Some v => bool_decide (c_str "1" = c_str v)
                           | None => false
                           end in
          let mMode := oUmask os in
          do (if mAllowAll then call (OsUmask 0 mMode) else retX tt) then
          let* listenSocket := load_mListenSocket in
          let ret := oBind os in
          do call (OsBind listenSocket sun_path ret) then
          do (if mAllowAll then call (OsUmask mMode (oUmaskRestore os)) else retX tt) then
          if ret =? -1 then DieNow OT_EXIT_ERROR_ERRNO else retX tt.

Definition SetUp : X unit :=
  let* listenSocket := load_mListenSocket in
  do (if listenSocket =? -1 then
        do createListenSocketOrDie then
        let* listenSocket := load_mListenSocket in
        let ret := oListen os in
        do call (OsListen listenSocket 1 ret) then
        if ret =? -1 then DieNow OT_EXIT_ERROR_ERRNO else retX tt
      else retX tt) then
  do (if OPENTHREAD_POSIX_CONFIG_DAEMON_CLI_ENABLE then call OsCliInitUsingDaemon
      else retX tt) then
  do call (OsCliSetUserCommands kCommands) then
  call OsMainloopAdd.

End Config.

(** An [int]. *)
Definition is_int (z : Z) : Prop := - 2 ^ 31 ≤ z < 2 ^ 31.

(** The call takes the exclusive lock and succeeds. *)
Definition takes_lock (c : OsCall) : Prop :=
  ∃ fd ret, c = OsFlock fd (Z.lor LOCK_EX LOCK_NB) ret ∧ ret ≠ -1.

(** The call removes or binds the socket file. *)
Definition touches_socket_file (c : OsCall) : Prop :=
  match c with
  | OsUnlink _ | OsBind _ _ _ => True
  | _ => False
  end.

(** The interface name [GetFilename] formats with. *)
Definition netif_name (default : string) (os : Os) : string :=
  if 0 <? strlen (gNetifName os) then gNetifName os else default.

(** Scans the calls: [true] when every call that removes or binds the socket
    file comes after a call that took the lock ([locked] says that the lock
    is held at the start). *)
Fixpoint lock_guards (locked : bool) (calls : list OsCall) : bool :=
  match calls with
  | [] => true
  | OsFlock _ operation ret :: rest =>
      lock_guards (locked || ((operation =? Z.lor LOCK_EX LOCK_NB) && negb (ret =? -1))) rest
  | OsUnlink _ :: rest | OsBind _ _ _ :: rest => locked && lock_guards locked rest
  | _ :: rest => lock_guards locked rest
  end.

(** A start in which every call succeeds: socket 3, lock 4. *)
Definition os_ok : Os :=
  mkOs "wpan0" (λ _ _, 20) 3 4 0 (Some "1") 18 0 0 0 3.

(** A start in which the lock is held by another process. *)
Definition os_locked : Os :=
  mkOs "wpan0" (λ _ _, 20) 3 4 (-1) None 18 0 0 0 3.

Definition proc_init : Proc := mkProc (mkDaemon (-1) (-1) ∅ []) (-1) [].

End Lifecycle.

(** * Properties *)

Local Open Scope handler_scope.

Ltac unfold_monad :=
  repeat (progress (
    unfold otCliOutputFormat, keeping, bind, ret, lift, undefined, emit,
      get_mfgEnable, set_mfgEnable, callSetIRConfig, callGetIRConfig,
      callSetTxPowerLimit, callGetTxPowerLimit, callSetIeeeEui64 in *;
    cbv beta iota in *)).

Ltac unfold_opcodes :=
  unfold MFG_CMD_GET_SET_CHANNEL, MFG_CMD_GET_SET_TXPOWER, MFG_CMD_CONTINUOUS_TX,
    MFG_CMD_GET_SET_PAYLOAD_SIZE, MFG_CMD_GET_RX_RESULT, MFG_CMD_START_RX_TEST,
    MFG_CMD_BURST_TX, MFG_CMD_DUTY_CYCLE_TX, MFG_CMD_GET_SET_CCA_THRESHOLD,
    MFG_CMD_CONTINOUS_CCA_TEST, MFG_CMD_GET_CCA_STATUS, MFG_CMD_CONTINOUS_ED_TEST,
    MFG_CMD_GET_ED_VALUE, MFG_CMD_PHY_TX_TEST_PSDU, MFG_CMD_PHY_RX_TX_ACK_TEST,
    MFG_CMD_SET_GENERIC_PARAM, MFG_CMD_ACTION_GET, MFG_CMD_ACTION_SET in *.

(** Decides the comparisons between literals in the goal. *)
Ltac eval_closed_eqb :=
  repeat match goal with
  | |- context [?a =? ?b] =>
      let v := eval vm_compute in (a =? b) in
      match v with
      | true => change (a =? b) with true
      | false => change (a =? b) with false
      end
  end;
  cbv iota.

(** Runs the switch at a literal opcode and argument count. *)
Ltac run_switch :=
  unfold mfg_switch; eval_closed_eqb; unfold_monad;
  cbn [lookup list_lookup insert list_insert payload_init].

Lemma bind_Some {R A B} (m : M R A) (k : A → M R B) w a w' :
  m w = Some (a, w') → bind m k w = k a w'.
Proof. intros H. unfold bind. by rewrite H. Qed.

(** ** Machine integers *)

Lemma to_uint8_range z : 0 ≤ to_uint8 z < 256.
Proof. unfold to_uint8. apply Z.mod_pos_bound. lia. Qed.

Lemma to_int8_range z : -128 ≤ to_int8 z < 128.
Proof. unfold to_int8. pose proof (Z.mod_pos_bound (z + 128) 256). lia. Qed.

Lemma to_int8_small z : -128 ≤ z < 128 → to_int8 z = z.
Proof. intros H. unfold to_int8. rewrite Z.mod_small; lia. Qed.

(** ** ProcessGetSetTxPowerLimit *)

(** C7. With one argument [ProcessGetSetTxPowerLimit] calls
    [otPlatRadioSetTxPowerLimit] with the argument parsed and cast to
    [uint8_t], whatever its value, inside or outside 1..44, and returns
    [OT_ERROR_NONE]; that call is the only external call made. *)
Theorem txpwrlimit_set_forwards_any_value {R} (P : Platform R) (a : string) (w : World R) :
  ProcessGetSetTxPowerLimit P 1 [a] w =
    Some (OT_ERROR_NONE,
          mkWorld (mfgEnable w)
                  (otPlatRadioSetTxPowerLimit P (radio w) (to_uint8 (atoi a)))
                  (trace w ++ [EvSetTxPowerLimit (to_uint8 (atoi a))])).
Proof. reflexivity. Qed.

Example txpwrlimit_set_200 :
  ProcessGetSetTxPowerLimit register_radio 1 ["200"] world_init =
    Some (OT_ERROR_NONE, mkWorld 0 200 [EvSetTxPowerLimit 200]).
Proof. vm_compute. reflexivity. Qed.

(** ** ProcessIRConfig *)

Lemma ircfg_set {R} (P : Platform R) (a : string) (w : World R) :
  to_uint8 (atoi a) < 4 →
  ProcessIRConfig P 1 [a] w =
    Some (OT_ERROR_NONE,
          mkWorld (mfgEnable w) (otPlatRadioSetIRConfig P (radio w) (to_uint8 (atoi a)))
                  (trace w ++ [EvSetIRConfig (to_uint8 (atoi a))])).
Proof.
  intros H. unfold ProcessIRConfig. unfold_monad. simpl.
  destruct (Z.ltb_spec (to_uint8 (atoi a)) 4); [reflexivity | lia].
Qed.

Lemma ircfg_set_rejected {R} (P : Platform R) (a : string) (w : World R) :
  4 ≤ to_uint8 (atoi a) →
  ProcessIRConfig P 1 [a] w = Some (OT_ERROR_INVALID_ARGS, w).
Proof.
  intros H. unfold ProcessIRConfig. unfold_monad. simpl.
  destruct (Z.ltb_spec (to_uint8 (atoi a)) 4); [lia | reflexivity].
Qed.

(** Every argument count other than one takes the branch that reads the
    configuration and prints it. *)
Lemma ircfg_get {R} (P : Platform R) (n : Z) (args : list string) (w : World R) :
  n ≠ 1 →
  ProcessIRConfig P n args w =
    Some (OT_ERROR_NONE,
          mkWorld (mfgEnable w) (otPlatRadioGetIRConfig P (radio w)).2
                  (trace w ++ [EvGetIRConfig]
                           ++ [EvCliOutput "%d\r\n" [(otPlatRadioGetIRConfig P (radio w)).1]])).
Proof.
  intros H. unfold ProcessIRConfig. unfold_monad.
  destruct (Z.eqb_spec n 1); [lia |].
  destruct (otPlatRadioGetIRConfig P (radio w)) as [v r]. simpl.
  by rewrite <- app_assoc.
Qed.

(** C8. [ProcessIRConfig] with two arguments reads the configuration from
    the platform, prints it and returns [OT_ERROR_NONE]; the specification
    asks for [OT_ERROR_INVALID_ARGS] for every argument count above one, which
    is what the sibling [ProcessGetSetTxPowerLimit] returns. *)
Theorem ircfg_two_args_get_and_print :
  ProcessIRConfig register_radio 2 ["1"; "2"] (mkWorld 0 3 []) =
    Some (OT_ERROR_NONE, mkWorld 0 3 [EvGetIRConfig; EvCliOutput "%d\r\n" [3]]).
Proof. vm_compute. reflexivity. Qed.

(** ** ProcessMfgCommands: the enable flag *)

Lemma mfgcmd_toggle {R} (P : Platform R) (a : string) (w : World R) :
  to_uint8 (atoi a) = 0 ∨ to_uint8 (atoi a) = 1 →
  ProcessMfgCommands P 1 [a] w =
    Some (OT_ERROR_NONE, mkWorld (to_uint8 (atoi a)) (radio w) (trace w)).
Proof.
  intros H. unfold ProcessMfgCommands. unfold_monad. simpl.
  destruct H as [-> | ->]; reflexivity.
Qed.

(** What [ProcessMfgCommands] does up to the test of [mfgEnable] when the
    call is not a toggle: nothing. *)
Lemma mfgcmd_not_toggle {R} (P : Platform R) (args : list string) (w : World R) :
  ¬ is_toggle args →
  (if Z.of_nat (length args) =? 1 then
     let* a0 := lift (args !! 0%nat) in
     let cmdId := to_uint8 (atoi a0) in
     if (cmdId =? 0) || (cmdId =? 1) then
       do set_mfgEnable cmdId then ret true
     else ret false
   else ret false) w = Some (false, w).
Proof.
  intros Hn. destruct args as [|a [|b args]]; try reflexivity.
  - unfold_monad. simpl.
    destruct (Z.eqb_spec (to_uint8 (atoi a)) 0) as [H0|H0];
      [exfalso; apply Hn; exists a; auto |].
    destruct (Z.eqb_spec (to_uint8 (atoi a)) 1) as [H1|H1];
      [exfalso; apply Hn; exists a; auto |].
    reflexivity.
  - replace (Z.of_nat (length (a :: b :: args)) =? 1) with false; [reflexivity |].
    symmetry. apply Z.eqb_neq. simpl length. lia.
Qed.

(** C3. While [mfgEnable] is 0, a call of [ProcessMfgCommands] with one
    argument that parses to 0 or 1 stores that value in [mfgEnable] and
    returns [OT_ERROR_NONE]; every other call, whatever the opcode and the
    number of arguments, returns [OT_ERROR_NONE], prints the "not enabled"
    message and does nothing else: no transport call, flag unchanged. *)
Theorem mfgcmd_disabled_only_toggle {R} (P : Platform R) (args : list string) (w : World R) :
  mfgEnable w = 0 →
  (∀ a, args = [a] → to_uint8 (atoi a) = 0 ∨ to_uint8 (atoi a) = 1 →
        ProcessMfgCommands P 1 args w =
          Some (OT_ERROR_NONE, mkWorld (to_uint8 (atoi a)) (radio w) (trace w)))
  ∧ (¬ is_toggle args →
     ProcessMfgCommands P (Z.of_nat (length args)) args w =
       Some (OT_ERROR_NONE,
             mkWorld 0 (radio w) (trace w ++ [EvCliOutput not_enabled_message []]))).
Proof.
  intros Hen. split.
  - intros a -> Ha. by apply mfgcmd_toggle.
  - intros Hn. unfold ProcessMfgCommands.
    erewrite bind_Some; [| by apply mfgcmd_not_toggle].
    unfold_monad. rewrite !Hen. change (0 =? 0) with true. cbv beta iota.
    by rewrite Hen.
Qed.

Lemma raw_frame_args_not_toggle : ¬ is_toggle raw_frame_args.
Proof. intros [a [H _]]. discriminate H. Defined.

Lemma mfgcmd_disabled_only_toggle_witness :
  mfgEnable world_init = 0 ∧
  ProcessMfgCommands register_radio 12 raw_frame_args world_init =
    Some (OT_ERROR_NONE, mkWorld 0 0 [EvCliOutput not_enabled_message []]).
Proof.
  split; [reflexivity |].
  apply (proj2 (mfgcmd_disabled_only_toggle register_radio raw_frame_args world_init eq_refl)).
  exact raw_frame_args_not_toggle.
Defined.

(** ** ProcessMfgGetInt8 and ProcessMfgSetInt8 *)

Lemma callMfgCommand_run {R} (P : Platform R) payload w resp outputLen r :
  otPlatRadioMfgCommand P (radio w) payload payloadLen = (resp, outputLen, r) →
  callMfgCommand P payload payloadLen w = Some ((resp, outputLen), sent w r payload).
Proof. intros H. unfold callMfgCommand. by rewrite H. Qed.

Lemma in_place_lookup {R} (P : Platform R) r payload resp outputLen r' (i : nat) :
  in_place P →
  otPlatRadioMfgCommand P r payload payloadLen = (resp, outputLen, r') →
  (i < length payload)%nat →
  resp !! i = Some (resp !!! i).
Proof.
  intros Hip Hc Hi. apply list_lookup_lookup_total_lt.
  specialize (Hip r payload payloadLen). rewrite Hc in Hip. simpl in Hip. lia.
Qed.

Lemma ProcessMfgGetInt8_run {R} (P : Platform R) cmdId w resp outputLen r :
  in_place P →
  otPlatRadioMfgCommand P (radio w) (get_frame cmdId) payloadLen = (resp, outputLen, r) →
  ProcessMfgGetInt8 P cmdId 1 w =
    Some (if (5 <=? outputLen) && bool_decide (resp !! 3%nat = Some 0)
          then (OT_ERROR_NONE,
                printed (sent w r (get_frame cmdId)) "%d\r\n"
                        [decode_int8 cmdId (resp !!! 4%nat)])
          else (OT_ERROR_FAILED, sent w r (get_frame cmdId))).
Proof.
  intros Hip Hc. unfold ProcessMfgGetInt8.
  change (1 =? 1) with true. cbv iota.
  change (<[2%nat:=MFG_CMD_ACTION_GET]> (<[1%nat:=cmdId]> payload_init))
    with (get_frame cmdId).
  erewrite bind_Some; [| by apply callMfgCommand_run]. cbv beta iota.
  destruct (5 <=? outputLen); [| reflexivity]. simpl andb.
  rewrite (in_place_lookup P _ _ _ _ _ 3 Hip Hc); [| simpl; lia].
  rewrite (in_place_lookup P _ _ _ _ _ 4 Hip Hc); [| simpl; lia].
  unfold_monad. unfold decode_int8, printed.
  destruct (Z.eqb_spec (resp !!! 3%nat) 0) as [H0|H0].
  - rewrite H0, bool_decide_eq_true_2 by done.
    destruct (cmdId =? MFG_CMD_GET_SET_TXPOWER); reflexivity.
  - rewrite bool_decide_eq_false_2; [reflexivity | congruence].
Qed.

Lemma ProcessMfgSetInt8_run {R} (P : Platform R) cmdId a0 a1 min max w resp outputLen r :
  in_place P →
  min ≤ to_int8 (atoi a1) ≤ max →
  otPlatRadioMfgCommand P (radio w)
    (set_frame cmdId (encode_int8 cmdId (to_int8 (atoi a1)))) payloadLen
    = (resp, outputLen, r) →
  ProcessMfgSetInt8 P cmdId 2 [a0; a1] min max w =
    Some (if (4 <=? outputLen) && bool_decide (resp !! 3%nat = Some 0)
          then OT_ERROR_NONE else OT_ERROR_FAILED,
          sent w r (set_frame cmdId (encode_int8 cmdId (to_int8 (atoi a1))))).
Proof.
  intros Hip Hr Hc. unfold ProcessMfgSetInt8.
  change (2 =? 2) with true. cbv iota.
  unfold lift at 1. simpl lookup. erewrite bind_Some; [| reflexivity].
  cbv zeta.
  replace ((min <=? to_int8 (atoi a1)) && (to_int8 (atoi a1) <=? max)) with true
    by (symmetry; apply andb_true_iff; split; apply Z.leb_le; lia).
  replace (if cmdId =? MFG_CMD_GET_SET_TXPOWER
           then <[4%nat:=to_uint8 (Z.shiftl (to_uint8 (to_int8 (atoi a1))) 1)]>
                  (<[2%nat:=MFG_CMD_ACTION_SET]> (<[1%nat:=cmdId]> payload_init))
           else <[4%nat:=to_uint8 (to_int8 (atoi a1))]>
                  (<[2%nat:=MFG_CMD_ACTION_SET]> (<[1%nat:=cmdId]> payload_init)))
    with (set_frame cmdId (encode_int8 cmdId (to_int8 (atoi a1))))
    by (unfold encode_int8; destruct (cmdId =? MFG_CMD_GET_SET_TXPOWER); reflexivity).
  erewrite bind_Some; [| by apply callMfgCommand_run]. cbv beta iota.
  destruct (4 <=? outputLen); [| reflexivity]. simpl andb.
  rewrite (in_place_lookup P _ _ _ _ _ 3 Hip Hc); [| simpl; lia].
  unfold_monad.
  destruct (Z.eqb_spec (resp !!! 3%nat) 0) as [H0|H0].
  - by rewrite H0, bool_decide_eq_true_2.
  - rewrite bool_decide_eq_false_2; [reflexivity | congruence].
Qed.

Lemma ProcessMfgSetInt8_out_of_range {R} (P : Platform R) cmdId a0 a1 min max w :
  ¬ (min ≤ to_int8 (atoi a1) ≤ max) →
  ProcessMfgSetInt8 P cmdId 2 [a0; a1] min max w = Some (OT_ERROR_INVALID_ARGS, w).
Proof.
  intros Hr. unfold ProcessMfgSetInt8.
  change (2 =? 2) with true. cbv iota.
  unfold lift at 1. simpl lookup. erewrite bind_Some; [| reflexivity].
  cbv zeta.
  replace ((min <=? to_int8 (atoi a1)) && (to_int8 (atoi a1) <=? max)) with false;
    [reflexivity |].
  symmetry. apply andb_false_iff.
  destruct (Z.leb_spec min (to_int8 (atoi a1))); [| by left].
  destruct (Z.leb_spec (to_int8 (atoi a1)) max); [lia | by right].
Qed.

Lemma ProcessMfgGetInt8_wrong_count {R} (P : Platform R) cmdId n w :
  n ≠ 1 → ProcessMfgGetInt8 P cmdId n w = Some (OT_ERROR_INVALID_ARGS, w).
Proof.
  intros H. unfold ProcessMfgGetInt8. by destruct (Z.eqb_spec n 1).
Qed.

Lemma ProcessMfgSetInt8_wrong_count {R} (P : Platform R) cmdId n args min max w :
  n ≠ 2 → ProcessMfgSetInt8 P cmdId n args min max w = Some (OT_ERROR_INVALID_ARGS, w).
Proof.
  intros H. unfold ProcessMfgSetInt8. by destruct (Z.eqb_spec n 2).
Qed.

Lemma register_radio_in_place : in_place register_radio.
Proof.
  intros r payload n. simpl.
  destruct (payload !! 2%nat) as [[|[| |]|]|]; simpl; by rewrite ?length_insert.
Defined.

(** C5. Once the transport has answered, [ProcessMfgGetInt8] returns
    [OT_ERROR_NONE] and prints the signed byte 4 (halved for the TX power
    opcode only) exactly when the response length is at least 5 and byte 3
    is 0, and [OT_ERROR_FAILED] without printing otherwise;
    [ProcessMfgSetInt8] returns [OT_ERROR_NONE] exactly when the response
    length is at least 4 and byte 3 is 0, and [OT_ERROR_FAILED] otherwise. *)
Theorem mfg_int8_response_check {R} (P : Platform R) (w : World R) (cmdId : Z)
    (a0 a1 : string) (min max : Z)
    (gresp : list Z) (glen : Z) (gr : R) (sresp : list Z) (slen : Z) (sr : R) :
  in_place P →
  min ≤ to_int8 (atoi a1) ≤ max →
  otPlatRadioMfgCommand P (radio w) (get_frame cmdId) payloadLen = (gresp, glen, gr) →
  otPlatRadioMfgCommand P (radio w)
    (set_frame cmdId (encode_int8 cmdId (to_int8 (atoi a1)))) payloadLen
    = (sresp, slen, sr) →
  ProcessMfgGetInt8 P cmdId 1 w =
    Some (if (5 <=? glen) && bool_decide (gresp !! 3%nat = Some 0)
          then (OT_ERROR_NONE,
                printed (sent w gr (get_frame cmdId)) "%d\r\n"
                        [if cmdId =? MFG_CMD_GET_SET_TXPOWER
                         then to_int8 (gresp !!! 4%nat) ÷ 2
                         else to_int8 (gresp !!! 4%nat)])
          else (OT_ERROR_FAILED, sent w gr (get_frame cmdId)))
  ∧ ProcessMfgSetInt8 P cmdId 2 [a0; a1] min max w =
      Some (if (4 <=? slen) && bool_decide (sresp !! 3%nat = Some 0)
            then OT_ERROR_NONE else OT_ERROR_FAILED,
            sent w sr (set_frame cmdId (encode_int8 cmdId (to_int8 (atoi a1))))).
Proof.
  intros Hip Hr Hg Hs. split.
  - by apply ProcessMfgGetInt8_run.
  - by apply ProcessMfgSetInt8_run.
Qed.

Lemma mfg_int8_response_check_witness :
  in_place register_radio ∧ -20 ≤ to_int8 (atoi "10") ≤ 22 ∧
  ProcessMfgGetInt8 register_radio 15 1 (mkWorld 1 20 []) =
    Some (OT_ERROR_NONE,
          mkWorld 1 20 [EvMfgCommand (get_frame 15) 12; EvCliOutput "%d\r\n" [10]]) ∧
  ProcessMfgSetInt8 register_radio 15 2 ["16"; "10"] (-20) 22 (mkWorld 1 20 []) =
    Some (OT_ERROR_NONE, mkWorld 1 20 [EvMfgCommand (set_frame 15 20) 12]).
Proof.
  assert (Hv : -20 ≤ to_int8 (atoi "10") ≤ 22).
  { replace (to_int8 (atoi "10")) with 10 by (vm_compute; reflexivity). lia. }
  split; [exact register_radio_in_place |]. split; [exact Hv |].
  pose proof (mfg_int8_response_check register_radio (mkWorld 1 20 []) 15 "16" "10"
                (-20) 22 _ _ _ _ _ _ register_radio_in_place Hv eq_refl eq_refl) as H.
  vm_compute in H. exact H.
Defined.

(** C2. TX power, for every [v] from -20 to 22: the SET frame carries
    [(uint8_t)v << 1] in byte 4, a GET whose response hands that byte back
    prints [v], and decoding the encoded byte is the identity. *)
Theorem txpower_set_get_roundtrip {R} (P : Platform R) (v : Z) (a0 a1 : string)
    (ws wg : World R) (sresp : list Z) (slen : Z) (sr : R)
    (gresp : list Z) (glen : Z) (gr : R) :
  in_place P →
  -20 ≤ v ≤ 22 →
  atoi a1 = v →
  otPlatRadioMfgCommand P (radio ws)
    (set_frame MFG_CMD_GET_SET_TXPOWER (to_uint8 (Z.shiftl (to_uint8 v) 1))) payloadLen
    = (sresp, slen, sr) →
  otPlatRadioMfgCommand P (radio wg) (get_frame MFG_CMD_GET_SET_TXPOWER) payloadLen
    = (gresp, glen, gr) →
  5 ≤ glen →
  gresp !! 3%nat = Some 0 →
  gresp !! 4%nat = Some (to_uint8 (Z.shiftl (to_uint8 v) 1)) →
  (∃ error,
     ProcessMfgSetInt8 P MFG_CMD_GET_SET_TXPOWER 2 [a0; a1] (-20) 22 ws =
       Some (error,
             sent ws sr (set_frame MFG_CMD_GET_SET_TXPOWER
                                   (to_uint8 (Z.shiftl (to_uint8 v) 1)))))
  ∧ ProcessMfgGetInt8 P MFG_CMD_GET_SET_TXPOWER 1 wg =
      Some (OT_ERROR_NONE,
            printed (sent wg gr (get_frame MFG_CMD_GET_SET_TXPOWER)) "%d\r\n" [v])
  ∧ to_int8 (to_uint8 (Z.shiftl (to_uint8 v) 1)) ÷ 2 = v.
Proof.
  intros Hip Hv Ha Hs Hg Hlen H3 H4.
  assert (Hi : to_int8 v = v) by (apply to_int8_small; lia).
  assert (Hd : to_int8 (to_uint8 (Z.shiftl (to_uint8 v) 1)) ÷ 2 = v).
  { unfold to_int8, to_uint8. rewrite Z.shiftl_mul_pow2 by lia.
    change (2 ^ 1) with 2.
    assert (E : ((v mod 256 * 2) mod 256 + 128) mod 256 - 128 = 2 * v).
    { Z.div_mod_to_equations. lia. }
    rewrite E. rewrite Z.mul_comm. apply Z.quot_mul. lia. }
  split; [| split; [| exact Hd]].
  - eexists. rewrite <- Ha in *. 
    pose proof (ProcessMfgSetInt8_run P MFG_CMD_GET_SET_TXPOWER a0 a1 (-20) 22 ws
                  sresp slen sr Hip) as Hrun.
    unfold encode_int8 in Hrun. change (MFG_CMD_GET_SET_TXPOWER =? MFG_CMD_GET_SET_TXPOWER)
      with true in Hrun. cbv iota in Hrun.
    rewrite Hi in Hrun. apply Hrun; [lia | exact Hs].
  - rewrite (ProcessMfgGetInt8_run P _ wg gresp glen gr Hip Hg).
    replace (5 <=? glen) with true by (symmetry; apply Z.leb_le; lia).
    rewrite bool_decide_eq_true_2 by exact H3. simpl andb. cbv iota.
    rewrite (list_lookup_total_correct _ _ _ H4).
    unfold decode_int8. change (MFG_CMD_GET_SET_TXPOWER =? MFG_CMD_GET_SET_TXPOWER) with true.
    cbv iota. by rewrite Hd.
Qed.

Lemma txpower_set_get_roundtrip_witness :
  in_place register_radio ∧ -20 ≤ -7 ≤ 22 ∧ atoi "-7" = -7 ∧
  (∃ error,
     ProcessMfgSetInt8 register_radio 15 2 ["16"; "-7"] (-20) 22 (mkWorld 1 0 []) =
       Some (error, mkWorld 1 242 [EvMfgCommand (set_frame 15 242) 12])) ∧
  ProcessMfgGetInt8 register_radio 15 1 (mkWorld 1 242 []) =
    Some (OT_ERROR_NONE,
          mkWorld 1 242 [EvMfgCommand (get_frame 15) 12; EvCliOutput "%d\r\n" [-7]]) ∧
  to_int8 242 ÷ 2 = -7.
Proof.
  split; [exact register_radio_in_place |].
  split; [lia |]. split; [vm_compute; reflexivity |].
  exact (txpower_set_get_roundtrip register_radio (-7) "16" "-7"
           (mkWorld 1 0 []) (mkWorld 1 242 []) _ _ _ _ _ _
           register_radio_in_place ltac:(lia) eq_refl eq_refl eq_refl
           ltac:(lia) eq_refl eq_refl).
Defined.

(** A CLI session on the one register radio: [mfgcmd 1], [mfgcmd 16 -7],
    [mfgcmd 15]. The last command prints -7. *)
Example txpower_cli_session :
  (do ProcessMfgCommands register_radio 1 ["1"] then
   do ProcessMfgCommands register_radio 2 ["16"; "-7"] then
   ProcessMfgCommands register_radio 1 ["15"]) world_init =
    Some (OT_ERROR_NONE,
          mkWorld 1 242 [EvMfgCommand (set_frame 15 242) 12;
                         EvMfgCommand (get_frame 15) 12;
                         EvCliOutput "%d\r\n" [-7]]).
Proof. vm_compute. reflexivity. Qed.

(** ** ProcessMfgCommands: dispatch *)

Lemma logged_nil {R} (w : World R) : logged w [] = w.
Proof. destruct w. unfold logged. simpl. by rewrite app_nil_r. Qed.

Lemma mfgcmd_enabled {R} (P : Platform R) (args : list string) (a0 : string) (w : World R) :
  mfgEnable w = 1 →
  ¬ is_toggle args →
  args !! 0%nat = Some a0 →
  ProcessMfgCommands P (Z.of_nat (length args)) args w =
    match mfg_switch P (parse_byte a0) (Z.of_nat (length args)) args payload_init w with
    | Some ((error, payload), w') =>
        mfg_handle_errors P error (Z.of_nat (length args)) args payload w'
    | None => None
    end.
Proof.
  intros Hen Hn Ha. unfold ProcessMfgCommands.
  erewrite bind_Some; [| by apply mfgcmd_not_toggle]. cbv beta iota.
  erewrite bind_Some; [| reflexivity]. rewrite Hen.
  change (1 =? 0) with false. change (1 =? 1) with true. cbv iota.
  replace (0 <? Z.of_nat (length args)) with true.
  2: { symmetry. apply Z.ltb_lt. destruct args; [discriminate | simpl length; lia]. }
  simpl andb. cbv iota. rewrite Ha.
  unfold bind at 1. unfold bind at 1. unfold lift, ret, parse_byte.
  destruct (mfg_switch P _ _ _ _ w) as [[[e p] w']|]; reflexivity.
Qed.

(** With twelve arguments no case of the switch accepts the call: a known
    opcode gives [OT_ERROR_INVALID_ARGS], any other
    [OT_ERROR_NOT_IMPLEMENTED], and nothing has happened. *)
Lemma mfg_switch_twelve {R} (P : Platform R) (cmdId : Z) (args : list string)
    (payload : list Z) (w : World R) :
  mfg_switch P cmdId 12 args payload w =
    Some ((if bool_decide (cmdId ∈ mfg_cases)
           then OT_ERROR_INVALID_ARGS else OT_ERROR_NOT_IMPLEMENTED, payload), w).
Proof.
  unfold mfg_switch.
  repeat match goal with
  | |- context [?c =? ?k] =>
      destruct (Z.eqb_spec c k) as [->|?];
      [ unfold keeping, bind, ret;
        rewrite ?ProcessMfgGetInt8_wrong_count, ?ProcessMfgSetInt8_wrong_count by lia;
        reflexivity |]
  end.
  rewrite bool_decide_eq_false_2; [reflexivity |].
  unfold mfg_cases. rewrite !elem_of_cons, elem_of_nil.
  unfold_opcodes. lia.
Qed.

(** ** ProcessMfgCommands: the direct message for the RCP *)

Lemma fill_payload_twelve (args : list string) (payload : list Z) :
  length args = 12%nat → length payload = 12%nat →
  fill_payload 12 0 args payload = Some (parse_byte <$> args).
Proof.
  intros Ha Hp.
  do 13 (destruct args as [|? args]; try discriminate Ha).
  do 13 (destruct payload as [|? payload]; try discriminate Hp).
  reflexivity.
Qed.

Lemma echo_payload_run {R} (count : nat) : ∀ (idx : nat) (payload : list Z) (w : World R),
  (idx + count ≤ length payload)%nat →
  echo_payload count idx payload w =
    Some (tt, logged w (echoed (take count (drop idx payload)))).
Proof.
  induction count as [|count IH]; intros idx payload w Hlen.
  - simpl. unfold ret. by rewrite logged_nil.
  - destruct (lookup_lt_is_Some_2 payload idx) as [b Hb]; [lia |].
    simpl echo_payload. rewrite Hb.
    erewrite bind_Some; [| reflexivity].
    erewrite bind_Some; [| reflexivity].
    rewrite IH by lia.
    rewrite (drop_S _ _ _ Hb). simpl.
    unfold logged. simpl. by rewrite <- app_assoc.
Qed.

Lemma mfg_handle_errors_direct {R} (P : Platform R) (error : otError)
    (args : list string) (payload : list Z) (w : World R)
    (resp : list Z) (outputLen : Z) (r : R) :
  in_place P →
  error ≠ OT_ERROR_NONE →
  length args = 12%nat → length payload = 12%nat →
  otPlatRadioMfgCommand P (radio w) (parse_byte <$> args) payloadLen = (resp, outputLen, r) →
  outputLen ≤ 12 →
  mfg_handle_errors P error 12 args payload w =
    Some (OT_ERROR_NONE,
          logged (sent w r (parse_byte <$> args))
                 (echoed (take (Z.to_nat outputLen) resp) ++ [EvCliOutput "\r\n" []])).
Proof.
  intros Hip He Ha Hp Hc Hlen. unfold mfg_handle_errors.
  destruct (decide (error = OT_ERROR_NONE)) as [|_]; [done |].
  change (12 =? payloadLen) with true. cbv iota.
  change (Z.to_nat payloadLen) with 12%nat.
  rewrite (fill_payload_twelve args payload Ha Hp).
  erewrite bind_Some; [| reflexivity].
  erewrite bind_Some; [| by apply callMfgCommand_run]. cbv beta iota.
  assert (Hr : length resp = 12%nat).
  { specialize (Hip (radio w) (parse_byte <$> args) payloadLen).
    rewrite Hc in Hip. simpl in Hip. by rewrite Hip, length_fmap. }
  erewrite bind_Some; [| apply echo_payload_run; simpl; lia].
  unfold_monad. unfold logged, sent. simpl. by rewrite <- !app_assoc.
Qed.

Lemma mfg_handle_errors_plain {R} (P : Platform R) (error : otError) (n : Z)
    (args : list string) (payload : list Z) (w : World R) :
  error = OT_ERROR_NONE ∨ n ≠ 12 →
  mfg_handle_errors P error n args payload w = Some (error, logged w (error_message error)).
Proof.
  intros H. unfold mfg_handle_errors.
  destruct (decide (error = OT_ERROR_NONE)) as [->|He].
  - unfold ret. by rewrite logged_nil.
  - destruct H as [|H]; [done |].
    destruct (Z.eqb_spec n payloadLen) as [E|_]; [unfold payloadLen in E; lia |].
    destruct error; try done; unfold_monad; simpl; by rewrite ?logged_nil.
Qed.

(** With [mfgEnable] 1 and twelve arguments, whatever the opcode: the
    switch makes no call, and the twelve parsed bytes go out as they are. *)
Lemma mfgcmd_twelve_args {R} (P : Platform R) (args : list string) (w : World R)
    (resp : list Z) (outputLen : Z) (r : R) :
  in_place P →
  mfgEnable w = 1 →
  length args = 12%nat →
  otPlatRadioMfgCommand P (radio w) (parse_byte <$> args) payloadLen = (resp, outputLen, r) →
  outputLen ≤ 12 →
  ProcessMfgCommands P 12 args w =
    Some (OT_ERROR_NONE,
          logged (sent w r (parse_byte <$> args))
                 (echoed (take (Z.to_nat outputLen) resp) ++ [EvCliOutput "\r\n" []])).
Proof.
  intros Hip Hen Ha Hc Hlen.
  assert (Hn : ¬ is_toggle args).
  { intros [a [-> _]]. discriminate Ha. }
  destruct args as [|a0 args'] eqn:E; [discriminate Ha |]. rewrite <- E in *.
  assert (H0 : args !! 0%nat = Some a0) by (by rewrite E).
  pose proof (mfgcmd_enabled P args a0 w Hen Hn H0) as Hrun.
  rewrite Ha in Hrun. change (Z.of_nat 12) with 12 in Hrun.
  rewrite Hrun, mfg_switch_twelve.
  apply mfg_handle_errors_direct; try done.
  by case_bool_decide.
Qed.

(** C6. With [mfgEnable] 1, twelve arguments and an opcode that has no
    case in the switch, the switch ends in [default] with
    [OT_ERROR_NOT_IMPLEMENTED], and [ProcessMfgCommands] hands the twelve
    parsed bytes to the transport as they are, as its only transport call,
    prints the first [outputLen] bytes of the response and returns
    [OT_ERROR_NONE] (the response is at most as long as the buffer). *)
Theorem mfgcmd_unknown_opcode_direct {R} (P : Platform R) (args : list string)
    (a0 : string) (w : World R) (resp : list Z) (outputLen : Z) (r : R) :
  in_place P →
  mfgEnable w = 1 →
  length args = 12%nat →
  args !! 0%nat = Some a0 →
  parse_byte a0 ∉ mfg_cases →
  otPlatRadioMfgCommand P (radio w) (parse_byte <$> args) payloadLen = (resp, outputLen, r) →
  outputLen ≤ 12 →
  mfg_switch P (parse_byte a0) 12 args payload_init w =
    Some ((OT_ERROR_NOT_IMPLEMENTED, payload_init), w)
  ∧ ProcessMfgCommands P 12 args w =
      Some (OT_ERROR_NONE,
            mkWorld 1 r (trace w ++ [EvMfgCommand (parse_byte <$> args) 12]
                                 ++ echoed (take (Z.to_nat outputLen) resp)
                                 ++ [EvCliOutput "\r\n" []])).
Proof.
  intros Hip Hen Ha _ Hop Hc Hlen. split.
  - rewrite mfg_switch_twelve. by rewrite bool_decide_eq_false_2.
  - rewrite (mfgcmd_twelve_args P args w resp outputLen r Hip Hen Ha Hc Hlen).
    unfold logged, sent. simpl. rewrite Hen. by rewrite <- !app_assoc.
Qed.

Lemma mfgcmd_unknown_opcode_direct_witness :
  in_place register_radio ∧ (parse_byte "200" ∉ mfg_cases) ∧
  ProcessMfgCommands register_radio 12 unknown_opcode_args (mkWorld 1 0 []) =
    Some (OT_ERROR_NONE,
          mkWorld 1 255
            [EvMfgCommand [200; 33; 1; 0; 255; 0; 0; 0; 0; 0; 0; 7] 12;
             EvCliOutput "%d " [200]; EvCliOutput "%d " [33]; EvCliOutput "%d " [1];
             EvCliOutput "%d " [0]; EvCliOutput "\r\n" []]).
Proof.
  assert (Hop : parse_byte "200" ∉ mfg_cases).
  { replace (parse_byte "200") with 200 by (vm_compute; reflexivity).
    unfold mfg_cases. rewrite !elem_of_cons, elem_of_nil. lia. }
  split; [exact register_radio_in_place |]. split; [exact Hop |].
  pose proof (proj2 (mfgcmd_unknown_opcode_direct register_radio unknown_opcode_args
                "200" (mkWorld 1 0 []) _ _ _ register_radio_in_place eq_refl eq_refl
                eq_refl Hop eq_refl ltac:(lia))) as H.
  vm_compute in H. exact H.
Defined.

Lemma transport_calls_app (l1 l2 : list Event) :
  transport_calls (l1 ++ l2) = (transport_calls l1 + transport_calls l2)%nat.
Proof. unfold transport_calls. by rewrite List.filter_app, length_app. Qed.

Lemma transport_calls_echoed (bytes : list Z) : transport_calls (echoed bytes) = 0%nat.
Proof. induction bytes as [|b bytes IH]; [reflexivity | exact IH]. Qed.

(** C10, as amended. With [mfgEnable] 1 the direct message is sent when the
    switch did not end in [OT_ERROR_NONE] and there are twelve arguments,
    for known opcodes too: with twelve arguments a known opcode ends in
    [OT_ERROR_INVALID_ARGS] without any transport call, and
    [ProcessMfgCommands] then sends the twelve parsed bytes as they are, the
    one transport call of the invocation, and returns [OT_ERROR_NONE]. With
    any other number of arguments the result of the switch is returned and
    at most its message is printed. *)
Theorem mfgcmd_direct_message_trigger {R} (P : Platform R) (args : list string)
    (a0 : string) (w : World R) (resp : list Z) (outputLen : Z) (r : R) :
  in_place P →
  mfgEnable w = 1 →
  args !! 0%nat = Some a0 →
  ¬ is_toggle args →
  otPlatRadioMfgCommand P (radio w) (parse_byte <$> args) payloadLen = (resp, outputLen, r) →
  outputLen ≤ 12 →
  (length args = 12%nat → parse_byte a0 ∈ mfg_cases →
     mfg_switch P (parse_byte a0) 12 args payload_init w =
       Some ((OT_ERROR_INVALID_ARGS, payload_init), w)
     ∧ ∃ w', ProcessMfgCommands P 12 args w = Some (OT_ERROR_NONE, w')
             ∧ trace w' = trace w ++ [EvMfgCommand (parse_byte <$> args) 12]
                                  ++ echoed (take (Z.to_nat outputLen) resp)
                                  ++ [EvCliOutput "\r\n" []]
             ∧ transport_calls (trace w') = S (transport_calls (trace w)))
  ∧ (length args ≠ 12%nat →
     ∀ error payload w1,
       mfg_switch P (parse_byte a0) (Z.of_nat (length args)) args payload_init w =
         Some ((error, payload), w1) →
       ProcessMfgCommands P (Z.of_nat (length args)) args w =
         Some (error, logged w1 (error_message error))).
Proof.
  intros Hip Hen H0 Hn Hc Hlen. split.
  - intros Ha Hop. split.
    + rewrite mfg_switch_twelve. by rewrite bool_decide_eq_true_2.
    + eexists. split; [by eapply mfgcmd_twelve_args |].
      unfold logged, sent. simpl. split; [by rewrite <- !app_assoc |].
      rewrite !transport_calls_app, transport_calls_echoed.
      generalize (transport_calls (trace w)). intros n.
      unfold transport_calls. simpl. lia.
  - intros Ha error payload w1 Hsw.
    rewrite (mfgcmd_enabled P args a0 w Hen Hn H0), Hsw.
    apply mfg_handle_errors_plain. right. lia.
Qed.

Lemma raw_frame_args_response :
  otPlatRadioMfgCommand register_radio 0 (parse_byte <$> raw_frame_args) payloadLen =
    ([11; 33; 0; 0; 0; 9; 0; 0; 0; 0; 0; 0], 5, 0).
Proof. vm_compute. reflexivity. Defined.

Lemma mfgcmd_direct_message_trigger_witness :
  in_place register_radio ∧ ¬ is_toggle raw_frame_args ∧ parse_byte "11" ∈ mfg_cases ∧
  mfg_switch register_radio (parse_byte "11") 12 raw_frame_args payload_init (mkWorld 1 0 []) =
    Some ((OT_ERROR_INVALID_ARGS, payload_init), mkWorld 1 0 []) ∧
  ∃ w', ProcessMfgCommands register_radio 12 raw_frame_args (mkWorld 1 0 []) =
          Some (OT_ERROR_NONE, w')
        ∧ trace w' = [] ++ [EvMfgCommand (parse_byte <$> raw_frame_args) 12]
                        ++ echoed (take (Z.to_nat 5) [11; 33; 0; 0; 0; 9; 0; 0; 0; 0; 0; 0])
                        ++ [EvCliOutput "\r\n" []]
        ∧ transport_calls (trace w') = 1%nat.
Proof.
  assert (Hop : parse_byte "11" ∈ mfg_cases).
  { replace (parse_byte "11") with 11 by (vm_compute; reflexivity).
    unfold mfg_cases. apply elem_of_cons. by left. }
  split; [exact register_radio_in_place |].
  split; [exact raw_frame_args_not_toggle |]. split; [exact Hop |].
  exact (proj1 (mfgcmd_direct_message_trigger register_radio raw_frame_args "11"
                  (mkWorld 1 0 []) [11; 33; 0; 0; 0; 9; 0; 0; 0; 0; 0; 0] 5 0
                  register_radio_in_place eq_refl eq_refl
                  raw_frame_args_not_toggle raw_frame_args_response ltac:(lia))
               eq_refl Hop).
Defined.

(** C10, as the specification words it, does not hold: a known get opcode
    called with twelve arguments leads to one transport call, not to a second
    one. *)
Lemma mfgcmd_known_opcode_single_send :
  ∃ w', ProcessMfgCommands register_radio 12 raw_frame_args (mkWorld 1 0 []) =
          Some (OT_ERROR_NONE, w')
        ∧ transport_calls (trace w') = 1%nat
        ∧ ¬ (2 ≤ transport_calls (trace w'))%nat.
Proof.
  eexists. split; [vm_compute; reflexivity |].
  split; [reflexivity | unfold transport_calls; simpl; lia].
Qed.

(** ** Arguments out of range *)

Lemma mfgcmd_invalid_args {R} (P : Platform R) (args : list string) (a0 : string)
    (w : World R) (payload : list Z) :
  mfgEnable w = 1 →
  args !! 0%nat = Some a0 →
  (1 < length args)%nat →
  length args ≠ 12%nat →
  mfg_switch P (parse_byte a0) (Z.of_nat (length args)) args payload_init w =
    Some ((OT_ERROR_INVALID_ARGS, payload), w) →
  ProcessMfgCommands P (Z.of_nat (length args)) args w = Some (OT_ERROR_INVALID_ARGS, w).
Proof.
  intros Hen H0 Hlen H12 Hsw.
  assert (Hn : ¬ is_toggle args).
  { intros [a [-> _]]. simpl in Hlen. lia. }
  rewrite (mfgcmd_enabled P args a0 w Hen Hn H0), Hsw.
  rewrite mfg_handle_errors_plain by (right; lia).
  simpl. by rewrite logged_nil.
Qed.

Lemma burst_tx_out_of_range {R} (P : Platform R) (a0 a1 a2 : string) (w : World R) :
  ¬ (parse_byte a1 < 8 ∧ 5 < parse_byte a2) →
  mfg_switch P MFG_CMD_BURST_TX 3 [a0; a1; a2] payload_init w =
    Some ((OT_ERROR_INVALID_ARGS, payload_init), w).
Proof.
  intros Hr. run_switch. fold (parse_byte a1) (parse_byte a2).
  destruct (Z.ltb_spec (parse_byte a1) 8), (Z.ltb_spec 5 (parse_byte a2));
    try reflexivity. lia.
Qed.

Lemma cca_test_out_of_range {R} (P : Platform R) (a0 a1 a2 : string) (w : World R) :
  ¬ (parse_byte a1 < 2 ∧ parse_byte a2 < 4) →
  ∃ payload,
    mfg_switch P MFG_CMD_CONTINOUS_CCA_TEST 3 [a0; a1; a2] payload_init w =
      Some ((OT_ERROR_INVALID_ARGS, payload), w).
Proof.
  intros Hr. eexists. run_switch. fold (parse_byte a1) (parse_byte a2).
  destruct (Z.ltb_spec (parse_byte a1) 2), (Z.ltb_spec (parse_byte a2) 4);
    try reflexivity. lia.
Qed.

Lemma phy_tx_test_out_of_range {R} (P : Platform R) (a0 a1 a2 a3 : string) (w : World R) :
  ¬ (parse_byte a1 < 8 ∧ 5 < parse_byte a2 ∧ parse_byte a3 < 2) →
  ∃ payload,
    mfg_switch P MFG_CMD_PHY_TX_TEST_PSDU 4 [a0; a1; a2; a3] payload_init w =
      Some ((OT_ERROR_INVALID_ARGS, payload), w).
Proof.
  intros Hr. eexists. run_switch.
  fold (parse_byte a1) (parse_byte a2) (parse_byte a3).
  destruct (Z.ltb_spec (parse_byte a1) 8), (Z.ltb_spec 5 (parse_byte a2)),
    (Z.ltb_spec (parse_byte a3) 2); try reflexivity. lia.
Qed.

(** C4. [ProcessMfgSetInt8] with two arguments and a value outside
    [min..max] returns [OT_ERROR_INVALID_ARGS] and leaves the world as it
    was: no transport call. The same holds for the cases burst TX (mode < 8,
    gap > 5), continuous CCA test (enable < 2, CCA mode < 4) and PHY TX test
    PSDU (count < 8, gap > 5, ack < 2) with the right number of arguments and
    a field outside its range: the case ends in [OT_ERROR_INVALID_ARGS]
    without a call, and [ProcessMfgCommands], which runs the switch when
    [mfgEnable] is 1, returns it with the world unchanged. *)
Theorem mfg_out_of_range_no_transport {R} (P : Platform R) (w : World R) (cmdId : Z)
    (a0 a1 a2 a3 : string) (min max : Z) :
  (¬ (min ≤ to_int8 (atoi a1) ≤ max) →
   ProcessMfgSetInt8 P cmdId 2 [a0; a1] min max w = Some (OT_ERROR_INVALID_ARGS, w))
  ∧ (¬ (parse_byte a1 < 8 ∧ 5 < parse_byte a2) →
     (∃ payload,
        mfg_switch P MFG_CMD_BURST_TX 3 [a0; a1; a2] payload_init w =
          Some ((OT_ERROR_INVALID_ARGS, payload), w))
     ∧ (mfgEnable w = 1 → parse_byte a0 = MFG_CMD_BURST_TX →
        ProcessMfgCommands P 3 [a0; a1; a2] w = Some (OT_ERROR_INVALID_ARGS, w)))
  ∧ (¬ (parse_byte a1 < 2 ∧ parse_byte a2 < 4) →
     (∃ payload,
        mfg_switch P MFG_CMD_CONTINOUS_CCA_TEST 3 [a0; a1; a2] payload_init w =
          Some ((OT_ERROR_INVALID_ARGS, payload), w))
     ∧ (mfgEnable w = 1 → parse_byte a0 = MFG_CMD_CONTINOUS_CCA_TEST →
        ProcessMfgCommands P 3 [a0; a1; a2] w = Some (OT_ERROR_INVALID_ARGS, w)))
  ∧ (¬ (parse_byte a1 < 8 ∧ 5 < parse_byte a2 ∧ parse_byte a3 < 2) →
     (∃ payload,
        mfg_switch P MFG_CMD_PHY_TX_TEST_PSDU 4 [a0; a1; a2; a3] payload_init w =
          Some ((OT_ERROR_INVALID_ARGS, payload), w))
     ∧ (mfgEnable w = 1 → parse_byte a0 = MFG_CMD_PHY_TX_TEST_PSDU →
        ProcessMfgCommands P 4 [a0; a1; a2; a3] w = Some (OT_ERROR_INVALID_ARGS, w))).
Proof.
  split; [apply ProcessMfgSetInt8_out_of_range |].
  split; [| split]; intros Hr.
  - split; [eexists; by apply burst_tx_out_of_range |]. intros Hen Hc.
    apply (mfgcmd_invalid_args P [a0; a1; a2] a0 w payload_init Hen eq_refl);
      [simpl; lia | discriminate |].
    rewrite Hc. by apply burst_tx_out_of_range.
  - destruct (cca_test_out_of_range P a0 a1 a2 w Hr) as [payload Hsw].
    split; [by exists payload |]. intros Hen Hc.
    apply (mfgcmd_invalid_args P [a0; a1; a2] a0 w payload Hen eq_refl);
      [simpl; lia | discriminate |].
    by rewrite Hc.
  - destruct (phy_tx_test_out_of_range P a0 a1 a2 a3 w Hr) as [payload Hsw].
    split; [by exists payload |]. intros Hen Hc.
    apply (mfgcmd_invalid_args P [a0; a1; a2; a3] a0 w payload Hen eq_refl);
      [simpl; lia | discriminate |].
    by rewrite Hc.
Qed.

Lemma mfg_out_of_range_no_transport_witness :
  ProcessMfgSetInt8 register_radio 15 2 ["16"; "23"] (-20) 22 (mkWorld 1 0 []) =
    Some (OT_ERROR_INVALID_ARGS, mkWorld 1 0 [])
  ∧ ProcessMfgCommands register_radio 3 ["33"; "8"; "9"] (mkWorld 1 0 []) =
      Some (OT_ERROR_INVALID_ARGS, mkWorld 1 0 [])
  ∧ ProcessMfgCommands register_radio 3 ["49"; "1"; "4"] (mkWorld 1 0 []) =
      Some (OT_ERROR_INVALID_ARGS, mkWorld 1 0 [])
  ∧ ProcessMfgCommands register_radio 4 ["57"; "7"; "5"; "1"] (mkWorld 1 0 []) =
      Some (OT_ERROR_INVALID_ARGS, mkWorld 1 0 []).
Proof.
  split; [| split; [| split]].
  - apply (proj1 (mfg_out_of_range_no_transport register_radio (mkWorld 1 0 []) 15
                    "16" "23" "" "" (-20) 22)).
    replace (to_int8 (atoi "23")) with 23 by (vm_compute; reflexivity). lia.
  - refine (proj2 (proj1 (proj2 (mfg_out_of_range_no_transport register_radio
                                   (mkWorld 1 0 []) 0 "33" "8" "9" "" 0 0)) _)
                  eq_refl eq_refl).
    replace (parse_byte "8") with 8 by (vm_compute; reflexivity). lia.
  - refine (proj2 (proj1 (proj2 (proj2 (mfg_out_of_range_no_transport register_radio
                                          (mkWorld 1 0 []) 0 "49" "1" "4" "" 0 0))) _)
                  eq_refl eq_refl).
    replace (parse_byte "4") with 4 by (vm_compute; reflexivity). lia.
  - refine (proj2 (proj2 (proj2 (proj2 (mfg_out_of_range_no_transport register_radio
                                          (mkWorld 1 0 []) 0 "57" "7" "5" "1" 0 0))) _)
                  eq_refl eq_refl).
    replace (parse_byte "5") with 5 by (vm_compute; reflexivity). lia.
Defined.

(** ** ProcessSetEui64 *)

Lemma seteui64_wrong_count {R} (P : Platform R) (n : Z) (args : list string) (w : World R) :
  n ≠ 1 → ProcessSetEui64 P n args w = Some (OT_ERROR_INVALID_ARGS, w).
Proof. intros H. unfold ProcessSetEui64. by destruct (Z.eqb_spec n 1). Qed.

(** An argument that is not 18 characters long, or whose second character
    is not [x], is refused without a call (the empty string aside, for
    which [hex[1]] lies behind the terminator). *)
Lemma seteui64_wrong_shape {R} (P : Platform R) (hex : string) (w : World R) :
  c_str hex ≠ [] →
  ¬ (char_at hex 1 = Some 120 ∧ strlen hex = 18) →
  ProcessSetEui64 P 1 [hex] w = Some (OT_ERROR_INVALID_ARGS, w).
Proof.
  intros Hne Hs. unfold ProcessSetEui64. change (1 =? 1) with true. cbv iota.
  erewrite bind_Some; [| reflexivity].
  assert (Hc : ∃ c, char_at hex 1 = Some c).
  { unfold char_at. destruct (c_str hex) as [|c0 [|c1 l]]; [done | |]; simpl; eauto. }
  destruct Hc as [c Hc]. rewrite Hc in *.
  erewrite bind_Some; [| reflexivity].
  destruct (Z.eqb_spec c 120) as [->|?]; [| reflexivity].
  destruct (Z.eqb_spec (strlen hex) 18); [| reflexivity].
  exfalso. by apply Hs.
Qed.

Lemma hex_value_range byte v : hex_value byte = Some v → 0 ≤ v < 16.
Proof.
  unfold hex_value. intros H.
  repeat match type of H with
  | context [if ?b then _ else _] => destruct b eqn:?
  end; simplify_eq; lia.
Qed.

Lemma shift_in_pair h l :
  0 ≤ h < 16 → 0 ≤ l < 16 →
  shift_in (shift_in 0 (to_uint8 h)) (to_uint8 l) = 16 * h + l.
Proof.
  intros Hh Hl.
  assert (Eh : h = 0 ∨ h = 1 ∨ h = 2 ∨ h = 3 ∨ h = 4 ∨ h = 5 ∨ h = 6 ∨ h = 7 ∨
               h = 8 ∨ h = 9 ∨ h = 10 ∨ h = 11 ∨ h = 12 ∨ h = 13 ∨ h = 14 ∨ h = 15)
    by lia.
  assert (El : l = 0 ∨ l = 1 ∨ l = 2 ∨ l = 3 ∨ l = 4 ∨ l = 5 ∨ l = 6 ∨ l = 7 ∨
               l = 8 ∨ l = 9 ∨ l = 10 ∨ l = 11 ∨ l = 12 ∨ l = 13 ∨ l = 14 ∨ l = 15)
    by lia.
  clear Hh Hl.
  repeat destruct Eh as [->|Eh]; try subst h;
    repeat destruct El as [->|El]; try subst l; reflexivity.
Qed.

(** The inner loop on a pair of characters. *)
Lemma eui64_digits_pair (arg : string) (pos : nat) (hi lo : Z) :
  char_at arg pos = Some hi → char_at arg (S pos) = Some lo →
  eui64_digits 2 arg pos 0 =
    Some (match hex_value hi, hex_value lo with
          | Some h, Some l => (OT_ERROR_NONE, S (S pos), 16 * h + l)
          | Some h, None => (OT_ERROR_FAILED, S (S pos), shift_in 0 (to_uint8 h))
          | None, _ => (OT_ERROR_FAILED, S pos, 0)
          end).
Proof.
  intros Hhi Hlo. simpl. rewrite Hhi. simpl.
  destruct (hex_value hi) as [h|] eqn:Eh.
  - pose proof (hex_value_range _ _ Eh) as Rh.
    assert (Hnext :
      (if (48 <=? hi) && (hi <=? 57)
       then eui64_digits 1 arg (S pos) (shift_in 0 (to_uint8 (hi - 48)))
       else if (97 <=? hi) && (hi <=? 102)
            then eui64_digits 1 arg (S pos) (shift_in 0 (to_uint8 (hi - 97 + 10)))
            else if (65 <=? hi) && (hi <=? 70)
                 then eui64_digits 1 arg (S pos) (shift_in 0 (to_uint8 (hi - 65 + 10)))
                 else Some (OT_ERROR_FAILED, S pos, 0))
      = eui64_digits 1 arg (S pos) (shift_in 0 (to_uint8 h))).
    { unfold hex_value in Eh.
      repeat match type of Eh with
      | context [if ?b then _ else _] => destruct b
      end; by simplify_eq. }
    simpl in Hnext. simpl. rewrite Hnext, Hlo. simpl.
    destruct (hex_value lo) as [l|] eqn:El.
    + pose proof (hex_value_range _ _ El) as Rl.
      unfold hex_value in El.
      repeat match type of El with
      | context [if ?b then _ else _] => destruct b
      end; simplify_eq; by rewrite shift_in_pair by lia.
    + unfold hex_value in El.
      repeat match type of El with
      | context [if ?b then _ else _] => destruct b
      end; by simplify_eq.
  - unfold hex_value in Eh.
    repeat match type of Eh with
    | context [if ?b then _ else _] => destruct b
    end; by simplify_eq.
Qed.

Lemma char_at_lookup (arg : string) (pos : nat) (c : Z) :
  c_str arg !! pos = Some c → char_at arg pos = Some c.
Proof. intros H. unfold char_at. by rewrite H. Qed.

(** The outer loop on the digits that follow [pos]. *)
Lemma eui64_bytes_spec (arg : string) : ∀ (count : nat) (digits : list Z) (i pos : nat)
    (addr : list Z),
  drop pos (c_str arg) = digits →
  length digits = (2 * count)%nat →
  (i + count ≤ length addr)%nat →
  match eui64_decode digits with
  | Some bytes =>
      eui64_bytes count i arg pos addr =
        Some (OT_ERROR_NONE, take i addr ++ bytes ++ drop (i + count) addr)
  | None => ∃ addr', eui64_bytes count i arg pos addr = Some (OT_ERROR_FAILED, addr')
  end.
Proof.
  induction count as [|count IH]; intros digits i pos addr Hd Hlen Ha.
  - destruct digits; [| discriminate Hlen]. simpl.
    by rewrite Nat.add_0_r, take_drop.
  - destruct digits as [|hi [|lo rest]]; try (simpl in Hlen; lia).
    assert (Hhi : c_str arg !! pos = Some hi).
    { rewrite <- (Nat.add_0_r pos), <- lookup_drop, Hd. done. }
    assert (Hlo : c_str arg !! S pos = Some lo).
    { replace (S pos) with (pos + 1)%nat by lia. rewrite <- lookup_drop, Hd. done. }
    assert (Hrest : drop (S (S pos)) (c_str arg) = rest).
    { replace (S (S pos)) with (pos + 2)%nat by lia.
      rewrite <- drop_drop, Hd. done. }
    cbn [eui64_bytes].
    rewrite (eui64_digits_pair arg pos hi lo) by (by apply char_at_lookup).
    cbn [eui64_decode]. simpl mbind.
    destruct (hex_value hi) as [h|]; [| simpl; eauto].
    destruct (hex_value lo) as [l|]; [| simpl; eauto].
    simpl. destruct (decide (OT_ERROR_NONE = OT_ERROR_NONE)) as [_|]; [| done].
    specialize (IH rest (S i) (S (S pos)) (<[i:=16 * h + l]> addr) Hrest).
    rewrite length_insert in IH.
    assert (Hl' : length rest = (2 * count)%nat) by (rewrite !length_cons in Hlen; lia).
    assert (Ha' : (S i + count ≤ length addr)%nat) by lia.
    specialize (IH Hl' Ha').
    destruct (eui64_decode rest) as [bytes|]; [| exact IH].
    rewrite IH. cbn [mbind option_bind]. do 2 f_equal.
    rewrite (take_S_r _ _ (16 * h + l)) by (apply list_lookup_insert_eq; lia).
    rewrite take_insert_ge by lia.
    rewrite drop_insert_lt by lia.
    replace (S i + count)%nat with (i + S count)%nat by lia.
    by rewrite <- app_assoc.
Qed.

(** An argument of the accepted shape: the platform is called exactly when
    the sixteen characters after the second one are hexadecimal digits, with
    the bytes they spell, high digit first. *)
Lemma seteui64_digits {R} (P : Platform R) (hex : string) (c0 : Z) (digits : list Z)
    (w : World R) :
  c_str hex = c0 :: 120 :: digits →
  length digits = 16%nat →
  ProcessSetEui64 P 1 [hex] w =
    match eui64_decode digits with
    | Some addr => callSetIeeeEui64 P addr w
    | None => Some (OT_ERROR_FAILED, w)
    end.
Proof.
  intros Hs Hlen. unfold ProcessSetEui64. change (1 =? 1) with true. cbv iota.
  erewrite bind_Some; [| reflexivity].
  rewrite (char_at_lookup hex 1 120) by (by rewrite Hs).
  erewrite bind_Some; [| reflexivity].
  change (120 =? 120) with true.
  replace (strlen hex =? 18) with true
    by (unfold strlen; rewrite Hs; simpl length; rewrite Hlen; reflexivity).
  simpl andb. cbv iota.
  pose proof (eui64_bytes_spec hex 8 digits 0 2 (replicate 8 0)) as Hb.
  rewrite Hs in Hb. specialize (Hb eq_refl Hlen ltac:(simpl; lia)).
  destruct (eui64_decode digits) as [addr|].
  - rewrite Hb. unfold bind, lift, ret. simpl. by rewrite app_nil_r.
  - destruct Hb as [addr' Hb]. rewrite Hb. reflexivity.
Qed.

(** [ProcessSetEui64] with one argument, in full. *)
Lemma seteui64_one_arg {R} (P : Platform R) (hex : string) (w : World R) :
  c_str hex ≠ [] →
  ProcessSetEui64 P 1 [hex] w =
    match c_str hex with
    | _ :: 120 :: digits =>
        if decide (length digits = 16%nat) then
          match eui64_decode digits with
          | Some addr => callSetIeeeEui64 P addr w
          | None => Some (OT_ERROR_FAILED, w)
          end
        else Some (OT_ERROR_INVALID_ARGS, w)
    | _ => Some (OT_ERROR_INVALID_ARGS, w)
    end.
Proof.
  intros Hne.
  destruct (c_str hex) as [|c0 [|c1 digits]] eqn:Hs; [done | |].
  - apply seteui64_wrong_shape; [by rewrite Hs |].
    intros [Hc _]. unfold char_at in Hc. rewrite Hs in Hc. discriminate Hc.
  - destruct (Z.eq_dec c1 120) as [->|Hc1].
    + destruct (decide (length digits = 16%nat)) as [Hl|Hl].
      * by apply (seteui64_digits P hex c0).
      * apply seteui64_wrong_shape; [by rewrite Hs |].
        intros [_ Hlen]. unfold strlen in Hlen. rewrite Hs in Hlen.
        simpl length in Hlen. lia.
    + assert (Hr : ProcessSetEui64 P 1 [hex] w = Some (OT_ERROR_INVALID_ARGS, w)).
      { apply seteui64_wrong_shape; [by rewrite Hs |].
        intros [Hc _]. unfold char_at in Hc. rewrite Hs in Hc. simpl in Hc. congruence. }
      rewrite Hr.
      destruct c1 as [|q|q]; try done.
      repeat (destruct q as [q|q|]; try done).
Qed.

(** C1. [ProcessSetEui64] with the argument [Zx0123456789abcdef]: the test
    looks at [hex[1]] and at the length only, so the platform setter is
    called with the address 01 23 45 67 89 ab cd ef; the specification asks
    for the prefix [0x], that is for invalid arguments and no platform call
    here. *)
Theorem seteui64_first_character_unchecked :
  ProcessSetEui64 register_radio 1 ["Zx0123456789abcdef"] world_init =
    Some (OT_ERROR_NONE,
          mkWorld 0 0 [EvSetIeeeEui64 [1; 35; 69; 103; 137; 171; 205; 239]]).
Proof. vm_compute. reflexivity. Qed.

Example seteui64_valid :
  ProcessSetEui64 register_radio 1 ["0x0123456789ABCDEF"] world_init =
    Some (OT_ERROR_NONE,
          mkWorld 0 0 [EvSetIeeeEui64 [1; 35; 69; 103; 137; 171; 205; 239]]).
Proof. vm_compute. reflexivity. Qed.

Example seteui64_bad_digit :
  ProcessSetEui64 register_radio 1 ["0x0123456789abcdeg"] world_init =
    Some (OT_ERROR_FAILED, world_init).
Proof. vm_compute. reflexivity. Qed.

Example seteui64_short :
  ProcessSetEui64 register_radio 1 ["0x0123"] world_init =
    Some (OT_ERROR_INVALID_ARGS, world_init).
Proof. vm_compute. reflexivity. Qed.

(** ** The session socket *)

Import Session.

#[local] Set Warnings "-clear-no-such-hyp".

Section Invariant.
Variable maxLine : Z.
Variable cliEnable : bool.
Variable androidInit : bool.

Lemma session_inv_size (d : Daemon) : session_inv d → (size (accepted d) ≤ 1)%nat.
Proof.
  unfold session_inv. intros ->.
  destruct (mSessionSocket d =? -1).
  - rewrite size_empty. lia.
  - rewrite size_singleton. lia.
Qed.

(** Dropping the session the daemon holds leaves no session open. *)
Lemma drop_session_inv (d : Daemon) :
  session_inv d → session_inv (set_mSessionSocket (-1) (close (mSessionSocket d) d)).
Proof.
  unfold session_inv. simpl. intros ->.
  destruct (mSessionSocket d =? -1); set_solver.
Qed.

Lemma log_inv (c : Sys) (d : Daemon) : session_inv d → session_inv (log c d).
Proof. done. Qed.

Lemma InitializeSessionSocket_inv (t : Tick) (d : Daemon) :
  fresh_accept t d → session_inv d → session_inv (InitializeSessionSocket t d).
Proof.
  unfold fresh_accept, session_inv, InitializeSessionSocket, accept.
  intros Hf Hi.
  destruct (Z.eqb_spec (tAccept t) (-1)) as [Ha|Ha]; [exact Hi |].
  destruct Hf as [Hf|Hf]; [done |].
  destruct (Z.eqb_spec (tGetFd t) (-1)) as [Hg|Hg].
  { rewrite Hg. simpl. rewrite Hi in *.
    destruct (mSessionSocket d =? -1); set_solver. }
  destruct (Z.eqb_spec (tSetFd t) (-1)) as [Hs|Hs].
  { rewrite Hs. simpl. rewrite Hi in *.
    destruct (mSessionSocket d =? -1); set_solver. }
  simpl. destruct (Z.eqb_spec (tSetFd t) (-1)); [done |].
  rewrite Hi in *.
  destruct (Z.eqb_spec (mSessionSocket d) (-1)); simpl;
    destruct (Z.eqb_spec (tAccept t) (-1)); try done; set_solver.
Qed.

Lemma OutputFormatV_inv (formatted sent : Z) (d : Daemon) :
  session_inv d → session_inv (OutputFormatV maxLine formatted sent d).2.
Proof.
  intros Hi. unfold OutputFormatV.
  destruct (formatted <? 0); [exact Hi |].
  destruct (mSessionSocket d =? -1) eqn:E; [exact Hi |].
  destruct (sent <? 0); simpl; [| exact Hi].
  by apply (drop_session_inv (log _ d)).
Qed.

Lemma otCliInputLine_inv (outputs : list (Z * Z)) : ∀ d : Daemon,
  session_inv d → session_inv (otCliInputLine maxLine outputs d).
Proof.
  induction outputs as [|o outputs IH]; intros d Hi; [exact Hi |].
  simpl. apply IH. by apply OutputFormatV_inv.
Qed.

Lemma Process_inv (t : Tick) (d d' : Daemon) :
  fresh_accept t d → session_inv d →
  Process maxLine cliEnable t d = Some d' → session_inv d'.
Proof.
  intros Hf Hi. unfold Process.
  destruct (mListenSocket d =? -1); [by intros [= <-] |].
  destruct (decide (mListenSocket d ∈ tErrorFds t)); [done |].
  set (d1 := if decide (mListenSocket d ∈ tReadFds t)
             then InitializeSessionSocket t d else d).
  assert (Hi1 : session_inv d1).
  { unfold d1. destruct (decide _); [by apply InitializeSessionSocket_inv | exact Hi]. }
  clearbody d1.
  destruct (mSessionSocket d1 =? -1); [by intros [= <-] |].
  destruct (decide (mSessionSocket d1 ∈ tErrorFds t));
    [intros [= <-]; by apply drop_session_inv |].
  destruct (decide (mSessionSocket d1 ∈ tReadFds t)); [| by intros [= <-]].
  destruct (0 <? tRead t).
  - destruct cliEnable; intros [= <-].
    + by apply otCliInputLine_inv, log_inv.
    + by apply OutputFormatV_inv, log_inv.
  - intros [= <-]. by apply (drop_session_inv (log _ d1)).
Qed.

Lemma TearDown_inv (d : Daemon) : session_inv d → session_inv (TearDown androidInit d).
Proof.
  intros Hi. unfold TearDown.
  set (d1 := if mSessionSocket d =? -1 then d
             else set_mSessionSocket (-1) (close (mSessionSocket d) d)).
  assert (H1 : mSessionSocket d1 = -1 ∧ accepted d1 = ∅).
  { unfold d1. destruct (Z.eqb_spec (mSessionSocket d) (-1)) as [E|E].
    - split; [exact E |]. unfold session_inv in Hi. rewrite Hi, E. done.
    - simpl. split; [done |]. unfold session_inv in Hi. rewrite Hi.
      destruct (mSessionSocket d =? -1); set_solver. }
  clearbody d1. destruct H1 as [Hs Ha].
  destruct androidInit; [| destruct (mListenSocket d1 =? -1)];
    unfold session_inv; simpl; rewrite ?Hs, ?Ha; simpl; set_solver.
Qed.

Lemma reachable_inv (d : Daemon) :
  reachable maxLine cliEnable androidInit d → session_inv d.
Proof.
  induction 1 as [listenFd | t d d' _ IH Hf Hp | d _ IH].
  - done.
  - by eapply Process_inv.
  - by apply TearDown_inv.
Qed.

(** A connection accepted while a session is held takes its place. *)
Lemma InitializeSessionSocket_replaces (t : Tick) (d : Daemon) :
  session_inv d → fresh_accept t d →
  mSessionSocket d ≠ -1 → tAccept t ≠ -1 → tGetFd t ≠ -1 → tSetFd t ≠ -1 →
  InitializeSessionSocket t d =
    mkDaemon (mListenSocket d) (tAccept t) {[tAccept t]}
      (syscalls d ++ [SysAccept (mListenSocket d) (tAccept t)]
                  ++ [SysFcntlGetFd (tAccept t) (tGetFd t)]
                  ++ [SysFcntlSetFd (tAccept t) (Z.lor (tGetFd t) FD_CLOEXEC) (tSetFd t)]
                  ++ [SysClose (mSessionSocket d)]).
Proof.
  intros Hi Hf Hs Ha Hg Hset. unfold InitializeSessionSocket, accept.
  destruct (Z.eqb_spec (tAccept t) (-1)); [done |].
  destruct (Z.eqb_spec (tGetFd t) (-1)); [done |].
  destruct (Z.eqb_spec (tSetFd t) (-1)); [done |].
  simpl. destruct (Z.eqb_spec (mSessionSocket d) (-1)); [done |].
  destruct (Z.eqb_spec (tSetFd t) (-1)); [done |].
  unfold set_mSessionSocket, close. simpl. f_equal.
  - destruct Hf as [|Hf]; [done |]. unfold session_inv in Hi. rewrite Hi in Hf |- *.
    destruct (Z.eqb_spec (mSessionSocket d) (-1)); [done |].
    clear -Hf. set_solver.
  - by repeat (rewrite <- (app_assoc (syscalls d)); simpl).
Qed.

End Invariant.

(** C9. The daemon holds at most one session. A connection accepted while
    a session is held replaces it: the old descriptor is closed, then the new
    one is stored, and it is the only session descriptor open. [Process]
    keeps the open session descriptors equal to the one the daemon holds (it
    ends the process only on an error of the listen socket), so that after
    every call, and in every state the daemon reaches, at most one session
    descriptor is open. *)
Theorem session_latest_wins_at_most_one (maxLine : Z) (cliEnable androidInit : bool) :
  (∀ t d,
     session_inv d → fresh_accept t d →
     mSessionSocket d ≠ -1 → tAccept t ≠ -1 → tGetFd t ≠ -1 → tSetFd t ≠ -1 →
     let d' := InitializeSessionSocket t d in
     mSessionSocket d' = tAccept t ∧ accepted d' = {[tAccept t]} ∧
     ∃ calls, syscalls d' = syscalls d ++ calls ++ [SysClose (mSessionSocket d)])
  ∧ (∀ t d,
       session_inv d → fresh_accept t d →
       match Process maxLine cliEnable t d with
       | Some d' => session_inv d' ∧ (size (accepted d') ≤ 1)%nat
       | None => mListenSocket d ≠ -1 ∧ mListenSocket d ∈ tErrorFds t
       end)
  ∧ (∀ d, reachable maxLine cliEnable androidInit d → (size (accepted d) ≤ 1)%nat).
Proof.
  split; [| split].
  - intros t d Hi Hf Hs Ha Hg Hset d'. unfold d'.
    rewrite (InitializeSessionSocket_replaces t d Hi Hf Hs Ha Hg Hset). simpl.
    split; [done |]. split; [done |].
    by exists [SysAccept (mListenSocket d) (tAccept t);
               SysFcntlGetFd (tAccept t) (tGetFd t);
               SysFcntlSetFd (tAccept t) (Z.lor (tGetFd t) FD_CLOEXEC) (tSetFd t)].
  - intros t d Hi Hf.
    destruct (Process maxLine cliEnable t d) as [d'|] eqn:Hp.
    + assert (Hi' : session_inv d') by (by eapply Process_inv).
      split; [exact Hi' |]. apply session_inv_size in Hi'. lia.
    + unfold Process in Hp.
      destruct (Z.eqb_spec (mListenSocket d) (-1)); [done |].
      destruct (decide (mListenSocket d ∈ tErrorFds t)); [done |].
      exfalso. repeat (case_match; try done).
  - intros d Hr. apply reachable_inv, session_inv_size in Hr. lia.
Qed.

Lemma session_latest_wins_at_most_one_witness :
  session_inv daemon_with_session ∧ fresh_accept tick_with_connection daemon_with_session ∧
  (mSessionSocket (InitializeSessionSocket tick_with_connection daemon_with_session) = 6
   ∧ accepted (InitializeSessionSocket tick_with_connection daemon_with_session) = {[6]}
   ∧ ∃ calls,
       syscalls (InitializeSessionSocket tick_with_connection daemon_with_session) =
         [] ++ calls ++ [SysClose 5])
  ∧ match Process 1024 true tick_with_connection daemon_with_session with
    | Some d' => session_inv d' ∧ (size (accepted d') ≤ 1)%nat
    | None => mListenSocket daemon_with_session ≠ -1
              ∧ mListenSocket daemon_with_session ∈ tErrorFds tick_with_connection
    end.
Proof.
  assert (Hi : session_inv daemon_with_session) by reflexivity.
  assert (Hf : fresh_accept tick_with_connection daemon_with_session).
  { right. simpl. intros H. apply elem_of_singleton in H. discriminate H. }
  split; [exact Hi |]. split; [exact Hf |].
  destruct (session_latest_wins_at_most_one 1024 true false) as [H1 [H2 _]].
  split.
  - apply (H1 tick_with_connection daemon_with_session Hi Hf); simpl; lia.
  - exact (H2 tick_with_connection daemon_with_session Hi Hf).
Defined.

(** * Further properties of the vendor commands *)

Lemma classic_toggle (args : list string) : is_toggle args ∨ ¬ is_toggle args.
Proof.
  destruct args as [|a [|b args]].
  - right. intros [a [H _]]. discriminate H.
  - destruct (Z.eq_dec (to_uint8 (atoi a)) 0) as [H0|H0]; [left; exists a; auto |].
    destruct (Z.eq_dec (to_uint8 (atoi a)) 1) as [H1|H1]; [left; exists a; auto |].
    right. intros [a' [[= <-] [H|H]]]; contradiction.
  - right. intros [a' [H _]]. discriminate H.
Qed.


(** ** One transport call at most *)

Lemma bounded_ret {R A} (a : A) : bounded (R:=R) 0 (ret a).
Proof.
  intros w a' w' [= <- <-]. split; [done |]. exists []. by rewrite app_nil_r.
Qed.

Lemma bounded_lift {R A} (o : option A) : bounded (R:=R) 0 (lift o).
Proof. destruct o; [apply bounded_ret | by intros w a w' H]. Qed.

Lemma bounded_output {R} (format : string) (args : list Z) :
  bounded (R:=R) 0 (otCliOutputFormat format args).
Proof. intros w a w' [= <- <-]. split; [done |]. by eexists. Qed.

Lemma bounded_call {R} (P : Platform R) (payload : list Z) (n : Z) :
  bounded 1 (callMfgCommand P payload n).
Proof.
  intros w a w'. unfold callMfgCommand.
  destruct (otPlatRadioMfgCommand P (radio w) payload n) as [[resp len] r].
  intros [= <- <-]. split; [done |]. by eexists.
Qed.

Lemma bounded_weaken {R A} (k k' : nat) (m : M R A) :
  (k ≤ k')%nat → bounded k m → bounded k' m.
Proof.
  intros Hk Hm w a w' H. destruct (Hm w a w' H) as [He [ev [Ht Hc]]].
  split; [done |]. exists ev. split; [done | lia].
Qed.

Lemma bounded_bind {R A B} (k1 k2 : nat) (m : M R A) (f : A → M R B) :
  bounded k1 m → (∀ a, bounded k2 (f a)) → bounded (k1 + k2) (bind m f).
Proof.
  intros Hm Hf w b w'. unfold bind.
  destruct (m w) as [[a w1]|] eqn:E; [| done]. intros H.
  destruct (Hm w a w1 E) as [He1 [ev1 [Ht1 Hc1]]].
  destruct (Hf a w1 b w' H) as [He2 [ev2 [Ht2 Hc2]]].
  split; [congruence |]. exists (ev1 ++ ev2).
  split; [by rewrite Ht2, Ht1, app_assoc |].
  rewrite transport_calls_app. lia.
Qed.

Lemma bounded_quiet_then {R A B} (k : nat) (m : M R A) (f : A → M R B) :
  bounded 0 m → (∀ a, bounded k (f a)) → bounded k (bind m f).
Proof. intros Hm Hf. by apply (bounded_bind 0 k). Qed.

Lemma bounded_then_quiet {R A B} (k : nat) (m : M R A) (f : A → M R B) :
  bounded k m → (∀ a, bounded 0 (f a)) → bounded k (bind m f).
Proof.
  intros Hm Hf. apply (bounded_weaken (k + 0)); [lia |]. by apply bounded_bind.
Qed.

(** Steps through a handler that makes no transport call. *)
Ltac quiet :=
  repeat first
    [ apply bounded_ret
    | apply bounded_lift
    | apply bounded_output
    | apply bounded_quiet_then; [| intros ?]
    | match goal with
      | |- bounded _ (if ?b then _ else _) => destruct b
      | |- bounded _ (match ?r with (_, _) => _ end) => destruct r
      end ].

(** Steps through a handler up to and past its one transport call. *)
Ltac single :=
  repeat first
    [ apply bounded_then_quiet; [apply bounded_call | intros ?; solve [quiet]]
    | apply (bounded_weaken 0 1); [lia | solve [quiet]]
    | apply bounded_quiet_then; [solve [quiet] | intros ?]
    | match goal with
      | |- bounded _ (if ?b then _ else _) => destruct b
      | |- bounded _ (match ?r with (_, _) => _ end) => destruct r
      end ].

Lemma ProcessMfgGetInt8_bounded {R} (P : Platform R) (cmdId n : Z) :
  bounded 1 (ProcessMfgGetInt8 P cmdId n).
Proof. unfold ProcessMfgGetInt8. cbv zeta. single. Qed.

Lemma ProcessMfgSetInt8_bounded {R} (P : Platform R) (cmdId n : Z) (args : list string)
    (min max : Z) :
  bounded 1 (ProcessMfgSetInt8 P cmdId n args min max).
Proof. unfold ProcessMfgSetInt8. cbv zeta. single. Qed.

Lemma echo_payload_bounded {R} (count : nat) : ∀ (idx : nat) (payload : list Z),
  bounded (R:=R) 0 (echo_payload count idx payload).
Proof.
  induction count as [|count IH]; intros idx payload; simpl.
  - apply bounded_ret.
  - apply bounded_quiet_then; [apply bounded_lift | intros b].
    apply bounded_quiet_then; [apply bounded_output | intros _]. apply IH.
Qed.

Lemma mfg_switch_bounded {R} (P : Platform R) (cmdId n : Z) (args : list string)
    (payload : list Z) :
  bounded 1 (mfg_switch P cmdId n args payload).
Proof.
  unfold mfg_switch, keeping. cbv zeta.
  repeat match goal with
  | |- bounded _ (if ?c =? ?k then _ else _) => destruct (c =? k)
  end;
  try (apply bounded_then_quiet;
       [first [apply ProcessMfgGetInt8_bounded | apply ProcessMfgSetInt8_bounded]
       | intros ?; apply bounded_ret]);
  single.
Qed.

Lemma mfg_handle_errors_bounded {R} (P : Platform R) (error : otError) (n : Z)
    (args : list string) (payload : list Z) :
  bounded 1 (mfg_handle_errors P error n args payload).
Proof.
  unfold mfg_handle_errors.
  destruct (decide (error = OT_ERROR_NONE)); [apply (bounded_weaken 0 1); [lia | quiet] |].
  destruct (n =? payloadLen).
  - apply bounded_quiet_then; [apply bounded_lift | intros p].
    apply bounded_then_quiet; [apply bounded_call | intros [resp len]].
    apply bounded_quiet_then; [apply echo_payload_bounded | intros _]. quiet.
  - apply (bounded_weaken 0 1); [lia |].
    repeat match goal with |- bounded _ (if decide ?p then _ else _) => destruct (decide p) end;
      quiet.
Qed.

Lemma mfg_switch_twelve_quiet {R} (P : Platform R) (cmdId : Z) (args : list string)
    (payload : list Z) :
  bounded 0 (mfg_switch P cmdId 12 args payload).
Proof.
  intros w a w'. rewrite mfg_switch_twelve. intros [= <- <-].
  split; [done |]. exists []. by rewrite app_nil_r.
Qed.

Lemma mfg_handle_errors_quiet {R} (P : Platform R) (error : otError) (n : Z)
    (args : list string) (payload : list Z) :
  n ≠ 12 → bounded 0 (mfg_handle_errors P error n args payload).
Proof.
  intros Hn w a w'. rewrite mfg_handle_errors_plain by (by right).
  intros [= <- <-]. split; [done |]. exists (error_message error).
  split; [done |]. by destruct error.
Qed.

(** What follows the toggle test in [ProcessMfgCommands]. *)
Lemma mfgcmd_dispatch_bounded {R} (P : Platform R) (n : Z) (args : list string) :
  bounded 1
    (let* enable := get_mfgEnable in
     if enable =? 0 then
       do otCliOutputFormat "MFG command not enabled. to enable it : mfgcmd 1\r\n" [] then
       ret OT_ERROR_NONE
     else
       let* r :=
         (if (0 <? n) && (enable =? 1) then
            let* a0 := lift (args !! 0%nat) in
            mfg_switch P (to_uint8 (atoi a0)) n args payload_init
          else ret (OT_ERROR_INVALID_ARGS, payload_init)) in
       let '(error, payload) := r in
       mfg_handle_errors P error n args payload).
Proof.
  assert (Hget : bounded (R:=R) 0 get_mfgEnable).
  { intros w a w' [= <- <-]. split; [done |]. exists []. by rewrite app_nil_r. }
  apply bounded_quiet_then; [exact Hget | intros enable].
  destruct (enable =? 0); [apply (bounded_weaken 0 1); [lia | quiet] |].
  destruct (Z.eq_dec n 12) as [->|Hn].
  - apply bounded_quiet_then.
    + destruct ((0 <? 12) && (enable =? 1)); [| quiet].
      apply bounded_quiet_then; [apply bounded_lift | intros a0].
      apply mfg_switch_twelve_quiet.
    + intros [error payload]. apply mfg_handle_errors_bounded.
  - apply bounded_then_quiet.
    + destruct ((0 <? n) && (enable =? 1)); [| apply (bounded_weaken 0 1); [lia | quiet]].
      apply bounded_quiet_then; [apply bounded_lift | intros a0].
      apply mfg_switch_bounded.
    + intros [error payload]. by apply mfg_handle_errors_quiet.
Qed.

(** A call of [ProcessMfgCommands] that is not a toggle leaves
    [mfgEnable] as it is, a toggle leaves it 0 or 1; the trace is only
    extended, by at most one call of [otPlatRadioMfgCommand]. *)
Lemma mfgcmd_frame {R} (P : Platform R) (args : list string) (w w' : World R)
    (error : otError) :
  ProcessMfgCommands P (Z.of_nat (length args)) args w = Some (error, w') →
  (is_toggle args ∧ (mfgEnable w' = 0 ∨ mfgEnable w' = 1) ∧ trace w' = trace w
   ∨ ¬ is_toggle args ∧ mfgEnable w' = mfgEnable w)
  ∧ ∃ events, trace w' = trace w ++ events ∧ (transport_calls events ≤ 1)%nat.
Proof.
  intros Hrun.
  destruct (classic_toggle args) as [Ht|Hn].
  - destruct Ht as [a [-> Ha]].
    change (Z.of_nat (length [a])) with 1 in Hrun.
    rewrite (mfgcmd_toggle P a w Ha) in Hrun. injection Hrun as <- <-.
    split.
    + left. split; [exists a; split; [reflexivity | exact Ha] |].
      split.
      * exact Ha.
      * reflexivity.
    + exists []. simpl. split; [by rewrite app_nil_r | unfold transport_calls; simpl; lia].
  - unfold ProcessMfgCommands in Hrun.
    erewrite bind_Some in Hrun; [| by apply mfgcmd_not_toggle]. cbv beta iota in Hrun.
    destruct (mfgcmd_dispatch_bounded P _ args w error w' Hrun) as [He Hev].
    split; [right; by split | exact Hev].
Qed.

(** X1. However a call of [ProcessMfgCommands] ends, it has made at most one
    call of [otPlatRadioMfgCommand], and it has only added to the trace. *)
Theorem mfgcmd_at_most_one_transport_call {R} (P : Platform R) (args : list string)
    (w w' : World R) (error : otError) :
  ProcessMfgCommands P (Z.of_nat (length args)) args w = Some (error, w') →
  ∃ events, trace w' = trace w ++ events ∧ (transport_calls events ≤ 1)%nat.
Proof. intros H. exact (proj2 (mfgcmd_frame P args w w' error H)). Qed.

(** X2. [mfgEnable] stays 0 or 1 under [ProcessMfgCommands], and only a
    toggle (one argument that parses to 0 or 1) changes it. *)
Theorem mfgcmd_flag_invariant {R} (P : Platform R) (args : list string)
    (w w' : World R) (error : otError) :
  ProcessMfgCommands P (Z.of_nat (length args)) args w = Some (error, w') →
  (mfgEnable w = 0 ∨ mfgEnable w = 1 → mfgEnable w' = 0 ∨ mfgEnable w' = 1)
  ∧ (¬ is_toggle args → mfgEnable w' = mfgEnable w).
Proof.
  intros H. destruct (proj1 (mfgcmd_frame P args w w' error H)) as [[Ht [He _]]|[Hn He]].
  - split; [done | by intros Hn].
  - split; [by rewrite He | done].
Qed.

(** ** Opcodes and argument counts *)

Lemma mfg_switch_default {R} (P : Platform R) (cmdId n : Z) (args : list string)
    (payload : list Z) (w : World R) :
  cmdId ∉ mfg_cases →
  mfg_switch P cmdId n args payload w = Some ((OT_ERROR_NOT_IMPLEMENTED, payload), w).
Proof.
  intros Hc. unfold mfg_switch.
  repeat match goal with
  | |- context [cmdId =? ?k] =>
      destruct (Z.eqb_spec cmdId k) as [E|?];
      [ exfalso; apply Hc; rewrite E; unfold mfg_cases; unfold_opcodes;
        rewrite !elem_of_cons; lia |]
  end.
  reflexivity.
Qed.

(** X3. With [mfgEnable] 1, an opcode that has no case and a number of
    arguments other than twelve: [OT_ERROR_NOT_IMPLEMENTED], the line
    [NOT IMPLEMENTED], and no transport call. *)
Theorem mfgcmd_unknown_opcode_not_implemented {R} (P : Platform R) (args : list string)
    (a0 : string) (w : World R) :
  mfgEnable w = 1 →
  args !! 0%nat = Some a0 →
  ¬ is_toggle args →
  parse_byte a0 ∉ mfg_cases →
  length args ≠ 12%nat →
  ProcessMfgCommands P (Z.of_nat (length args)) args w =
    Some (OT_ERROR_NOT_IMPLEMENTED,
          mkWorld 1 (radio w) (trace w ++ [EvCliOutput "NOT IMPLEMENTED\r\n" []])).
Proof.
  intros Hen H0 Hn Hc Hl.
  rewrite (mfgcmd_enabled P args a0 w Hen Hn H0), mfg_switch_default by done.
  rewrite mfg_handle_errors_plain by (right; lia).
  unfold logged. simpl. by rewrite Hen.
Qed.

Lemma mfg_switch_wrong_count {R} (P : Platform R) (cmdId n : Z) (args : list string)
    (payload : list Z) (w : World R) :
  cmdId ∈ mfg_cases →
  n ≠ mfg_arg_count cmdId →
  mfg_switch P cmdId n args payload w = Some ((OT_ERROR_INVALID_ARGS, payload), w).
Proof.
  intros Hc Hn. unfold mfg_switch.
  repeat match goal with
  | |- context [cmdId =? ?k] =>
      destruct (Z.eqb_spec cmdId k) as [E|?];
      [ rewrite E in Hn; vm_compute in Hn; unfold keeping, bind, ret;
        rewrite ?ProcessMfgGetInt8_wrong_count, ?ProcessMfgSetInt8_wrong_count
          by (intros ->; by apply Hn);
        try reflexivity;
        match goal with
        | |- context [n =? ?c] => destruct (Z.eqb_spec n c) as [->|?]; [by destruct Hn | reflexivity]
        end |]
  end.
  exfalso. unfold mfg_cases in Hc. rewrite !elem_of_cons, elem_of_nil in Hc.
  unfold_opcodes. lia.
Qed.

(** X4. With [mfgEnable] 1, a known opcode with a number of arguments that
    is neither the one its case asks for nor twelve: the call is refused with
    [OT_ERROR_INVALID_ARGS] and nothing happens, no transport call and no
    output. *)
Theorem mfgcmd_wrong_count_silent {R} (P : Platform R) (args : list string)
    (a0 : string) (w : World R) :
  mfgEnable w = 1 →
  args !! 0%nat = Some a0 →
  ¬ is_toggle args →
  parse_byte a0 ∈ mfg_cases →
  Z.of_nat (length args) ≠ mfg_arg_count (parse_byte a0) →
  length args ≠ 12%nat →
  ProcessMfgCommands P (Z.of_nat (length args)) args w = Some (OT_ERROR_INVALID_ARGS, w).
Proof.
  intros Hen H0 Hn Hc Hcount Hl.
  rewrite (mfgcmd_enabled P args a0 w Hen Hn H0), mfg_switch_wrong_count by done.
  rewrite mfg_handle_errors_plain by (right; lia).
  simpl. by rewrite logged_nil.
Qed.

(** ** Bytes *)

Lemma lor_shiftl_8 (lo hi : Z) :
  0 ≤ lo < 256 → Z.lor lo (Z.shiftl hi 8) = lo + 256 * hi.
Proof.
  intros Hlo.
  assert (Hd : Z.land lo (Z.shiftl hi 8) = 0).
  { apply Z.bits_inj'. intros n Hn. rewrite Z.land_spec, Z.bits_0.
    destruct (Z.lt_ge_cases n 8).
    - rewrite (Z.shiftl_spec_low hi 8 n) by lia. apply andb_false_r.
    - rewrite <- (Z.mod_small lo (2 ^ 8)) by (change (2 ^ 8) with 256; lia).
      rewrite Z.mod_pow2_bits_high by lia. reflexivity. }
  rewrite <- Z.lxor_lor by exact Hd.
  rewrite <- Z.add_nocarry_lxor by exact Hd.
  rewrite Z.shiftl_mul_pow2 by lia. change (2 ^ 8) with 256. lia.
Qed.

Lemma land_255 (z : Z) : Z.land z 255 = z mod 256.
Proof. change 255 with (Z.ones 8). rewrite Z.land_ones by lia. reflexivity. Qed.

Lemma shiftr_8 (z : Z) : Z.shiftr z 8 = z / 256.
Proof. rewrite Z.shiftr_div_pow2 by lia. reflexivity. Qed.

Lemma bytes_lookup (frame : list Z) (i : nat) :
  bytes frame → (i < length frame)%nat → 0 ≤ frame !!! i < 256.
Proof.
  intros Hb Hi. unfold bytes in Hb. rewrite Forall_lookup in Hb.
  apply (Hb i). by apply list_lookup_lookup_total_lt.
Qed.

(** ** The RX result *)

(** X5. [mfgcmd 31] with [mfgEnable] 1: the command succeeds exactly when
    the response is at least 11 bytes long, whatever its status byte, and
    then prints status, the two packet counts (16 bits, low byte first), the
    signed RSSI and the LQI; a shorter response gives [OT_ERROR_FAILED] and
    the line [FAILED]. *)
Theorem mfgcmd_rx_result {R} (P : Platform R) (a0 : string) (w : World R)
    (resp : list Z) (outputLen : Z) (r : R) :
  in_place P →
  mfgEnable w = 1 →
  parse_byte a0 = MFG_CMD_GET_RX_RESULT →
  otPlatRadioMfgCommand P (radio w) rx_result_frame payloadLen = (resp, outputLen, r) →
  bytes resp →
  ProcessMfgCommands P 1 [a0] w =
    Some (if 11 <=? outputLen
          then (OT_ERROR_NONE, logged (sent w r rx_result_frame) (rx_result_report resp))
          else (OT_ERROR_FAILED,
                logged (sent w r rx_result_frame) [EvCliOutput "FAILED\r\n" []])).
Proof.
  intros Hip Hen Hop Hc Hb.
  assert (Hn : ¬ is_toggle [a0]).
  { intros [a [[= <-] Ha]]. fold (parse_byte a0) in Ha. rewrite Hop in Ha.
    unfold_opcodes. lia. }
  pose proof (mfgcmd_enabled P [a0] a0 w Hen Hn eq_refl) as Hrun.
  change (Z.of_nat (length [a0])) with 1 in Hrun. rewrite Hrun, Hop. clear Hrun.
  assert (Hlen : length resp = 12%nat).
  { specialize (Hip (radio w) rx_result_frame payloadLen). by rewrite Hc in Hip. }
  assert (Hsw : mfg_switch P MFG_CMD_GET_RX_RESULT 1 [a0] payload_init w =
                Some (if 11 <=? outputLen
                      then (OT_ERROR_NONE, resp,
                            logged (sent w r rx_result_frame) (rx_result_report resp))
                      else (OT_ERROR_FAILED, resp, sent w r rx_result_frame))).
  { unfold mfg_switch. eval_closed_eqb. cbv zeta.
    change (<[2%nat:=MFG_CMD_ACTION_GET]> (<[1%nat:=MFG_CMD_GET_RX_RESULT]> payload_init))
      with rx_result_frame.
    erewrite bind_Some; [| by apply callMfgCommand_run]. cbv beta iota.
    destruct (11 <=? outputLen); [| reflexivity].
    rewrite !(list_lookup_lookup_total_lt resp) by lia.
    unfold_monad. unfold rx_result_report, logged, sent. simpl.
    rewrite !lor_shiftl_8 by (apply bytes_lookup; [done | lia]).
    by rewrite <- !app_assoc. }
  rewrite Hsw. destruct (11 <=? outputLen).
  - rewrite mfg_handle_errors_plain by (by left). simpl. by rewrite logged_nil.
  - rewrite mfg_handle_errors_plain by (right; lia). simpl.
    unfold logged, sent. simpl. reflexivity.
Qed.

(** ** Commands that do not look at the response *)

Lemma mfgcmd_no_error {R} (P : Platform R) (args : list string) (a0 : string)
    (w w1 : World R) (payload : list Z) :
  mfgEnable w = 1 →
  args !! 0%nat = Some a0 →
  ¬ is_toggle args →
  mfg_switch P (parse_byte a0) (Z.of_nat (length args)) args payload_init w =
    Some ((OT_ERROR_NONE, payload), w1) →
  ProcessMfgCommands P (Z.of_nat (length args)) args w = Some (OT_ERROR_NONE, w1).
Proof.
  intros Hen H0 Hn Hsw.
  rewrite (mfgcmd_enabled P args a0 w Hen Hn H0), Hsw.
  rewrite mfg_handle_errors_plain by (by left). simpl. by rewrite logged_nil.
Qed.

Lemma not_toggle_opcode (args : list string) (a0 : string) :
  args !! 0%nat = Some a0 → 1 < parse_byte a0 → ¬ is_toggle args.
Proof.
  intros H0 Hop [a [-> Ha]]. injection H0 as ->. unfold parse_byte in Hop. lia.
Qed.

(** X6. Start RX test, burst TX and PHY TX test PSDU with [mfgEnable] 1 and
    valid arguments send their frame and return [OT_ERROR_NONE] whatever the
    transport answers: neither the length of the response nor its status byte
    is looked at, and nothing is printed. *)
Theorem mfgcmd_fire_and_forget {R} (P : Platform R) (a0 a1 a2 a3 : string) (w : World R) :
  mfgEnable w = 1 →
  (parse_byte a0 = MFG_CMD_START_RX_TEST →
   ProcessMfgCommands P 1 [a0] w =
     Some (OT_ERROR_NONE,
           sent w (otPlatRadioMfgCommand P (radio w) start_rx_frame payloadLen).2
                start_rx_frame))
  ∧ (parse_byte a0 = MFG_CMD_BURST_TX →
     parse_byte a1 < 8 → 5 < parse_byte a2 →
     ProcessMfgCommands P 3 [a0; a1; a2] w =
       Some (OT_ERROR_NONE,
             sent w (otPlatRadioMfgCommand P (radio w)
                       (burst_tx_frame (parse_byte a1) (parse_byte a2)) payloadLen).2
                  (burst_tx_frame (parse_byte a1) (parse_byte a2))))
  ∧ (parse_byte a0 = MFG_CMD_PHY_TX_TEST_PSDU →
     parse_byte a1 < 8 → 5 < parse_byte a2 → parse_byte a3 < 2 →
     ProcessMfgCommands P 4 [a0; a1; a2; a3] w =
       Some (OT_ERROR_NONE,
             sent w (otPlatRadioMfgCommand P (radio w)
                       (phy_tx_frame (parse_byte a1) (parse_byte a2) (parse_byte a3))
                       payloadLen).2
                  (phy_tx_frame (parse_byte a1) (parse_byte a2) (parse_byte a3)))).
Proof.
  intros Hen. split; [| split].
  - intros Hop.
    destruct (otPlatRadioMfgCommand P (radio w) start_rx_frame payloadLen)
      as [[resp len] r] eqn:Hc.
    apply (mfgcmd_no_error P [a0] a0 w _ resp Hen eq_refl).
    { apply (not_toggle_opcode [a0] a0 eq_refl). rewrite Hop. unfold_opcodes. lia. }
    rewrite Hop. unfold mfg_switch. eval_closed_eqb. cbv zeta.
    change (<[1%nat:=MFG_CMD_START_RX_TEST]> payload_init) with start_rx_frame.
    erewrite bind_Some; [| by apply callMfgCommand_run]. reflexivity.
  - intros Hop H1 H2.
    destruct (otPlatRadioMfgCommand P (radio w) _ payloadLen) as [[resp len] r] eqn:Hc.
    apply (mfgcmd_no_error P [a0; a1; a2] a0 w _ resp Hen eq_refl).
    { apply (not_toggle_opcode [a0; a1; a2] a0 eq_refl). rewrite Hop. unfold_opcodes. lia. }
    rewrite Hop. run_switch. fold (parse_byte a1) (parse_byte a2).
    replace (parse_byte a1 <? 8) with true by (symmetry; by apply Z.ltb_lt).
    replace (5 <? parse_byte a2) with true by (symmetry; by apply Z.ltb_lt).
    cbv beta iota delta [andb].
    change (11 :: MFG_CMD_BURST_TX :: 0 :: 0 :: parse_byte a1 :: parse_byte a2 :: _)
      with (burst_tx_frame (parse_byte a1) (parse_byte a2)).
    rewrite (callMfgCommand_run P _ w resp len r Hc). reflexivity.
  - intros Hop H1 H2 H3.
    destruct (otPlatRadioMfgCommand P (radio w) _ payloadLen) as [[resp len] r] eqn:Hc.
    apply (mfgcmd_no_error P [a0; a1; a2; a3] a0 w _ resp Hen eq_refl).
    { apply (not_toggle_opcode [a0; a1; a2; a3] a0 eq_refl). rewrite Hop. unfold_opcodes. lia. }
    rewrite Hop. run_switch. fold (parse_byte a1) (parse_byte a2) (parse_byte a3).
    replace (parse_byte a1 <? 8) with true by (symmetry; by apply Z.ltb_lt).
    replace (5 <? parse_byte a2) with true by (symmetry; by apply Z.ltb_lt).
    replace (parse_byte a3 <? 2) with true by (symmetry; by apply Z.ltb_lt).
    cbv beta iota delta [andb].
    change (11 :: MFG_CMD_PHY_TX_TEST_PSDU :: MFG_CMD_ACTION_SET :: 0 :: _)
      with (phy_tx_frame (parse_byte a1) (parse_byte a2) (parse_byte a3)).
    rewrite (callMfgCommand_run P _ w resp len r Hc). reflexivity.
Qed.

Lemma to_uint16_range z : 0 ≤ to_uint16 z < 65536.
Proof. unfold to_uint16. apply Z.mod_pos_bound. lia. Qed.

Lemma generic_param_frame_bytes (seq panid destaddr srcaddr : Z) :
  0 ≤ seq < 256 → 0 ≤ panid < 65536 → 0 ≤ destaddr < 65536 → 0 ≤ srcaddr < 65536 →
  bytes (generic_param_frame seq panid destaddr srcaddr).
Proof.
  intros Hs Hp Hd Hsrc. unfold bytes, generic_param_frame. unfold_opcodes.
  repeat (apply Forall_cons; split; [Z.div_mod_to_equations; lia |]).
  apply Forall_nil_2.
Qed.

(** X7. The generic parameter command ([mfgcmd 59 seq panid dest src], the
    last three in hexadecimal) with [mfgEnable] 1 sends one frame that holds
    the sequence number in byte 4 and the three 16 bit values in bytes 5 to
    10, low byte first, all of them [uint8_t] values, and returns
    [OT_ERROR_NONE] without looking at the response. *)
Theorem mfgcmd_generic_param {R} (P : Platform R) (a0 a1 a2 a3 a4 : string) (w : World R) :
  mfgEnable w = 1 →
  parse_byte a0 = MFG_CMD_SET_GENERIC_PARAM →
  ProcessMfgCommands P 5 [a0; a1; a2; a3; a4] w =
    Some (OT_ERROR_NONE,
          sent w (otPlatRadioMfgCommand P (radio w)
                    (generic_param_frame (parse_byte a1) (parse_hex16 a2)
                                         (parse_hex16 a3) (parse_hex16 a4))
                    payloadLen).2
               (generic_param_frame (parse_byte a1) (parse_hex16 a2)
                                    (parse_hex16 a3) (parse_hex16 a4)))
  ∧ bytes (generic_param_frame (parse_byte a1) (parse_hex16 a2)
                               (parse_hex16 a3) (parse_hex16 a4))
  ∧ (generic_param_frame (parse_byte a1) (parse_hex16 a2)
                         (parse_hex16 a3) (parse_hex16 a4) !!! 5%nat
     + 256 * generic_param_frame (parse_byte a1) (parse_hex16 a2)
                                 (parse_hex16 a3) (parse_hex16 a4) !!! 6%nat
     = parse_hex16 a2)
  ∧ (generic_param_frame (parse_byte a1) (parse_hex16 a2)
                         (parse_hex16 a3) (parse_hex16 a4) !!! 7%nat
     + 256 * generic_param_frame (parse_byte a1) (parse_hex16 a2)
                                 (parse_hex16 a3) (parse_hex16 a4) !!! 8%nat
     = parse_hex16 a3)
  ∧ (generic_param_frame (parse_byte a1) (parse_hex16 a2)
                         (parse_hex16 a3) (parse_hex16 a4) !!! 9%nat
     + 256 * generic_param_frame (parse_byte a1) (parse_hex16 a2)
                                 (parse_hex16 a3) (parse_hex16 a4) !!! 10%nat
     = parse_hex16 a4).
Proof.
  intros Hen Hop. split; [| split; [| split; [| split]]].
  - destruct (otPlatRadioMfgCommand P (radio w) _ payloadLen) as [[resp len] r] eqn:Hc.
    apply (mfgcmd_no_error P [a0; a1; a2; a3; a4] a0 w _ resp Hen eq_refl).
    { apply (not_toggle_opcode [a0; a1; a2; a3; a4] a0 eq_refl).
      rewrite Hop. unfold_opcodes. lia. }
    rewrite Hop. run_switch.
    fold (parse_byte a1) (parse_hex16 a2) (parse_hex16 a3) (parse_hex16 a4).
    rewrite !shiftr_8, !land_255.
    assert (Hb : ∀ z, 0 ≤ z < 65536 →
                      to_uint8 (z mod 256) = z mod 256
                      ∧ to_uint8 ((z / 256) mod 256) = z / 256).
    { intros z Hz. unfold to_uint8. split; Z.div_mod_to_equations; lia. }
    destruct (Hb (parse_hex16 a2) (to_uint16_range _)) as [-> ->].
    destruct (Hb (parse_hex16 a3) (to_uint16_range _)) as [-> ->].
    destruct (Hb (parse_hex16 a4) (to_uint16_range _)) as [-> ->].
    change (11 :: MFG_CMD_SET_GENERIC_PARAM :: MFG_CMD_ACTION_SET :: _)
      with (generic_param_frame (parse_byte a1) (parse_hex16 a2)
                                (parse_hex16 a3) (parse_hex16 a4)).
    rewrite (callMfgCommand_run P _ w resp len r Hc). reflexivity.
  - apply generic_param_frame_bytes;
      first [apply to_uint8_range | apply to_uint16_range].
  - change (parse_hex16 a2 mod 256 + 256 * (parse_hex16 a2 / 256) = parse_hex16 a2).
    pose proof (Z.div_mod (parse_hex16 a2) 256). lia.
  - change (parse_hex16 a3 mod 256 + 256 * (parse_hex16 a3 / 256) = parse_hex16 a3).
    pose proof (Z.div_mod (parse_hex16 a3) 256). lia.
  - change (parse_hex16 a4 mod 256 + 256 * (parse_hex16 a4 / 256) = parse_hex16 a4).
    pose proof (Z.div_mod (parse_hex16 a4) 256). lia.
Qed.

(** ** Casts of the arguments *)




(** X9. Set then get of a plain [int8_t] opcode (every one but TX power):
    for a value [v] inside the range of the set and inside [int8_t], the SET
    frame carries [(uint8_t)v] in byte 4, and a GET whose response hands that
    byte back prints [v], negative values included. *)
Theorem int8_set_get_roundtrip {R} (P : Platform R) (cmdId v min max : Z) (a0 a1 : string)
    (ws wg : World R) (sresp : list Z) (slen : Z) (sr : R)
    (gresp : list Z) (glen : Z) (gr : R) :
  in_place P →
  cmdId ≠ MFG_CMD_GET_SET_TXPOWER →
  -128 ≤ v < 128 → min ≤ v ≤ max →
  atoi a1 = v →
  otPlatRadioMfgCommand P (radio ws) (set_frame cmdId (to_uint8 v)) payloadLen
    = (sresp, slen, sr) →
  otPlatRadioMfgCommand P (radio wg) (get_frame cmdId) payloadLen = (gresp, glen, gr) →
  5 ≤ glen →
  gresp !! 3%nat = Some 0 →
  gresp !! 4%nat = Some (to_uint8 v) →
  (∃ error,
     ProcessMfgSetInt8 P cmdId 2 [a0; a1] min max ws =
       Some (error, sent ws sr (set_frame cmdId (to_uint8 v))))
  ∧ ProcessMfgGetInt8 P cmdId 1 wg =
      Some (OT_ERROR_NONE, printed (sent wg gr (get_frame cmdId)) "%d\r\n" [v]).
Proof.
  intros Hip Hc Hv Hr Ha Hs Hg Hlen H3 H4.
  assert (Hi : to_int8 v = v) by (by apply to_int8_small).
  assert (Hne : (cmdId =? MFG_CMD_GET_SET_TXPOWER) = false) by (by apply Z.eqb_neq).
  assert (Hd : to_int8 (to_uint8 v) = v).
  { unfold to_int8, to_uint8. Z.div_mod_to_equations. lia. }
  split.
  - eexists. rewrite <- Ha in *.
    pose proof (ProcessMfgSetInt8_run P cmdId a0 a1 min max ws sresp slen sr Hip) as Hrun.
    unfold encode_int8 in Hrun. rewrite Hne, Hi in Hrun. apply Hrun; [lia | exact Hs].
  - rewrite (ProcessMfgGetInt8_run P _ wg gresp glen gr Hip Hg).
    replace (5 <=? glen) with true by (symmetry; apply Z.leb_le; lia).
    rewrite bool_decide_eq_true_2 by exact H3. simpl andb. cbv iota.
    rewrite (list_lookup_total_correct _ _ _ H4).
    unfold decode_int8. by rewrite Hne, Hd.
Qed.

Lemma int8_set_get_roundtrip_witness :
  in_place register_radio ∧ atoi "-75" = -75 ∧
  (∃ error,
     ProcessMfgSetInt8 register_radio 47 2 ["48"; "-75"] (-110) 0 (mkWorld 1 0 []) =
       Some (error, mkWorld 1 181 [EvMfgCommand (set_frame 47 181) 12])) ∧
  ProcessMfgGetInt8 register_radio 47 1 (mkWorld 1 181 []) =
    Some (OT_ERROR_NONE,
          mkWorld 1 181 [EvMfgCommand (get_frame 47) 12; EvCliOutput "%d\r\n" [-75]]).
Proof.
  split; [exact register_radio_in_place |]. split; [vm_compute; reflexivity |].
  exact (int8_set_get_roundtrip register_radio 47 (-75) (-110) 0 "48" "-75"
           (mkWorld 1 0 []) (mkWorld 1 181 [])
           [11; 47; 1; 0; 181; 0; 0; 0; 0; 0; 0; 0] 4 181
           [11; 47; 0; 0; 181; 0; 0; 0; 0; 0; 0; 0] 5 181
           register_radio_in_place ltac:(unfold_opcodes; lia) ltac:(lia) ltac:(lia)
           eq_refl eq_refl eq_refl ltac:(lia) eq_refl eq_refl).
Defined.

(** ** The enable flag across calls *)

Lemma mfgcmd_refused {R} (P : Platform R) (args : list string) (w : World R) :
  mfgEnable w = 0 →
  ¬ is_toggle args →
  ProcessMfgCommands P (Z.of_nat (length args)) args w =
    Some (OT_ERROR_NONE,
          mkWorld 0 (radio w) (trace w ++ [EvCliOutput not_enabled_message []])).
Proof.
  intros Hen Hn. unfold ProcessMfgCommands.
  erewrite bind_Some; [| by apply mfgcmd_not_toggle].
  unfold_monad. rewrite !Hen. change (0 =? 0) with true. cbv beta iota.
  by rewrite Hen.
Qed.

(** X10. After [mfgcmd 0] (an argument that parses to 0), whatever the state
    before, the next call that is not a toggle is answered with the "not
    enabled" message and [OT_ERROR_NONE], and reaches neither the switch nor
    the transport. *)
Theorem mfgcmd_disable_then_refused {R} (P : Platform R) (a : string) (args : list string)
    (w : World R) :
  parse_byte a = 0 →
  ¬ is_toggle args →
  (do ProcessMfgCommands P 1 [a] then
   ProcessMfgCommands P (Z.of_nat (length args)) args) w =
    Some (OT_ERROR_NONE,
          mkWorld 0 (radio w) (trace w ++ [EvCliOutput not_enabled_message []])).
Proof.
  intros Ha Hn.
  erewrite bind_Some; [| apply mfgcmd_toggle; by left].
  fold (parse_byte a). rewrite Ha.
  by apply (mfgcmd_refused P args (mkWorld 0 (radio w) (trace w)) eq_refl).
Qed.

Lemma mfgcmd_disable_then_refused_witness :
  parse_byte "0" = 0 ∧ ¬ is_toggle ["15"] ∧
  (do ProcessMfgCommands register_radio 1 ["0"] then
   ProcessMfgCommands register_radio 1 ["15"]) (mkWorld 1 7 []) =
    Some (OT_ERROR_NONE, mkWorld 0 7 [EvCliOutput not_enabled_message []]).
Proof.
  assert (Hn : ¬ is_toggle ["15"]).
  { intros [a [[= <-] Ha]]. vm_compute in Ha. destruct Ha as [Ha|Ha]; discriminate Ha. }
  split; [vm_compute; reflexivity |]. split; [exact Hn |].
  exact (mfgcmd_disable_then_refused register_radio "0" ["15"] (mkWorld 1 7 [])
           eq_refl Hn).
Defined.

(** ** ProcessGetSetTxPowerLimit, the other argument counts *)

(** X11. [ProcessGetSetTxPowerLimit] without an argument asks the platform
    for the limit and prints it; with two or more arguments (any count but 0
    and 1) it returns [OT_ERROR_INVALID_ARGS] and does nothing. *)
Theorem txpwrlimit_get_and_other_counts {R} (P : Platform R) (n : Z) (args : list string)
    (w : World R) :
  ProcessGetSetTxPowerLimit P 0 args w =
    Some (OT_ERROR_NONE,
          mkWorld (mfgEnable w) (otPlatRadioGetTxPowerLimit P (radio w)).2
                  (trace w ++ [EvGetTxPowerLimit;
                               EvCliOutput "%d\r\n"
                                 [(otPlatRadioGetTxPowerLimit P (radio w)).1]]))
  ∧ (n ≠ 0 → n ≠ 1 →
     ProcessGetSetTxPowerLimit P n args w = Some (OT_ERROR_INVALID_ARGS, w)).
Proof.
  split.
  - unfold ProcessGetSetTxPowerLimit. unfold_monad. simpl.
    destruct (otPlatRadioGetTxPowerLimit P (radio w)) as [v r]. simpl.
    by rewrite <- app_assoc.
  - intros H0 H1. unfold ProcessGetSetTxPowerLimit.
    destruct (Z.eqb_spec n 1); [done |]. by destruct (Z.eqb_spec n 0).
Qed.

(** ** The address of ProcessSetEui64 *)

Lemma hex_value_byte (hi lo h l : Z) :
  hex_value hi = Some h → hex_value lo = Some l → 0 ≤ 16 * h + l < 256.
Proof.
  intros Hh Hl. apply hex_value_range in Hh. apply hex_value_range in Hl. lia.
Qed.

Lemma eui64_decode_bytes : ∀ (count : nat) (digits addr : list Z),
  length digits = (2 * count)%nat →
  eui64_decode digits = Some addr →
  length addr = count ∧ bytes addr.
Proof.
  induction count as [|count IH]; intros digits addr Hlen Hd.
  - destruct digits; [| discriminate Hlen]. injection Hd as <-.
    split; [done | apply Forall_nil_2].
  - destruct digits as [|hi [|lo rest]]; try (rewrite ?length_cons in Hlen; simpl in Hlen; lia).
    cbn [eui64_decode] in Hd.
    destruct (hex_value hi) as [h|] eqn:Eh; [| discriminate Hd].
    destruct (hex_value lo) as [l|] eqn:El; [| discriminate Hd].
    cbn [mbind option_bind] in Hd.
    destruct (eui64_decode rest) as [tl|] eqn:Er; [| discriminate Hd].
    injection Hd as <-.
    destruct (IH rest tl) as [Hl Hb]; [rewrite !length_cons in Hlen; lia | done |].
    split; [simpl; by rewrite Hl |].
    apply Forall_cons. split; [by eapply hex_value_byte | exact Hb].
Qed.

(** X12. Whenever [ProcessSetEui64] calls [otPlatRadioSetIeeeEui64], the
    argument is 18 characters long with [x] as its second character, the
    address passed is the eight bytes that its sixteen hexadecimal digits
    spell, each from 0 to 255, and the result of the handler is the result of
    the platform. *)
Theorem seteui64_address {R} (P : Platform R) (hex : string) (w w' : World R)
    (error : otError) (addr : list Z) :
  c_str hex ≠ [] →
  ProcessSetEui64 P 1 [hex] w = Some (error, w') →
  trace w' = trace w ++ [EvSetIeeeEui64 addr] →
  length addr = 8%nat ∧ bytes addr
  ∧ (error, radio w') = otPlatRadioSetIeeeEui64 P (radio w) addr
  ∧ ∃ c0 digits, c_str hex = c0 :: 120 :: digits
                 ∧ length digits = 16%nat ∧ eui64_decode digits = Some addr.
Proof.
  intros Hne Hrun Htr. rewrite (seteui64_one_arg P hex w Hne) in Hrun.
  assert (Hstay : ∀ e, Some (e, w) = Some (error, w') → False).
  { intros e [= <- <-]. apply (f_equal length) in Htr.
    rewrite length_app in Htr. simpl in Htr. lia. }
  destruct (c_str hex) as [|c0 [|c1 digits]]; try (by destruct (Hstay _ Hrun)).
  destruct c1 as [|q|q]; try (by destruct (Hstay _ Hrun)).
  repeat (destruct q as [q|q|]; try (by destruct (Hstay _ Hrun))).
  destruct (decide (length digits = 16%nat)) as [Hl|]; [| by destruct (Hstay _ Hrun)].
  destruct (eui64_decode digits) as [addr'|] eqn:Hd; [| by destruct (Hstay _ Hrun)].
  unfold callSetIeeeEui64 in Hrun.
  destruct (otPlatRadioSetIeeeEui64 P (radio w) addr') as [e r] eqn:Hp.
  injection Hrun as <- <-. simpl in Htr.
  apply app_inv_head in Htr. injection Htr as ->.
  destruct (eui64_decode_bytes 8 digits addr Hl Hd) as [Hlen Hb].
  split; [done |]. split; [done |]. split; [by rewrite Hp |].
  by exists c0, digits.
Qed.

Lemma seteui64_address_witness :
  c_str "0x00124B0001aBcDeF" ≠ [] ∧
  length [0; 18; 75; 0; 1; 171; 205; 239] = 8%nat ∧
  bytes [0; 18; 75; 0; 1; 171; 205; 239].
Proof.
  assert (Hne : c_str "0x00124B0001aBcDeF" ≠ []) by (vm_compute; discriminate).
  split; [exact Hne |].
  destruct (seteui64_address register_radio "0x00124B0001aBcDeF" world_init
              (mkWorld 0 0 [EvSetIeeeEui64 [0; 18; 75; 0; 1; 171; 205; 239]])
              OT_ERROR_NONE [0; 18; 75; 0; 1; 171; 205; 239] Hne)
    as [Hl [Hb _]]; [vm_compute; reflexivity | reflexivity |].
  by split.
Defined.

(** ** The get and set cases of the switch *)

Lemma mfg_switch_set {R} (P : Platform R) (op cmdId min max n : Z) (args : list string)
    (payload : list Z) :
  (op, (cmdId, min, max)) ∈ mfg_set_cases →
  mfg_switch P op n args payload =
    keeping payload (ProcessMfgSetInt8 P cmdId n args min max).
Proof.
  unfold mfg_set_cases. rewrite !elem_of_cons, elem_of_nil. intros H.
  repeat (destruct H as [[= -> -> -> ->]|H]; [reflexivity |]). done.
Qed.

Lemma mfg_switch_get {R} (P : Platform R) (op n : Z) (args : list string)
    (payload : list Z) :
  op ∈ mfg_get_cases →
  mfg_switch P op n args payload = keeping payload (ProcessMfgGetInt8 P op n).
Proof.
  unfold mfg_get_cases. rewrite !elem_of_cons, elem_of_nil. intros H.
  repeat (destruct H as [->|H]; [reflexivity |]). done.
Qed.

(** X13. The set commands of [mfgcmd] with [mfgEnable] 1 (12 channel 11..26,
    16 TX power -20..22, 17, 35, 55 and 58 flags 0..1, 21 payload size
    17..116, 48 CCA threshold -110..0): a value outside the range is refused
    with [OT_ERROR_INVALID_ARGS] and nothing happens; a value inside sends
    the SET frame of the opcode, and the command returns [OT_ERROR_NONE]
    without output when the response has at least 4 bytes and status 0, and
    [OT_ERROR_FAILED] with the line [FAILED] otherwise. *)
Theorem mfgcmd_set_cases {R} (P : Platform R) (op cmdId min max : Z) (a0 a1 : string)
    (w : World R) (resp : list Z) (outputLen : Z) (r : R) :
  in_place P →
  mfgEnable w = 1 →
  (op, (cmdId, min, max)) ∈ mfg_set_cases →
  parse_byte a0 = op →
  otPlatRadioMfgCommand P (radio w)
    (set_frame cmdId (encode_int8 cmdId (to_int8 (atoi a1)))) payloadLen
    = (resp, outputLen, r) →
  ProcessMfgCommands P 2 [a0; a1] w =
    Some (if (min <=? to_int8 (atoi a1)) && (to_int8 (atoi a1) <=? max) then
            if (4 <=? outputLen) && bool_decide (resp !! 3%nat = Some 0)
            then (OT_ERROR_NONE,
                  sent w r (set_frame cmdId (encode_int8 cmdId (to_int8 (atoi a1)))))
            else (OT_ERROR_FAILED,
                  logged (sent w r (set_frame cmdId (encode_int8 cmdId (to_int8 (atoi a1)))))
                         [EvCliOutput "FAILED\r\n" []])
          else (OT_ERROR_INVALID_ARGS, w)).
Proof.
  intros Hip Hen Hcase Hop Hc.
  assert (Hn : ¬ is_toggle [a0; a1]) by (intros [a [H _]]; discriminate H).
  pose proof (mfgcmd_enabled P [a0; a1] a0 w Hen Hn eq_refl) as Hrun.
  change (Z.of_nat (length [a0; a1])) with 2 in Hrun. rewrite Hrun, Hop. clear Hrun.
  rewrite (mfg_switch_set P op cmdId min max 2 _ _ Hcase). unfold keeping.
  destruct (Z.leb_spec min (to_int8 (atoi a1))) as [Hlo|Hlo];
    [destruct (Z.leb_spec (to_int8 (atoi a1)) max) as [Hhi|Hhi] |]; simpl andb; cbv iota.
  - erewrite bind_Some; [| by apply ProcessMfgSetInt8_run]. unfold ret.
    destruct ((4 <=? outputLen) && bool_decide (resp !! 3%nat = Some 0)).
    + rewrite mfg_handle_errors_plain by (by left). simpl. by rewrite logged_nil.
    + rewrite mfg_handle_errors_plain by (right; lia). reflexivity.
  - erewrite bind_Some; [| apply ProcessMfgSetInt8_out_of_range; lia]. unfold ret.
    rewrite mfg_handle_errors_plain by (right; lia). simpl. by rewrite logged_nil.
  - erewrite bind_Some; [| apply ProcessMfgSetInt8_out_of_range; lia]. unfold ret.
    rewrite mfg_handle_errors_plain by (right; lia). simpl. by rewrite logged_nil.
Qed.

(** X14. The get commands of [mfgcmd] with [mfgEnable] 1 (11 channel, 15 TX
    power, 20 payload size, 47 CCA threshold, 50 CCA status, 56 ED value)
    send the GET frame of the opcode; with a response of at least 5 bytes and
    status 0 the signed byte 4 is printed (halved for TX power) and the
    result is [OT_ERROR_NONE], otherwise the line [FAILED] is printed and the
    result is [OT_ERROR_FAILED]. *)
Theorem mfgcmd_get_cases {R} (P : Platform R) (op : Z) (a0 : string)
    (w : World R) (resp : list Z) (outputLen : Z) (r : R) :
  in_place P →
  mfgEnable w = 1 →
  op ∈ mfg_get_cases →
  parse_byte a0 = op →
  otPlatRadioMfgCommand P (radio w) (get_frame op) payloadLen = (resp, outputLen, r) →
  ProcessMfgCommands P 1 [a0] w =
    Some (if (5 <=? outputLen) && bool_decide (resp !! 3%nat = Some 0)
          then (OT_ERROR_NONE,
                printed (sent w r (get_frame op)) "%d\r\n"
                        [decode_int8 op (resp !!! 4%nat)])
          else (OT_ERROR_FAILED,
                logged (sent w r (get_frame op)) [EvCliOutput "FAILED\r\n" []])).
Proof.
  intros Hip Hen Hcase Hop Hc.
  assert (Hn : ¬ is_toggle [a0]).
  { intros [a [[= <-] Ha]]. fold (parse_byte a0) in Ha. rewrite Hop in Ha.
    unfold mfg_get_cases in Hcase. rewrite !elem_of_cons, elem_of_nil in Hcase. lia. }
  pose proof (mfgcmd_enabled P [a0] a0 w Hen Hn eq_refl) as Hrun.
  change (Z.of_nat (length [a0])) with 1 in Hrun. rewrite Hrun, Hop. clear Hrun.
  rewrite (mfg_switch_get P op 1 _ _ Hcase). unfold keeping.
  unfold bind at 1. rewrite (ProcessMfgGetInt8_run P op w resp outputLen r Hip Hc).
  unfold ret.
  destruct ((5 <=? outputLen) && bool_decide (resp !! 3%nat = Some 0)).
  - rewrite mfg_handle_errors_plain by (by left). simpl. by rewrite logged_nil.
  - rewrite mfg_handle_errors_plain by (right; lia). reflexivity.
Qed.

(** ** Concrete runs *)

Lemma replay_radio_in_place : in_place replay_radio.
Proof. intros r payload n. simpl. by destruct (decide _). Defined.

Lemma get_txpower_run :
  ProcessMfgCommands register_radio (Z.of_nat (length ["15"])) ["15"] (mkWorld 1 20 []) =
    Some (OT_ERROR_NONE,
          mkWorld 1 20 [EvMfgCommand (get_frame 15) 12; EvCliOutput "%d\r\n" [10]]).
Proof. vm_compute. reflexivity. Defined.

Lemma not_toggle_15 : ¬ is_toggle ["15"].
Proof.
  intros [a [[= <-] Ha]]. vm_compute in Ha. destruct Ha as [Ha|Ha]; discriminate Ha.
Defined.

Lemma mfgcmd_at_most_one_transport_call_witness :
  ProcessMfgCommands register_radio (Z.of_nat (length ["15"])) ["15"] (mkWorld 1 20 []) =
    Some (OT_ERROR_NONE,
          mkWorld 1 20 [EvMfgCommand (get_frame 15) 12; EvCliOutput "%d\r\n" [10]])
  ∧ ∃ events,
      [EvMfgCommand (get_frame 15) 12; EvCliOutput "%d\r\n" [10]] = [] ++ events
      ∧ (transport_calls events ≤ 1)%nat.
Proof.
  split; [exact get_txpower_run |].
  exact (mfgcmd_at_most_one_transport_call register_radio ["15"] (mkWorld 1 20 []) _ _
           get_txpower_run).
Defined.

Lemma mfgcmd_flag_invariant_witness :
  ProcessMfgCommands register_radio (Z.of_nat (length ["15"])) ["15"] (mkWorld 1 20 []) =
    Some (OT_ERROR_NONE,
          mkWorld 1 20 [EvMfgCommand (get_frame 15) 12; EvCliOutput "%d\r\n" [10]])
  ∧ ((1 = 0 ∨ 1 = 1 → 1 = 0 ∨ 1 = 1) ∧ (¬ is_toggle ["15"] → 1 = 1)).
Proof.
  split; [exact get_txpower_run |].
  exact (mfgcmd_flag_invariant register_radio ["15"] (mkWorld 1 20 []) _ _ get_txpower_run).
Defined.

Lemma mfgcmd_unknown_opcode_not_implemented_witness :
  (parse_byte "99" ∉ mfg_cases) ∧
  ProcessMfgCommands register_radio 2 ["99"; "1"] (mkWorld 1 0 []) =
    Some (OT_ERROR_NOT_IMPLEMENTED,
          mkWorld 1 0 [EvCliOutput "NOT IMPLEMENTED\r\n" []]).
Proof.
  assert (Hop : parse_byte "99" ∉ mfg_cases).
  { replace (parse_byte "99") with 99 by (vm_compute; reflexivity).
    unfold mfg_cases. rewrite !elem_of_cons, elem_of_nil. lia. }
  split; [exact Hop |].
  apply (mfgcmd_unknown_opcode_not_implemented register_radio ["99"; "1"] "99"
           (mkWorld 1 0 []) eq_refl eq_refl); [| exact Hop | discriminate].
  intros [a [H _]]. discriminate H.
Defined.

Lemma mfgcmd_wrong_count_silent_witness :
  parse_byte "15" ∈ mfg_cases ∧
  ProcessMfgCommands register_radio 3 ["15"; "1"; "2"] (mkWorld 1 0 []) =
    Some (OT_ERROR_INVALID_ARGS, mkWorld 1 0 []).
Proof.
  assert (Hop : parse_byte "15" ∈ mfg_cases).
  { replace (parse_byte "15") with 15 by (vm_compute; reflexivity).
    unfold mfg_cases. rewrite !elem_of_cons. lia. }
  split; [exact Hop |].
  apply (mfgcmd_wrong_count_silent register_radio ["15"; "1"; "2"] "15"
           (mkWorld 1 0 []) eq_refl eq_refl); [| exact Hop | | discriminate].
  - intros [a [H _]]. discriminate H.
  - vm_compute. discriminate.
Defined.

Lemma rx_result_response_bytes : bytes rx_result_response.
Proof. unfold bytes, rx_result_response. repeat constructor; lia. Defined.

Lemma mfgcmd_rx_result_witness :
  in_place replay_radio ∧ bytes rx_result_response ∧
  ProcessMfgCommands replay_radio 1 ["31"] (mkWorld 1 rx_result_response []) =
    Some (OT_ERROR_NONE,
          mkWorld 1 rx_result_response
            [EvMfgCommand rx_result_frame 12;
             EvCliOutput "status : %d\r\n" [0];
             EvCliOutput "rx_pkt_count : %d\r\n" [300];
             EvCliOutput "total_pkt_count : %d\r\n" [1000];
             EvCliOutput "rssi : %d\r\n" [-60];
             EvCliOutput "lqi : %d\r\n" [200]]).
Proof.
  split; [exact replay_radio_in_place |]. split; [exact rx_result_response_bytes |].
  pose proof (mfgcmd_rx_result replay_radio "31" (mkWorld 1 rx_result_response [])
                rx_result_response 12 rx_result_response replay_radio_in_place
                eq_refl eq_refl eq_refl rx_result_response_bytes) as H.
  vm_compute in H. exact H.
Defined.

Lemma mfgcmd_fire_and_forget_witness :
  ProcessMfgCommands register_radio 1 ["32"] (mkWorld 1 0 []) =
    Some (OT_ERROR_NONE, mkWorld 1 0 [EvMfgCommand start_rx_frame 12])
  ∧ ProcessMfgCommands register_radio 3 ["33"; "7"; "6"] (mkWorld 1 0 []) =
      Some (OT_ERROR_NONE, mkWorld 1 0 [EvMfgCommand (burst_tx_frame 7 6) 12])
  ∧ ProcessMfgCommands register_radio 4 ["57"; "7"; "6"; "1"] (mkWorld 1 0 []) =
      Some (OT_ERROR_NONE, mkWorld 1 7 [EvMfgCommand (phy_tx_frame 7 6 1) 12]).
Proof.
  split; [| split].
  - exact (proj1 (mfgcmd_fire_and_forget register_radio "32" "" "" "" (mkWorld 1 0 [])
                    eq_refl) eq_refl).
  - refine (proj1 (proj2 (mfgcmd_fire_and_forget register_radio "33" "7" "6" ""
                            (mkWorld 1 0 []) eq_refl)) eq_refl _ _);
      vm_compute; reflexivity.
  - refine (proj2 (proj2 (mfgcmd_fire_and_forget register_radio "57" "7" "6" "1"
                            (mkWorld 1 0 []) eq_refl)) eq_refl _ _ _);
      vm_compute; reflexivity.
Defined.

Lemma mfgcmd_generic_param_witness :
  ProcessMfgCommands register_radio 5 ["59"; "9"; "0xABCD"; "1234"; "ffff"] (mkWorld 1 0 []) =
    Some (OT_ERROR_NONE,
          mkWorld 1 9
            [EvMfgCommand [11; 59; 1; 0; 9; 205; 171; 52; 18; 255; 255; 0] 12]).
Proof.
  exact (proj1 (mfgcmd_generic_param register_radio "59" "9" "0xABCD" "1234" "ffff"
                  (mkWorld 1 0 []) eq_refl eq_refl)).
Defined.

Lemma txpwrlimit_get_and_other_counts_witness :
  (2 ≠ 0) ∧ (2 ≠ 1) ∧
  ProcessGetSetTxPowerLimit register_radio 2 ["1"; "2"] world_init =
    Some (OT_ERROR_INVALID_ARGS, world_init).
Proof.
  split; [lia |]. split; [lia |].
  apply (proj2 (txpwrlimit_get_and_other_counts register_radio 2 ["1"; "2"] world_init));
    lia.
Defined.

Lemma mfgcmd_set_cases_witness :
  in_place replay_radio ∧ (12, (11, 11, 26)) ∈ mfg_set_cases ∧
  ProcessMfgCommands replay_radio 2 ["12"; "26"] (mkWorld 1 rx_result_response []) =
    Some (OT_ERROR_NONE, mkWorld 1 rx_result_response [EvMfgCommand (set_frame 11 26) 12])
  ∧ ProcessMfgCommands replay_radio 2 ["12"; "27"] (mkWorld 1 rx_result_response []) =
    Some (OT_ERROR_INVALID_ARGS, mkWorld 1 rx_result_response []).
Proof.
  assert (Hc : (12, (11, 11, 26)) ∈ mfg_set_cases) by (apply elem_of_cons; by left).
  split; [exact replay_radio_in_place |]. split; [exact Hc |]. split.
  - pose proof (mfgcmd_set_cases replay_radio 12 11 11 26 "12" "26"
                  (mkWorld 1 rx_result_response []) rx_result_response 12
                  rx_result_response replay_radio_in_place eq_refl Hc eq_refl eq_refl) as H.
    vm_compute in H. exact H.
  - pose proof (mfgcmd_set_cases replay_radio 12 11 11 26 "12" "27"
                  (mkWorld 1 rx_result_response []) rx_result_response 12
                  rx_result_response replay_radio_in_place eq_refl Hc eq_refl eq_refl) as H.
    vm_compute in H. exact H.
Defined.

Lemma mfgcmd_get_cases_witness :
  in_place register_radio ∧ 47 ∈ mfg_get_cases ∧
  ProcessMfgCommands register_radio 1 ["47"] (mkWorld 1 181 []) =
    Some (OT_ERROR_NONE,
          mkWorld 1 181 [EvMfgCommand (get_frame 47) 12; EvCliOutput "%d\r\n" [-75]]).
Proof.
  assert (Hc : 47 ∈ mfg_get_cases).
  { unfold mfg_get_cases. rewrite !elem_of_cons. lia. }
  split; [exact register_radio_in_place |]. split; [exact Hc |].
  pose proof (mfgcmd_get_cases register_radio 47 "47" (mkWorld 1 181 [])
                [11; 47; 0; 0; 181; 0; 0; 0; 0; 0; 0; 0] 5 181
                register_radio_in_place eq_refl Hc eq_refl eq_refl) as H.
  vm_compute in H. exact H.
Defined.

(** ** The continuous CCA test *)

(** X15. The continuous CCA test with [mfgEnable] 1, enable < 2 and CCA mode
    < 4 sends its frame and, unlike the other test commands, checks the
    response: [OT_ERROR_NONE] exactly when it has at least 4 bytes and status
    0; otherwise [OT_ERROR_FAILED] and the line [FAILED]. *)
Theorem mfgcmd_cca_test {R} (P : Platform R) (a0 a1 a2 : string) (w : World R)
    (resp : list Z) (outputLen : Z) (r : R) :
  in_place P →
  mfgEnable w = 1 →
  parse_byte a0 = MFG_CMD_CONTINOUS_CCA_TEST →
  parse_byte a1 < 2 → parse_byte a2 < 4 →
  otPlatRadioMfgCommand P (radio w) (cca_test_frame (parse_byte a1) (parse_byte a2))
    payloadLen = (resp, outputLen, r) →
  ProcessMfgCommands P 3 [a0; a1; a2] w =
    Some (if (4 <=? outputLen) && (resp !!! 3%nat =? 0)
          then (OT_ERROR_NONE,
                sent w r (cca_test_frame (parse_byte a1) (parse_byte a2)))
          else (OT_ERROR_FAILED,
                logged (sent w r (cca_test_frame (parse_byte a1) (parse_byte a2)))
                       [EvCliOutput "FAILED\r\n" []])).
Proof.
  intros Hip Hen Hop H1 H2 Hc.
  assert (Hn : ¬ is_toggle [a0; a1; a2]).
  { apply (not_toggle_opcode [a0; a1; a2] a0 eq_refl). rewrite Hop. unfold_opcodes. lia. }
  pose proof (mfgcmd_enabled P [a0; a1; a2] a0 w Hen Hn eq_refl) as Hrun.
  change (Z.of_nat (length [a0; a1; a2])) with 3 in Hrun. rewrite Hrun, Hop. clear Hrun.
  assert (Hlen : length resp = 12%nat).
  { specialize (Hip (radio w) (cca_test_frame (parse_byte a1) (parse_byte a2)) payloadLen).
    by rewrite Hc in Hip. }
  assert (Hsw : mfg_switch P MFG_CMD_CONTINOUS_CCA_TEST 3 [a0; a1; a2] payload_init w =
                Some (if (4 <=? outputLen) && (resp !!! 3%nat =? 0)
                      then OT_ERROR_NONE else OT_ERROR_FAILED, resp,
                      sent w r (cca_test_frame (parse_byte a1) (parse_byte a2)))).
  { run_switch. fold (parse_byte a1) (parse_byte a2).
    replace (parse_byte a1 <? 2) with true by (symmetry; by apply Z.ltb_lt).
    replace (parse_byte a2 <? 4) with true by (symmetry; by apply Z.ltb_lt).
    cbv beta iota delta [andb].
    change (11 :: MFG_CMD_CONTINOUS_CCA_TEST :: MFG_CMD_ACTION_SET :: 0 :: parse_byte a1
               :: parse_byte a2 :: _)
      with (cca_test_frame (parse_byte a1) (parse_byte a2)).
    rewrite (callMfgCommand_run P _ w resp outputLen r Hc).
    destruct (4 <=? outputLen); [| reflexivity].
    rewrite (list_lookup_lookup_total_lt resp) by lia.
    simpl. by destruct (resp !!! 3%nat =? 0). }
  rewrite Hsw. destruct ((4 <=? outputLen) && (resp !!! 3%nat =? 0)).
  - rewrite mfg_handle_errors_plain by (by left). simpl. by rewrite logged_nil.
  - rewrite mfg_handle_errors_plain by (right; lia). reflexivity.
Qed.

Lemma mfgcmd_cca_test_witness :
  in_place register_radio ∧
  ProcessMfgCommands register_radio 3 ["49"; "1"; "3"] (mkWorld 1 0 []) =
    Some (OT_ERROR_NONE, mkWorld 1 1 [EvMfgCommand (cca_test_frame 1 3) 12]).
Proof.
  split; [exact register_radio_in_place |].
  pose proof (mfgcmd_cca_test register_radio "49" "1" "3" (mkWorld 1 0 [])
                (<[3%nat := 0]> (cca_test_frame 1 3)) 4 1 register_radio_in_place
                eq_refl eq_refl) as H.
  specialize (H ltac:(vm_compute; reflexivity) ltac:(vm_compute; reflexivity) eq_refl).
  vm_compute in H. exact H.
Defined.

(** * The other vendor commands *)

Section VendorProperties.
(** ** ircmd, ccacfg, fwversion, irthold *)

Import Vendor.

(** X16. [ProcessIRCmd], [ProcessGetSetCcaCfg], [ProcessGetFwVersion] and
    [ProcessGetSetIRThreshold] return [OT_ERROR_NONE] for every argument
    list, valid or not. The last three reach the platform only with the
    argument counts they know (ccacfg 0 or 4, fwversion 0, irthold 0 or 1):
    with any other count ccacfg and irthold only print their usage text and
    fwversion does nothing. *)
Theorem vendor_handlers_never_fail {R} (P : Radio R) (cca : otCCAModeConfig)
    (ir : otIRConfig) (args : list string) (s : State R) :
  (∃ s', ProcessIRCmd P (Z.of_nat (length args)) args s = Some (OT_ERROR_NONE, s'))
  ∧ (∃ s', ProcessGetSetCcaCfg P cca (Z.of_nat (length args)) args s
             = Some (OT_ERROR_NONE, s')
           ∧ (length args ≠ 0%nat → length args ≠ 4%nat →
              s'.1 = s.1 ∧ s'.2 = s.2 ++ [CallCliOutput ccacfg_usage []]))
  ∧ (∃ s', ProcessGetFwVersion P (Z.of_nat (length args)) args s
             = Some (OT_ERROR_NONE, s')
           ∧ (length args ≠ 0%nat → s' = s))
  ∧ (∃ s', ProcessGetSetIRThreshold P ir (Z.of_nat (length args)) args s
             = Some (OT_ERROR_NONE, s')
           ∧ (length args ≠ 0%nat → length args ≠ 1%nat →
              s'.1 = s.1 ∧ s'.2 = s.2 ++ [CallCliOutput irthold_usage []])).
Proof.
  set (n := Z.of_nat (length args)).
  assert (Hn : n = Z.of_nat (length args)) by done. clearbody n.
  split; [by eexists |]. split; [| split].
  - unfold ProcessGetSetCcaCfg.
    destruct (Z.eqb_spec n 4) as [E4|N4].
    + do 5 (destruct args as [|? args]; try (simpl in Hn; lia)).
      simpl. destruct (_ && _); eexists; (split; [reflexivity | lia]).
    + destruct (Z.eqb_spec n 0) as [E0|N0].
      * destruct (otPlatRadioCcaConfigValue P s.1 cca 0) as [c r].
        eexists. split; [reflexivity | lia].
      * eexists. split; [reflexivity |]. by intros _ _.
  - unfold ProcessGetFwVersion. destruct (Z.eqb_spec n 0) as [E0|N0].
    + destruct (otPlatRadioGetFwVersionString P s.1 _) as [v r].
      eexists. split; [reflexivity | lia].
    + eexists. split; [reflexivity | done].
  - unfold ProcessGetSetIRThreshold.
    destruct (Z.eqb_spec n 1) as [E1|N1].
    + do 2 (destruct args as [|? args]; try (simpl in Hn; lia)).
      simpl. destruct (_ && _); eexists; (split; [reflexivity | lia]).
    + destruct (Z.eqb_spec n 0) as [E0|N0].
      * destruct (otPlatRadioIRThresholdConfig P s.1 ir 0) as [c r].
        eexists. split; [reflexivity | lia].
      * eexists. split; [reflexivity |]. by intros _ _.
Qed.

Lemma vendor_handlers_never_fail_witness :
  length ["1"; "2"] ≠ 0%nat ∧ length ["1"; "2"] ≠ 4%nat ∧ length ["1"; "2"] ≠ 1%nat ∧
  (∃ s', ProcessGetSetCcaCfg store_radio (mkCcaConfig 0 0 0 0) 2 ["1"; "2"]
           (mkCcaConfig 1 2 3 4, mkIRConfig 500, [])
         = Some (OT_ERROR_NONE, s')
         ∧ s'.1 = (mkCcaConfig 1 2 3 4, mkIRConfig 500)
         ∧ s'.2 = [] ++ [CallCliOutput ccacfg_usage []]).
Proof.
  split; [discriminate |]. split; [discriminate |]. split; [discriminate |].
  destruct (proj1 (proj2 (vendor_handlers_never_fail store_radio (mkCcaConfig 0 0 0 0)
                            (mkIRConfig 0) ["1"; "2"]
                            (mkCcaConfig 1 2 3 4, mkIRConfig 500, []))))
    as [s' [Hrun Hs]].
  exists s'. split; [exact Hrun |]. apply Hs; discriminate.
Defined.

(** ** ccacfg *)

Lemma cca_valid_test (cfg : otCCAModeConfig) :
  (((1 <=? mCcaMode cfg) && (mCcaMode cfg <=? 4)) || (mCcaMode cfg =? 255))
  && (mCca2MinNumOfCorrTh cfg <=? 6) = bool_decide (cca_valid cfg).
Proof.
  unfold cca_valid. symmetry.
  destruct (Z.leb_spec 1 (mCcaMode cfg)), (Z.leb_spec (mCcaMode cfg) 4),
    (Z.eqb_spec (mCcaMode cfg) 255), (Z.leb_spec (mCca2MinNumOfCorrTh cfg) 6); simpl;
    first [apply bool_decide_eq_true_2; lia | apply bool_decide_eq_false_2; lia].
Qed.

Lemma ProcessGetSetCcaCfg_set {R} (P : Radio R) (uninit : otCCAModeConfig)
    (a0 a1 a2 a3 : string) (s : State R) :
  cca_valid (cca_of_args a0 a1 a2 a3) →
  ProcessGetSetCcaCfg P uninit 4 [a0; a1; a2; a3] s =
    Some (OT_ERROR_NONE,
          ((otPlatRadioCcaConfigValue P s.1 (cca_of_args a0 a1 a2 a3) 1).2,
           s.2 ++ [CallCcaConfigValue (cca_of_args a0 a1 a2 a3) 1])).
Proof.
  intros H. unfold ProcessGetSetCcaCfg. change (4 =? 4) with true. cbv iota.
  cbn [mbind option_bind lookup list_lookup]. cbv zeta.
  fold (cca_of_args a0 a1 a2 a3). rewrite cca_valid_test.
  by rewrite bool_decide_eq_true_2.
Qed.

(** X17. ccacfg with four arguments (hexadecimal, each cast to [uint8_t]):
    the configuration is handed to the platform, once, exactly when the mode
    is 1, 2, 3, 4 or 0xFF and the minimum number of correlation thresholds is
    at most 6; the two thresholds are not checked. An invalid configuration
    is dropped without a call, without output and without an error. *)
Theorem ccacfg_set_validation {R} (P : Radio R) (uninit : otCCAModeConfig)
    (a0 a1 a2 a3 : string) (s : State R) :
  (cca_valid (cca_of_args a0 a1 a2 a3) →
   ProcessGetSetCcaCfg P uninit 4 [a0; a1; a2; a3] s =
     Some (OT_ERROR_NONE,
           ((otPlatRadioCcaConfigValue P s.1 (cca_of_args a0 a1 a2 a3) 1).2,
            s.2 ++ [CallCcaConfigValue (cca_of_args a0 a1 a2 a3) 1])))
  ∧ (¬ cca_valid (cca_of_args a0 a1 a2 a3) →
     ProcessGetSetCcaCfg P uninit 4 [a0; a1; a2; a3] s = Some (OT_ERROR_NONE, s)).
Proof.
  unfold ProcessGetSetCcaCfg. change (4 =? 4) with true. cbv iota.
  cbn [mbind option_bind lookup list_lookup]. cbv zeta.
  fold (cca_of_args a0 a1 a2 a3). rewrite cca_valid_test.
  split; intros H.
  - by rewrite bool_decide_eq_true_2.
  - by rewrite bool_decide_eq_false_2.
Qed.

(** X18. On a platform that keeps the configuration, a valid [ccacfg m t1 t2
    n] followed by [ccacfg] prints the four values that were set. *)
Theorem ccacfg_set_get_roundtrip {R} (P : Radio R) (uninit : otCCAModeConfig)
    (a0 a1 a2 a3 : string) (s : State R) :
  keeps_cca P →
  cca_valid (cca_of_args a0 a1 a2 a3) →
  ∃ r,
    (ProcessGetSetCcaCfg P uninit 4 [a0; a1; a2; a3] s
       ≫= λ x, ProcessGetSetCcaCfg P uninit 0 [] x.2) =
      Some (OT_ERROR_NONE,
            (r, s.2 ++ [CallCcaConfigValue (cca_of_args a0 a1 a2 a3) 1;
                        CallCcaConfigValue uninit 0]
                    ++ cca_report (cca_of_args a0 a1 a2 a3))).
Proof.
  intros Hk Hv.
  rewrite (ProcessGetSetCcaCfg_set P uninit a0 a1 a2 a3 s Hv).
  cbn [mbind option_bind]. unfold ProcessGetSetCcaCfg.
  change (0 =? 4) with false. change (0 =? 0) with true. cbv iota.
  cbn [fst snd]. specialize (Hk s.1 (cca_of_args a0 a1 a2 a3) uninit).
  destruct (otPlatRadioCcaConfigValue P
              (otPlatRadioCcaConfigValue P s.1 (cca_of_args a0 a1 a2 a3) 1).2 uninit 0)
    as [cfg r]. simpl in Hk. subst cfg.
  exists r. unfold output, cca_report. simpl. by rewrite <- !app_assoc.
Qed.

Lemma store_radio_keeps_cca : keeps_cca store_radio.
Proof. intros r cfg uninit. reflexivity. Defined.

Lemma cca_valid_ff : cca_valid (cca_of_args "ff" "4B" "20" "6").
Proof. vm_compute. split; [right; reflexivity | discriminate]. Defined.

Lemma ccacfg_set_validation_witness :
  cca_valid (cca_of_args "ff" "4B" "20" "6") ∧ ¬ cca_valid (cca_of_args "5" "4B" "20" "6") ∧
  ProcessGetSetCcaCfg store_radio (mkCcaConfig 0 0 0 0) 4 ["ff"; "4B"; "20"; "6"]
    (mkCcaConfig 1 2 3 4, mkIRConfig 500, []) =
    Some (OT_ERROR_NONE,
          (mkCcaConfig 255 75 32 6, mkIRConfig 500,
           [CallCcaConfigValue (mkCcaConfig 255 75 32 6) 1]))
  ∧ ProcessGetSetCcaCfg store_radio (mkCcaConfig 0 0 0 0) 4 ["5"; "4B"; "20"; "6"]
      (mkCcaConfig 1 2 3 4, mkIRConfig 500, []) =
      Some (OT_ERROR_NONE, (mkCcaConfig 1 2 3 4, mkIRConfig 500, [])).
Proof.
  assert (Hbad : ¬ cca_valid (cca_of_args "5" "4B" "20" "6")).
  { vm_compute. intros [[[_ H]|H] _]; [by apply H | discriminate H]. }
  split; [exact cca_valid_ff |]. split; [exact Hbad |]. split.
  - exact (proj1 (ccacfg_set_validation store_radio (mkCcaConfig 0 0 0 0)
                    "ff" "4B" "20" "6" (mkCcaConfig 1 2 3 4, mkIRConfig 500, []))
                 cca_valid_ff).
  - exact (proj2 (ccacfg_set_validation store_radio (mkCcaConfig 0 0 0 0)
                    "5" "4B" "20" "6" (mkCcaConfig 1 2 3 4, mkIRConfig 500, []))
                 Hbad).
Defined.

Lemma ccacfg_set_get_roundtrip_witness :
  keeps_cca store_radio ∧ cca_valid (cca_of_args "ff" "4B" "20" "6") ∧
  ∃ r,
    (ProcessGetSetCcaCfg store_radio (mkCcaConfig 0 0 0 0) 4 ["ff"; "4B"; "20"; "6"]
       (mkCcaConfig 1 2 3 4, mkIRConfig 500, [])
       ≫= λ x, ProcessGetSetCcaCfg store_radio (mkCcaConfig 0 0 0 0) 0 [] x.2) =
      Some (OT_ERROR_NONE,
            (r, [] ++ [CallCcaConfigValue (cca_of_args "ff" "4B" "20" "6") 1;
                       CallCcaConfigValue (mkCcaConfig 0 0 0 0) 0]
                   ++ cca_report (cca_of_args "ff" "4B" "20" "6"))).
Proof.
  split; [exact store_radio_keeps_cca |]. split; [exact cca_valid_ff |].
  exact (ccacfg_set_get_roundtrip store_radio (mkCcaConfig 0 0 0 0) "ff" "4B" "20" "6"
           (mkCcaConfig 1 2 3 4, mkIRConfig 500, []) store_radio_keeps_cca cca_valid_ff).
Defined.

(** ** irthold *)

Lemma ProcessGetSetIRThreshold_set {R} (P : Radio R) (uninit : otIRConfig) (a0 : string)
    (s : State R) :
  100 ≤ to_uint16 (atoi a0) ≤ 1000 →
  ProcessGetSetIRThreshold P uninit 1 [a0] s =
    Some (OT_ERROR_NONE,
          ((otPlatRadioIRThresholdConfig P s.1 (mkIRConfig (to_uint16 (atoi a0))) 1).2,
           s.2 ++ [CallIRThresholdConfig (mkIRConfig (to_uint16 (atoi a0))) 1])).
Proof.
  intros H. unfold ProcessGetSetIRThreshold. change (1 =? 1) with true. cbv iota.
  cbn [mbind option_bind lookup list_lookup mIRThreshold]. cbv zeta.
  cbn [mIRThreshold].
  replace (100 <=? to_uint16 (atoi a0)) with true by (symmetry; apply Z.leb_le; lia).
  replace (to_uint16 (atoi a0) <=? 1000) with true by (symmetry; apply Z.leb_le; lia).
  reflexivity.
Qed.

(** X19. irthold with one argument: the threshold, cast to [uint16_t], is
    handed to the platform exactly when it lies in 100..1000; any other value
    only prints the range message. In both cases the result is
    [OT_ERROR_NONE]. *)
Theorem irthold_set_validation {R} (P : Radio R) (uninit : otIRConfig) (a0 : string)
    (s : State R) :
  (100 ≤ to_uint16 (atoi a0) ≤ 1000 →
   ProcessGetSetIRThreshold P uninit 1 [a0] s =
     Some (OT_ERROR_NONE,
           ((otPlatRadioIRThresholdConfig P s.1 (mkIRConfig (to_uint16 (atoi a0))) 1).2,
            s.2 ++ [CallIRThresholdConfig (mkIRConfig (to_uint16 (atoi a0))) 1])))
  ∧ (¬ (100 ≤ to_uint16 (atoi a0) ≤ 1000) →
     ProcessGetSetIRThreshold P uninit 1 [a0] s =
       Some (OT_ERROR_NONE, (s.1, s.2 ++ [CallCliOutput irthold_range_message []]))).
Proof.
  unfold ProcessGetSetIRThreshold. change (1 =? 1) with true. cbv iota.
  cbn [mbind option_bind lookup list_lookup mIRThreshold]. cbv zeta.
  cbn [mIRThreshold].
  split; intros H.
  - replace (100 <=? to_uint16 (atoi a0)) with true by (symmetry; apply Z.leb_le; lia).
    replace (to_uint16 (atoi a0) <=? 1000) with true by (symmetry; apply Z.leb_le; lia).
    reflexivity.
  - destruct (Z.leb_spec 100 (to_uint16 (atoi a0))),
      (Z.leb_spec (to_uint16 (atoi a0)) 1000); try reflexivity. lia.
Qed.

(** X20. On a platform that keeps the threshold, [irthold t] with [t] in
    100..1000 followed by [irthold] prints [t]. *)
Theorem irthold_set_get_roundtrip {R} (P : Radio R) (uninit : otIRConfig) (a0 : string)
    (t : Z) (s : State R) :
  keeps_ir P →
  atoi a0 = t → 100 ≤ t ≤ 1000 →
  ∃ r,
    (ProcessGetSetIRThreshold P uninit 1 [a0] s
       ≫= λ x, ProcessGetSetIRThreshold P uninit 0 [] x.2) =
      Some (OT_ERROR_NONE,
            (r, s.2 ++ [CallIRThresholdConfig (mkIRConfig t) 1;
                        CallIRThresholdConfig uninit 0;
                        CallCliOutput "OOB IR Threshold: %d\r\n" [t]])).
Proof.
  intros Hk Ha Ht.
  assert (Hu : to_uint16 (atoi a0) = t).
  { rewrite Ha. unfold to_uint16. apply Z.mod_small. lia. }
  rewrite (ProcessGetSetIRThreshold_set P uninit a0 s) by (rewrite Hu; lia).
  rewrite Hu. cbn [mbind option_bind]. unfold ProcessGetSetIRThreshold.
  change (0 =? 1) with false. change (0 =? 0) with true. cbv iota. cbn [fst snd].
  specialize (Hk s.1 (mkIRConfig t) uninit).
  destruct (otPlatRadioIRThresholdConfig P
              (otPlatRadioIRThresholdConfig P s.1 (mkIRConfig t) 1).2 uninit 0)
    as [cfg r]. simpl in Hk. subst cfg.
  exists r. unfold output. simpl. by rewrite <- !app_assoc.
Qed.

Lemma store_radio_keeps_ir : keeps_ir store_radio.
Proof. intros r cfg uninit. reflexivity. Defined.

Lemma irthold_set_validation_witness :
  (100 ≤ to_uint16 (atoi "500") ≤ 1000) ∧ ¬ (100 ≤ to_uint16 (atoi "5000") ≤ 1000) ∧
  ProcessGetSetIRThreshold store_radio (mkIRConfig 0) 1 ["500"]
    (mkCcaConfig 1 2 3 4, mkIRConfig 100, []) =
    Some (OT_ERROR_NONE,
          (mkCcaConfig 1 2 3 4, mkIRConfig 500,
           [CallIRThresholdConfig (mkIRConfig 500) 1]))
  ∧ ProcessGetSetIRThreshold store_radio (mkIRConfig 0) 1 ["5000"]
      (mkCcaConfig 1 2 3 4, mkIRConfig 100, []) =
      Some (OT_ERROR_NONE,
            (mkCcaConfig 1 2 3 4, mkIRConfig 100,
             [CallCliOutput irthold_range_message []])).
Proof.
  assert (H1 : 100 ≤ to_uint16 (atoi "500") ≤ 1000).
  { replace (to_uint16 (atoi "500")) with 500 by (vm_compute; reflexivity). lia. }
  assert (H2 : ¬ (100 ≤ to_uint16 (atoi "5000") ≤ 1000)).
  { replace (to_uint16 (atoi "5000")) with 5000 by (vm_compute; reflexivity). lia. }
  split; [exact H1 |]. split; [exact H2 |]. split.
  - exact (proj1 (irthold_set_validation store_radio (mkIRConfig 0) "500"
                    (mkCcaConfig 1 2 3 4, mkIRConfig 100, [])) H1).
  - exact (proj2 (irthold_set_validation store_radio (mkIRConfig 0) "5000"
                    (mkCcaConfig 1 2 3 4, mkIRConfig 100, [])) H2).
Defined.

Lemma irthold_set_get_roundtrip_witness :
  keeps_ir store_radio ∧ atoi "500" = 500 ∧
  ∃ r,
    (ProcessGetSetIRThreshold store_radio (mkIRConfig 0) 1 ["500"]
       (mkCcaConfig 1 2 3 4, mkIRConfig 100, [])
       ≫= λ x, ProcessGetSetIRThreshold store_radio (mkIRConfig 0) 0 [] x.2) =
      Some (OT_ERROR_NONE,
            (r, [] ++ [CallIRThresholdConfig (mkIRConfig 500) 1;
                       CallIRThresholdConfig (mkIRConfig 0) 0;
                       CallCliOutput "OOB IR Threshold: %d\r\n" [500]])).
Proof.
  split; [exact store_radio_keeps_ir |]. split; [vm_compute; reflexivity |].
  exact (irthold_set_get_roundtrip store_radio (mkIRConfig 0) "500" 500
           (mkCcaConfig 1 2 3 4, mkIRConfig 100, []) store_radio_keeps_ir eq_refl
           ltac:(lia)).
Defined.

End VendorProperties.

(** * The session socket, the main loop and the output buffer *)

Section SessionProperties.
Import Mainloop.

(** ** A connection that cannot be set up *)

(** X21. When [accept] or one of the two [fcntl] calls fails, the daemon keeps
    the session it has: both sockets stay as they were, and the descriptor
    that [accept] returned, if any, is closed again. *)
Theorem accept_failure_keeps_session (t : Tick) (d : Daemon) :
  fresh_accept t d →
  tAccept t = -1 ∨ tGetFd t = -1 ∨ tSetFd t = -1 →
  mSessionSocket (InitializeSessionSocket t d) = mSessionSocket d
  ∧ mListenSocket (InitializeSessionSocket t d) = mListenSocket d
  ∧ accepted (InitializeSessionSocket t d) = accepted d
  ∧ (tAccept t ≠ -1 →
     last (syscalls (InitializeSessionSocket t d)) = Some (SysClose (tAccept t))).
Proof.
  intros Hf Hfail. unfold InitializeSessionSocket, accept. cbv zeta.
  destruct (tAccept t =? -1) eqn:Ea; simpl; [apply Z.eqb_eq in Ea; by split_and! |].
  apply Z.eqb_neq in Ea as Ha.
  destruct Hf as [Hf|Hf]; [done |].
  assert (Hacc : (accepted d ∪ {[tAccept t]}) ∖ {[tAccept t]} = accepted d)
    by (clear -Hf; set_solver).
  destruct (tGetFd t =? -1) eqn:Eg; simpl; rewrite ?Eg, ?Ea; simpl.
  { split_and!; try done. intros _. by rewrite last_snoc. }
  destruct (tSetFd t =? -1) eqn:Es; simpl; rewrite ?Es, ?Ea; simpl.
  { split_and!; try done. intros _. by rewrite last_snoc. }
  apply Z.eqb_neq in Eg, Es. naive_solver.
Qed.

Lemma accept_failure_keeps_session_witness :
  fresh_accept (mkTick {[3]} ∅ 6 0 (-1) 0 0 []) daemon_with_session
  ∧ mSessionSocket (InitializeSessionSocket (mkTick {[3]} ∅ 6 0 (-1) 0 0 [])
                      daemon_with_session) = 5
  ∧ syscalls (InitializeSessionSocket (mkTick {[3]} ∅ 6 0 (-1) 0 0 [])
                daemon_with_session) =
      [SysAccept 3 6; SysFcntlGetFd 6 0; SysFcntlSetFd 6 1 (-1); SysClose 6].
Proof.
  assert (Hf : fresh_accept (mkTick {[3]} ∅ 6 0 (-1) 0 0 []) daemon_with_session).
  { right. unfold daemon_with_session. simpl. set_solver. }
  split; [exact Hf |].
  pose proof (accept_failure_keeps_session (mkTick {[3]} ∅ 6 0 (-1) 0 0 [])
                daemon_with_session Hf (or_intror (or_intror eq_refl))) as [H _].
  split; [exact H | reflexivity].
Defined.

(** ** The output buffer *)

Lemma truncatedMsg_length : length truncatedMsg = 16%nat.
Proof. reflexivity. Qed.

(** X22. What [OutputFormatV] hands to [send]: a text shorter than the line
    length goes out unchanged; a longer one is cut to one byte less than the
    line length, and the last 15 of these bytes are the marker
    [(truncated ...)]. *)
Theorem output_truncation (maxLine : Z) (buf text : list Z) :
  Z.of_nat (length truncatedMsg) < maxLine →
  Z.of_nat (length buf) = maxLine →
  ∃ buf' rval,
    OutputFormatV_buffer maxLine buf text = Some (buf', rval)
    ∧ rval = (if maxLine <=? Z.of_nat (length text)
              then maxLine - 1 else Z.of_nat (length text))
    ∧ take (Z.to_nat rval) buf' =
        if maxLine <=? Z.of_nat (length text)
        then take (Z.to_nat (maxLine - 16)) text ++ c_str "(truncated ...)"
        else text.
Proof.
  rewrite truncatedMsg_length. change (Z.of_nat 16) with 16. intros Hsz Hlen.
  unfold OutputFormatV_buffer, vsnprintf. cbv zeta.
  replace (0 <? maxLine) with true by (symmetry; apply Z.ltb_lt; lia).
  destruct (Z.leb_spec maxLine (Z.of_nat (length text))) as [Hlong|Hshort].
  - set (stored := take (Z.to_nat (maxLine - 1)) text).
    assert (Hst : length stored = Z.to_nat (maxLine - 1)).
    { unfold stored. rewrite length_take. lia. }
    rewrite (drop_ge buf) by lia. rewrite app_nil_r.
    unfold memcpy. rewrite truncatedMsg_length. change (Z.of_nat 16) with 16 in *.
    rewrite (proj2 (andb_true_iff _ _))
      by (split; apply Z.leb_le; rewrite ?length_app, ?Hst; simpl; lia).
    cbn [mbind option_bind]. eexists _, _. split; [reflexivity |]. split; [reflexivity |].
    assert (Hb1 : length (stored ++ [0]) = Z.to_nat maxLine).
    { rewrite length_app, Hst. cbn [length]. lia. }
    rewrite (drop_ge (stored ++ [0])) by lia.
    rewrite app_nil_r.
    rewrite (take_app_le stored) by lia. unfold stored. rewrite take_take.
    replace (Z.to_nat (maxLine - 16) `min` Z.to_nat (maxLine - 1))%nat
      with (Z.to_nat (maxLine - 16)) by lia.
    unfold truncatedMsg. rewrite app_assoc.
    apply take_app_length'. rewrite length_app, length_take.
    change (length (c_str "(truncated ...)")) with 15%nat. lia.
  - rewrite take_ge by lia.
    eexists _, _. split; [reflexivity |]. split; [reflexivity |].
    rewrite Nat2Z.id. apply take_app_length.
Qed.

Lemma output_truncation_witness :
  Z.of_nat (length truncatedMsg) < 20 ∧
  ∃ buf' rval,
    OutputFormatV_buffer 20 (replicate 20 0) (c_str "Done, with a long tail") =
      Some (buf', rval)
    ∧ rval = 19
    ∧ take (Z.to_nat rval) buf' = c_str "Done(truncated ...)".
Proof.
  split; [vm_compute; reflexivity |].
  exact (output_truncation 20 (replicate 20 0) (c_str "Done, with a long tail")
           eq_refl eq_refl).
Defined.

(** ** Output without a session, and a failing [send] *)

Lemma OutputFormatV_no_session (maxLine formatted sent : Z) (d : Daemon) :
  mSessionSocket d = -1 → (OutputFormatV maxLine formatted sent d).2 = d.
Proof.
  intros H. unfold OutputFormatV. rewrite H. simpl.
  by destruct (formatted <? 0).
Qed.

Lemma otCliInputLine_no_session (maxLine : Z) (outputs : list (Z * Z)) (d : Daemon) :
  mSessionSocket d = -1 → otCliInputLine maxLine outputs d = d.
Proof.
  intros H. unfold otCliInputLine. induction outputs as [|o outputs IH]; [done |].
  simpl. by rewrite OutputFormatV_no_session.
Qed.

(** X23. When [send] fails on an output of a command, the session is closed
    and everything the command prints after it is dropped without a system
    call: the line handler ends after that one [send] and the [close]. *)
Theorem send_failure_ends_output (maxLine formatted sent : Z) (rest : list (Z * Z))
    (d : Daemon) :
  mSessionSocket d ≠ -1 → 0 ≤ formatted → sent < 0 →
  otCliInputLine maxLine ((formatted, sent) :: rest) d =
    mkDaemon (mListenSocket d) (-1) (accepted d ∖ {[mSessionSocket d]})
             (syscalls d ++
              [SysSend (mSessionSocket d)
                       (if maxLine <=? formatted then maxLine - 1 else formatted) sent;
               SysClose (mSessionSocket d)]).
Proof.
  intros Hs Hf Hsent. unfold otCliInputLine. simpl foldl.
  fold (otCliInputLine maxLine rest).
  assert (Hout : (OutputFormatV maxLine formatted sent d).2 =
            mkDaemon (mListenSocket d) (-1) (accepted d ∖ {[mSessionSocket d]})
              (syscalls d ++
               [SysSend (mSessionSocket d)
                        (if maxLine <=? formatted then maxLine - 1 else formatted) sent;
                SysClose (mSessionSocket d)])).
  { unfold OutputFormatV.
    replace (formatted <? 0) with false by (symmetry; apply Z.ltb_ge; lia).
    rewrite (proj2 (Z.eqb_neq _ _) Hs). cbv zeta.
    replace (sent <? 0) with true by (symmetry; apply Z.ltb_lt; lia).
    unfold set_mSessionSocket, close, log. simpl. by rewrite <- app_assoc. }
  rewrite Hout. by apply otCliInputLine_no_session.
Qed.

Lemma send_failure_ends_output_witness :
  otCliInputLine 640 [(5, -1); (7, 7); (6, 6)] daemon_with_session =
    mkDaemon 3 (-1) ({[5]} ∖ {[5]}) [SysSend 5 5 (-1); SysClose 5].
Proof.
  exact (send_failure_ends_output 640 5 (-1) [(7, 7); (6, 6)] daemon_with_session
           ltac:(done) ltac:(lia) ltac:(lia)).
Defined.

(** ** What [Process] does to the daemon *)

Lemma extends_refl (maxLine : Z) (d : Daemon) : extends maxLine d d.
Proof. split; [done |]. exists []. by rewrite app_nil_r. Qed.

Lemma extends_trans (maxLine : Z) (d1 d2 d3 : Daemon) :
  extends maxLine d1 d2 → extends maxLine d2 d3 → extends maxLine d1 d3.
Proof.
  intros [H1 (c1 & E1 & F1)] [H2 (c2 & E2 & F2)]. split; [congruence |].
  exists (c1 ++ c2). split; [by rewrite E2, E1, app_assoc | by apply Forall_app].
Qed.

Lemma extends_log (maxLine : Z) (c : Sys) (d : Daemon) :
  send_within maxLine c → extends maxLine d (log c d).
Proof. intros H. split; [done |]. exists [c]. split; [done | by apply Forall_singleton]. Qed.

Lemma extends_close (maxLine fd : Z) (d : Daemon) : extends maxLine d (close fd d).
Proof. split; [done |]. exists [SysClose fd]. split; [done | by apply Forall_singleton]. Qed.

Lemma extends_set_mSessionSocket (maxLine fd : Z) (d : Daemon) :
  extends maxLine d (set_mSessionSocket fd d).
Proof. split; [done |]. exists []. by rewrite app_nil_r. Qed.

Lemma extends_accept (maxLine ret : Z) (d : Daemon) : extends maxLine d (accept ret d).
Proof.
  unfold accept. destruct (ret =? -1).
  - by apply extends_log.
  - split; [done |]. exists [SysAccept (mListenSocket d) ret].
    split; [done | by apply Forall_singleton].
Qed.

Lemma extends_drop_session (maxLine : Z) (d : Daemon) :
  extends maxLine d (set_mSessionSocket (-1) (close (mSessionSocket d) d)).
Proof.
  eapply extends_trans; [apply extends_close | apply extends_set_mSessionSocket].
Qed.

Lemma InitializeSessionSocket_extends (maxLine : Z) (t : Tick) (d : Daemon) :
  extends maxLine d (InitializeSessionSocket t d).
Proof.
  unfold InitializeSessionSocket. cbv zeta.
  pose proof (extends_accept maxLine (tAccept t) d) as Ha.
  destruct (tAccept t =? -1) eqn:Ea; simpl; [done |].
  set (d1 := accept (tAccept t) d) in *.
  assert (H1 : extends maxLine d (log (SysFcntlGetFd (tAccept t) (tGetFd t)) d1)).
  { eapply extends_trans; [exact Ha | by apply extends_log]. }
  destruct (tGetFd t =? -1) eqn:Eg; simpl; rewrite ?Eg, ?Ea; simpl.
  { eapply extends_trans; [exact H1 | apply extends_close]. }
  set (d2 := log (SysFcntlGetFd (tAccept t) (tGetFd t)) d1) in *.
  assert (H2 : extends maxLine d
            (log (SysFcntlSetFd (tAccept t) (Z.lor (tGetFd t) FD_CLOEXEC) (tSetFd t)) d2)).
  { eapply extends_trans; [exact H1 | by apply extends_log]. }
  destruct (tSetFd t =? -1) eqn:Es; simpl; rewrite ?Es, ?Ea; simpl.
  { eapply extends_trans; [exact H2 | apply extends_close]. }
  eapply extends_trans; [exact H2 |].
  eapply extends_trans; [| apply extends_set_mSessionSocket].
  match goal with |- context [if ?c then _ else _] => destruct c end;
    [apply extends_refl | apply extends_close].
Qed.

Lemma OutputFormatV_extends (maxLine formatted sent : Z) (d : Daemon) :
  0 < maxLine → extends maxLine d (OutputFormatV maxLine formatted sent d).2.
Proof.
  intros Hm. unfold OutputFormatV. cbv zeta.
  destruct (Z.ltb_spec formatted 0); simpl; [apply extends_refl |].
  destruct (mSessionSocket d =? -1); simpl; [apply extends_refl |].
  assert (Hl : extends maxLine d
            (log (SysSend (mSessionSocket d)
                    (if maxLine <=? formatted then maxLine - 1 else formatted) sent) d)).
  { apply extends_log. simpl. destruct (Z.leb_spec maxLine formatted); lia. }
  destruct (sent <? 0); simpl; [| exact Hl].
  eapply extends_trans; [exact Hl |]. apply (extends_drop_session maxLine (log _ d)).
Qed.

Lemma otCliInputLine_extends (maxLine : Z) (outputs : list (Z * Z)) (d : Daemon) :
  0 < maxLine → extends maxLine d (otCliInputLine maxLine outputs d).
Proof.
  intros Hm. unfold otCliInputLine. revert d.
  induction outputs as [|o outputs IH]; intros d; simpl; [apply extends_refl |].
  eapply extends_trans; [by apply OutputFormatV_extends | apply IH].
Qed.

(** X24. [Process] never changes the listen socket, only appends system calls
    to those made before, and every [send] among them hands over fewer bytes
    than a line holds. *)
Theorem process_sends_less_than_a_line (maxLine : Z) (cliEnable : bool) (t : Tick)
    (d d' : Daemon) :
  0 < maxLine →
  Process maxLine cliEnable t d = Some d' →
  mListenSocket d' = mListenSocket d
  ∧ ∃ calls, syscalls d' = syscalls d ++ calls ∧ Forall (send_within maxLine) calls.
Proof.
  intros Hm. change (Process maxLine cliEnable t d = Some d' → extends maxLine d d').
  unfold Process.
  destruct (mListenSocket d =? -1); [intros [= <-]; apply extends_refl |].
  destruct (decide (mListenSocket d ∈ tErrorFds t)); [done |].
  cbv zeta.
  set (d1 := if decide (mListenSocket d ∈ tReadFds t)
             then InitializeSessionSocket t d else d).
  assert (H1 : extends maxLine d d1).
  { unfold d1. destruct (decide (mListenSocket d ∈ tReadFds t));
      [apply InitializeSessionSocket_extends | apply extends_refl]. }
  clearbody d1.
  destruct (mSessionSocket d1 =? -1); [by intros [= <-] |].
  destruct (decide (mSessionSocket d1 ∈ tErrorFds t)).
  { intros [= <-]. eapply extends_trans; [exact H1 | apply extends_drop_session]. }
  destruct (decide (mSessionSocket d1 ∈ tReadFds t)); [| by intros [= <-]].
  assert (H2 : extends maxLine d (log (SysRead (mSessionSocket d1) (tRead t)) d1)).
  { eapply extends_trans; [exact H1 | by apply extends_log]. }
  destruct (0 <? tRead t).
  - destruct cliEnable; intros [= <-].
    + eapply extends_trans; [exact H2 | by apply otCliInputLine_extends].
    + eapply extends_trans; [exact H2 | by apply OutputFormatV_extends].
  - intros [= <-]. eapply extends_trans; [exact H2 |].
    apply (extends_drop_session maxLine (log _ d1)).
Qed.

Lemma process_sends_less_than_a_line_witness :
  mListenSocket
    (mkDaemon 3 5 {[5]} [SysRead 5 4; SysSend 5 9 9; SysSend 5 6 6]) = 3
  ∧ ∃ calls,
      [SysRead 5 4; SysSend 5 9 9; SysSend 5 6 6] = [] ++ calls
      ∧ Forall (send_within 10) calls.
Proof.
  exact (process_sends_less_than_a_line 10 true
           (mkTick {[5]} ∅ (-1) 0 0 4 0 [(40, 9); (6, 6)]) daemon_with_session
           (mkDaemon 3 5 {[5]} [SysRead 5 4; SysSend 5 9 9; SysSend 5 6 6])
           ltac:(lia) eq_refl).
Defined.

(** X25. With no connection waiting, a session whose descriptor is reported
    in error, or is readable with [read] returning 0 or less, is closed and
    forgotten; on an error nothing is read first. *)
Theorem session_dropped_on_error_or_eof (maxLine : Z) (cliEnable : bool) (t : Tick)
    (d : Daemon) :
  mListenSocket d ≠ -1 →
  mListenSocket d ∉ tErrorFds t → mListenSocket d ∉ tReadFds t →
  mSessionSocket d ≠ -1 →
  (mSessionSocket d ∈ tErrorFds t →
   Process maxLine cliEnable t d =
     Some (mkDaemon (mListenSocket d) (-1) (accepted d ∖ {[mSessionSocket d]})
             (syscalls d ++ [SysClose (mSessionSocket d)])))
  ∧ (mSessionSocket d ∉ tErrorFds t → mSessionSocket d ∈ tReadFds t → tRead t ≤ 0 →
     Process maxLine cliEnable t d =
       Some (mkDaemon (mListenSocket d) (-1) (accepted d ∖ {[mSessionSocket d]})
               (syscalls d ++ [SysRead (mSessionSocket d) (tRead t);
                               SysClose (mSessionSocket d)]))).
Proof.
  intros Hl He Hr Hs. unfold Process.
  rewrite (proj2 (Z.eqb_neq _ _) Hl).
  rewrite (decide_False (P := mListenSocket d ∈ tErrorFds t)) by done.
  rewrite (decide_False (P := mListenSocket d ∈ tReadFds t)) by done.
  cbv zeta. rewrite (proj2 (Z.eqb_neq _ _) Hs). split.
  - intros Hse. rewrite (decide_True (P := mSessionSocket d ∈ tErrorFds t)) by done.
    reflexivity.
  - intros Hse Hsr Hrd.
    rewrite (decide_False (P := mSessionSocket d ∈ tErrorFds t)) by done.
    rewrite (decide_True (P := mSessionSocket d ∈ tReadFds t)) by done.
    replace (0 <? tRead t) with false by (symmetry; apply Z.ltb_ge; lia).
    unfold set_mSessionSocket, close, log. simpl. by rewrite <- app_assoc.
Qed.

Lemma session_dropped_on_error_or_eof_witness :
  Process 640 true (mkTick ∅ {[5]} (-1) 0 0 0 0 []) daemon_with_session =
    Some (mkDaemon 3 (-1) ({[5]} ∖ {[5]}) [SysClose 5])
  ∧ Process 640 true (mkTick {[5]} ∅ (-1) 0 0 0 0 []) daemon_with_session =
      Some (mkDaemon 3 (-1) ({[5]} ∖ {[5]}) [SysRead 5 0; SysClose 5]).
Proof.
  split.
  - refine (proj1 (session_dropped_on_error_or_eof 640 true
                     (mkTick ∅ {[5]} (-1) 0 0 0 0 []) daemon_with_session _ _ _ _) _);
      simpl; first [done | set_solver].
  - refine (proj2 (session_dropped_on_error_or_eof 640 true
                     (mkTick {[5]} ∅ (-1) 0 0 0 0 []) daemon_with_session _ _ _ _) _ _ _);
      simpl; first [done | lia | set_solver].
Defined.

(** ** TearDown *)



(** ** Update *)

Lemma FD_SET_in_range (fd : Z) (set : gset Z) :
  0 ≤ fd < FD_SETSIZE → FD_SET fd set = Some (set ∪ {[fd]}).
Proof.
  intros H. unfold FD_SET.
  by rewrite (proj2 (andb_true_iff _ _)) by (split; [apply Z.leb_le | apply Z.ltb_lt]; lia).
Qed.

(** X27. [Update] adds exactly the descriptors the daemon holds to the read
    set and to the error set, and raises [mMaxFd] to the largest of them when
    that is larger; with no descriptor held the context stays as it is. *)
Theorem update_registers_held (d : Daemon) (c : otSysMainloopContext) :
  fd_or_none (mListenSocket d) → fd_or_none (mSessionSocket d) →
  ∃ c',
    Update d c = Some c'
    ∧ mReadFdSet c' = mReadFdSet c ∪ held d
    ∧ mErrorFdSet c' = mErrorFdSet c ∪ held d
    ∧ mMaxFd c ≤ mMaxFd c'
    ∧ (∀ fd, fd ∈ held d → fd ≤ mMaxFd c')
    ∧ (mMaxFd c' = mMaxFd c ∨ mMaxFd c' ∈ held d).
Proof.
  intros Hl Hs. unfold Update, held.
  destruct (Z.eqb_spec (mListenSocket d) (-1)) as [El|El];
    destruct (Z.eqb_spec (mSessionSocket d) (-1)) as [Es|Es].
  - exists c. cbn [mbind option_bind].
    split_and!; first [done | lia | by left | set_solver].
  - destruct Hs as [Hs|Hs]; [done |].
    cbn [mbind option_bind].
    rewrite !FD_SET_in_range by done. cbn [mbind option_bind].
    eexists. split; [reflexivity |]. simpl.
    destruct (Z.ltb_spec (mMaxFd c) (mSessionSocket d));
      (split_and!; [set_solver | set_solver | lia | | ]).
    + intros fd Hfd. assert (fd = mSessionSocket d) by set_solver. lia.
    + right. set_solver.
    + intros fd Hfd. assert (fd = mSessionSocket d) by set_solver. lia.
    + by left.
  - destruct Hl as [Hl|Hl]; [done |].
    rewrite !FD_SET_in_range by done. cbn [mbind option_bind mSessionSocket].
   
    eexists. split; [reflexivity |]. simpl.
    destruct (Z.ltb_spec (mMaxFd c) (mListenSocket d));
      (split_and!; [set_solver | set_solver | lia | | ]).
    + intros fd Hfd. assert (fd = mListenSocket d) by set_solver. lia.
    + right. set_solver.
    + intros fd Hfd. assert (fd = mListenSocket d) by set_solver. lia.
    + by left.
  - destruct Hl as [Hl|Hl]; [done |]. destruct Hs as [Hs|Hs]; [done |].
    rewrite !FD_SET_in_range by done. cbn [mbind option_bind].
   
    cbn [mReadFdSet mErrorFdSet mMaxFd].
    rewrite !FD_SET_in_range by done. cbn [mbind option_bind].
    eexists. split; [reflexivity |]. simpl.
    destruct (Z.ltb_spec (mMaxFd c) (mListenSocket d)) as [H1|H1];
      match goal with |- context [?a <? ?b] => destruct (Z.ltb_spec a b) as [H2|H2] end;
      (split_and!; [set_solver | set_solver | lia | | ]);
      try (intros fd Hfd;
           assert (fd = mListenSocket d ∨ fd = mSessionSocket d) as [->| ->]
             by set_solver; lia);
      first [by left | right; set_solver].
Qed.

Lemma update_registers_held_witness :
  fd_or_none 3 ∧ fd_or_none 5 ∧
  ∃ c',
    Update daemon_with_session (mkContext {[0]} ∅ 4) = Some c'
    ∧ mReadFdSet c' = {[0]} ∪ held daemon_with_session
    ∧ mErrorFdSet c' = ∅ ∪ held daemon_with_session
    ∧ 4 ≤ mMaxFd c'
    ∧ (∀ fd, fd ∈ held daemon_with_session → fd ≤ mMaxFd c')
    ∧ (mMaxFd c' = 4 ∨ mMaxFd c' ∈ held daemon_with_session).
Proof.
  assert (H3 : fd_or_none 3) by (right; unfold FD_SETSIZE; lia).
  assert (H5 : fd_or_none 5) by (right; unfold FD_SETSIZE; lia).
  split; [exact H3 |]. split; [exact H5 |].
  exact (update_registers_held daemon_with_session (mkContext {[0]} ∅ 4) H3 H5).
Defined.

End SessionProperties.

(** * Start up *)

Section LifecycleProperties.
Import Session.
Import Lifecycle.

Lemma size_t_of_negative_int (rval : Z) :
  is_int rval →
  (rval <? 0) && (sizeof_Filename <=? to_size_t rval) = (rval <? 0).
Proof.
  intros [Hlo Hhi]. destruct (Z.ltb_spec rval 0) as [Hn|Hn]; [| done].
  simpl. apply Z.leb_le. unfold to_size_t, sizeof_Filename.
  assert (H : rval mod 2 ^ 64 = rval + 2 ^ 64).
  { symmetry. apply (Z.mod_unique_pos _ _ (-1)); lia. }
  rewrite H. lia.
Qed.

Lemma GetFilename_run (default : string) (os : Os) (aPattern : string) (p : Proc) :
  is_int (snprintf os aPattern (netif_name default os)) →
  GetFilename default os aPattern p =
    (if snprintf os aPattern (netif_name default os) <? 0
     then inr OT_EXIT_INVALID_ARGUMENTS
     else inl (mkFilename aPattern (netif_name default os)),
     mkProc (daemon p) (mDaemonLock p)
            (oscalls p ++ [OsSnprintf sizeof_Filename aPattern (netif_name default os)
                             (snprintf os aPattern (netif_name default os))])).
Proof.
  intros Hint. unfold GetFilename. cbv zeta. fold (netif_name default os).
  rewrite (size_t_of_negative_int _ Hint).
  unfold bindX, call, DieNow, retX.
  by destruct (snprintf os aPattern (netif_name default os) <? 0).
Qed.

(** X28. [GetFilename] ends the process only when [snprintf] reports an
    error. A name that does not fit the buffer, for which [snprintf] returns
    the size of the buffer or more, is accepted as it was cut. *)
Theorem getfilename_accepts_cut_name (default : string) (os : Os) (aPattern : string)
    (p : Proc) :
  is_int (snprintf os aPattern (netif_name default os)) →
  (snprintf os aPattern (netif_name default os) < 0 →
   (GetFilename default os aPattern p).1 = inr OT_EXIT_INVALID_ARGUMENTS)
  ∧ (0 ≤ snprintf os aPattern (netif_name default os) →
     (GetFilename default os aPattern p).1 =
       inl (mkFilename aPattern (netif_name default os))).
Proof.
  intros Hint. rewrite (GetFilename_run default os aPattern p Hint). simpl.
  split; intros H.
  - by replace (snprintf os aPattern (netif_name default os) <? 0) with true
      by (symmetry; apply Z.ltb_lt; lia).
  - by replace (snprintf os aPattern (netif_name default os) <? 0) with false
      by (symmetry; apply Z.ltb_ge; lia).
Qed.

Lemma getfilename_accepts_cut_name_witness :
  is_int 300 ∧ sizeof_Filename ≤ 300 ∧
  (GetFilename "wpan0" (mkOs "" (λ _ _, 300) 3 4 0 None 0 0 0 0 3)
     "/run/openthread-%s.sock" proc_init).1 =
    inl (mkFilename "/run/openthread-%s.sock" "wpan0").
Proof.
  assert (Hi : is_int 300) by (unfold is_int; lia).
  split; [exact Hi |]. split; [unfold sizeof_Filename; lia |].
  apply (getfilename_accepts_cut_name "wpan0"
           (mkOs "" (λ _ _, 300) 3 4 0 None 0 0 0 0 3) "/run/openthread-%s.sock"
           proc_init Hi).
  simpl. lia.
Defined.


(** Runs the start up code on the results at hand. *)
Ltac run_setup :=
  unfold bindX, call, DieNow, retX, store_mListenSocket, store_mDaemonLock,
    load_mListenSocket, load_mDaemonLock, set_mListenSocket;
  cbn [daemon mDaemonLock oscalls mListenSocket mSessionSocket accepted syscalls].

Ltac branch :=
  match goal with
  | |- context [if ?c then _ else _] => destruct c eqn:?
  | |- context [match ?c with Some _ => _ | None => _ end] => destruct c eqn:?
  end; run_setup.

Lemma lock_guards_sound (calls : list OsCall) :
  ∀ locked, lock_guards locked calls = true →
  ∀ pre c post, calls = pre ++ c :: post → touches_socket_file c →
  locked = true ∨ Exists takes_lock pre.
Proof.
  induction calls as [|c0 calls IH]; intros locked Hg pre c post Heq Hc.
  { by destruct pre. }
  destruct pre as [|c1 pre]; simpl in Heq; injection Heq as <- ->.
  { destruct c0; try done; simpl in Hg; apply andb_true_iff in Hg as [Hg _]; by left. }
  assert (Hrest : ∀ l, lock_guards l (pre ++ c :: post) = true →
            l = locked ∨ (l = true ∧ takes_lock c0) →
            locked = true ∨ Exists takes_lock (c0 :: pre)).
  { intros l Hl Hcase. destruct (IH l Hl pre c post eq_refl Hc) as [Ht|Hex].
    - destruct Hcase as [->|[_ Htl]]; [by left |]. right. by apply Exists_cons_hd.
    - right. by apply Exists_cons_tl. }
  destruct c0 as [? ? ? ?|?|? ?|fd operation r|?|? ?|? ?|? ? ?|? ? ?|? ?| |?|];
    simpl in Hg;
    try (by apply (Hrest locked Hg); left);
    try (apply andb_true_iff in Hg as [_ Hg]; by apply (Hrest locked Hg); left).
  destruct locked; simpl in Hg; [by left |].
  destruct ((operation =? Z.lor LOCK_EX LOCK_NB) && negb (r =? -1)) eqn:E.
  - apply (Hrest true Hg). right. split; [done |].
    apply andb_true_iff in E as [E1 E2]. apply Z.eqb_eq in E1 as ->.
    apply negb_true_iff, Z.eqb_neq in E2. by exists fd, r.
  - apply (Hrest false Hg). by left.
Qed.

(** X29. In every run of [SetUp], to its return or to the end of the process,
    the socket file is removed and bound only after the exclusive lock was
    taken: each [unlink] and each [bind] comes after a successful [flock]. *)
Theorem setup_locks_before_socket_file (basename default : string)
    (cliEnable androidInit : bool) (os : Os) (p : Proc) (pre post : list OsCall)
    (c : OsCall) :
  is_int (snprintf os (OPENTHREAD_POSIX_DAEMON_SOCKET_LOCK basename)
            (netif_name default os)) →
  is_int (snprintf os (OPENTHREAD_POSIX_DAEMON_SOCKET_NAME basename)
            (netif_name default os)) →
  is_int (snprintf os "ot-daemon/%s.sock" (netif_name default os)) →
  oscalls (SetUp basename default cliEnable androidInit os p).2 =
    oscalls p ++ pre ++ c :: post →
  touches_socket_file c →
  Exists takes_lock pre.
Proof.
  intros Hi1 Hi2 Hi3 Hcalls Hc.
  assert (Hg : ∃ calls,
            oscalls (SetUp basename default cliEnable androidInit os p).2 =
              oscalls p ++ calls
            ∧ lock_guards false calls = true).
  { clear Hcalls Hc. unfold SetUp, createListenSocketOrDie. run_setup.
    destruct (mListenSocket (daemon p) =? -1) eqn:El; run_setup.
    2:{ destruct cliEnable; run_setup; eexists;
          (split; [repeat (rewrite <- (app_assoc (oscalls p)); simpl); reflexivity
                  | reflexivity]). }
    destruct androidInit.
    - rewrite (GetFilename_run default os _ _ Hi3). run_setup.
      repeat branch; eexists;
        (split; [repeat (rewrite <- (app_assoc (oscalls p)); simpl); reflexivity
                | reflexivity]).
    - run_setup. destruct (oSocket os =? -1) eqn:Es; run_setup.
      { eexists. split; [reflexivity | reflexivity]. }
      rewrite (GetFilename_run default os _ _ Hi1). run_setup.
      destruct (snprintf os _ _ <? 0) eqn:Ef1; run_setup.
      { eexists. split; [repeat (rewrite <- (app_assoc (oscalls p)); simpl); reflexivity
                        | reflexivity]. }
      destruct (oOpen os =? -1) eqn:Eo; run_setup.
      { eexists. split; [repeat (rewrite <- (app_assoc (oscalls p)); simpl); reflexivity
                        | reflexivity]. }
      destruct (oFlock os =? -1) eqn:Efl; run_setup.
      { eexists. split; [repeat (rewrite <- (app_assoc (oscalls p)); simpl); reflexivity
                        | simpl; rewrite ?Efl; reflexivity]. }
      rewrite (GetFilename_run default os _ _ Hi2). run_setup.
      repeat branch; eexists;
        (split; [repeat (rewrite <- (app_assoc (oscalls p)); simpl); reflexivity
                | simpl; rewrite ?Efl; reflexivity]). }
  destruct Hg as (calls & Hcalls' & Hg). rewrite Hcalls' in Hcalls.
  apply app_inv_head in Hcalls.
  destruct (lock_guards_sound calls false Hg pre c post Hcalls Hc) as [?|?]; done.
Qed.


Lemma setup_locks_before_socket_file_witness :
  Exists takes_lock
    [OsSocketWithCloseExec 3;
     OsSnprintf 108 "/run/openthread-%s.lock" "wpan0" 20;
     OsOpen (mkFilename "/run/openthread-%s.lock" "wpan0") 4;
     OsFlock 4 6 0;
     OsSnprintf 108 "/run/openthread-%s.sock" "wpan0" 20].
Proof.
  assert (Hi : is_int 20) by (unfold is_int; lia).
  exact (setup_locks_before_socket_file "/run/openthread-%s" "wpan0" true false os_ok
           proc_init
           [OsSocketWithCloseExec 3;
            OsSnprintf 108 "/run/openthread-%s.lock" "wpan0" 20;
            OsOpen (mkFilename "/run/openthread-%s.lock" "wpan0") 4;
            OsFlock 4 6 0;
            OsSnprintf 108 "/run/openthread-%s.sock" "wpan0" 20]
           [OsGetenv "OT_DAEMON_ALLOW_ALL" (Some "1"); OsUmask 0 18;
            OsBind 3 (mkFilename "/run/openthread-%s.sock" "wpan0") 0;
            OsUmask 18 0; OsListen 3 1 0; OsCliInitUsingDaemon;
            OsCliSetUserCommands kCommands; OsMainloopAdd]
           (OsUnlink (mkFilename "/run/openthread-%s.sock" "wpan0"))
           Hi Hi Hi eq_refl I).
Defined.

Ltac results :=
  repeat match goal with
  | H : (_ =? _) = true |- _ => apply Z.eqb_eq in H
  | H : (_ =? _) = false |- _ => apply Z.eqb_neq in H
  | H : (_ <? _) = true |- _ => apply Z.ltb_lt in H
  | H : (_ <? _) = false |- _ => apply Z.ltb_ge in H
  end.

(** X30. [SetUp] on a daemon that has no listen socket (general build, where
    the daemon creates the socket itself) returns exactly when the socket,
    both file names, the lock file, the lock, [bind] and [listen] all
    succeed; the daemon then holds the new socket and the lock descriptor and
    listens with a backlog of 1. On a daemon that already has a listen socket
    [SetUp] creates nothing: it only registers the CLI, the commands and the
    main loop source again. *)
Theorem setup_outcome (basename default : string) (cliEnable : bool) (os : Os)
    (p : Proc) :
  is_int (snprintf os (OPENTHREAD_POSIX_DAEMON_SOCKET_LOCK basename)
            (netif_name default os)) →
  is_int (snprintf os (OPENTHREAD_POSIX_DAEMON_SOCKET_NAME basename)
            (netif_name default os)) →
  (mListenSocket (daemon p) = -1 →
   ((SetUp basename default cliEnable false os p).1 = inl tt ↔
      oSocket os ≠ -1
      ∧ 0 ≤ snprintf os (OPENTHREAD_POSIX_DAEMON_SOCKET_LOCK basename)
              (netif_name default os)
      ∧ oOpen os ≠ -1
      ∧ oFlock os ≠ -1
      ∧ 0 ≤ snprintf os (OPENTHREAD_POSIX_DAEMON_SOCKET_NAME basename)
              (netif_name default os)
      ∧ oBind os ≠ -1
      ∧ oListen os ≠ -1)
   ∧ ((SetUp basename default cliEnable false os p).1 = inl tt →
      mListenSocket (daemon (SetUp basename default cliEnable false os p).2) = oSocket os
      ∧ mDaemonLock (SetUp basename default cliEnable false os p).2 = oOpen os
      ∧ OsListen (oSocket os) 1 (oListen os)
          ∈ oscalls (SetUp basename default cliEnable false os p).2))
  ∧ (mListenSocket (daemon p) ≠ -1 →
     SetUp basename default cliEnable false os p =
       (inl tt,
        mkProc (daemon p) (mDaemonLock p)
          (oscalls p ++ (if cliEnable then [OsCliInitUsingDaemon] else [])
             ++ [OsCliSetUserCommands kCommands; OsMainloopAdd]))).
Proof.
  intros Hi1 Hi2. split.
  - intros El. unfold SetUp, createListenSocketOrDie. run_setup.
    rewrite El. change (-1 =? -1) with true. run_setup.
    destruct (oSocket os =? -1) eqn:Es; run_setup.
    { results. split; [split; [done | intros (? & _); done] | done]. }
    rewrite (GetFilename_run default os _ _ Hi1). run_setup.
    destruct (snprintf os (OPENTHREAD_POSIX_DAEMON_SOCKET_LOCK basename) _ <? 0) eqn:Ef1;
      run_setup.
    { results. split; [split; [done | intros (_ & ? & _); lia] | done]. }
    destruct (oOpen os =? -1) eqn:Eo; run_setup.
    { results. split; [split; [done | intros (_ & _ & ? & _); done] | done]. }
    destruct (oFlock os =? -1) eqn:Efl; run_setup.
    { results. split; [split; [done | intros (_ & _ & _ & ? & _); done] | done]. }
    rewrite (GetFilename_run default os _ _ Hi2). run_setup.
    destruct (snprintf os (OPENTHREAD_POSIX_DAEMON_SOCKET_NAME basename) _ <? 0) eqn:Ef2;
      run_setup.
    { results. split; [split; [done | intros (_ & _ & _ & _ & ? & _); lia] | done]. }
    destruct (oBind os =? -1) eqn:Eb.
    { destruct (oGetenv os) as [v|]; [destruct (bool_decide (c_str "1" = c_str v)) |];
        run_setup; rewrite ?Eb; run_setup; results;
        (split; [split; [done | intros (_ & _ & _ & _ & _ & ? & _); done] | done]). }
    destruct (oListen os =? -1) eqn:Eli.
    { destruct (oGetenv os) as [v|]; [destruct (bool_decide (c_str "1" = c_str v)) |];
        run_setup; rewrite ?Eb; run_setup; rewrite ?Eli; run_setup; results;
        (split; [split; [done | intros (_ & _ & _ & _ & _ & _ & ?); done] | done]). }
    destruct (oGetenv os) as [v|]; [destruct (bool_decide (c_str "1" = c_str v)) |];
      destruct cliEnable;
      run_setup; rewrite ?Eb; run_setup; rewrite ?Eli; run_setup; results;
      (split; [split; [intros _; split_and!; first [done | lia] | done] |];
       intros _; split_and!; [done | done | set_solver]).
  - intros El. unfold SetUp. run_setup. rewrite (proj2 (Z.eqb_neq _ _) El). run_setup.
    destruct cliEnable; run_setup; simpl; by rewrite <- ?app_assoc.
Qed.

Lemma setup_outcome_witness :
  (SetUp "/run/openthread-%s" "wpan0" true false os_ok proc_init).1 = inl tt
  ∧ (SetUp "/run/openthread-%s" "wpan0" true false os_locked proc_init).1 ≠ inl tt
  ∧ mDaemonLock (SetUp "/run/openthread-%s" "wpan0" true false os_ok proc_init).2 = 4.
Proof.
  assert (Hi : is_int 20) by (unfold is_int; lia).
  pose proof (proj1 (setup_outcome "/run/openthread-%s" "wpan0" true os_ok proc_init Hi Hi)
                eq_refl) as [Hok Hfields].
  pose proof (proj1 (setup_outcome "/run/openthread-%s" "wpan0" true os_locked proc_init
                       Hi Hi) eq_refl) as [Hlocked _].
  assert (H1 : (SetUp "/run/openthread-%s" "wpan0" true false os_ok proc_init).1 = inl tt).
  { apply Hok. simpl. split_and!; lia. }
  split; [exact H1 |]. split.
  - intros H. apply Hlocked in H. simpl in H. lia.
  - exact (proj1 (proj2 (Hfields H1))).
Defined.

End LifecycleProperties.
